(** * StashtoEmby: path templating, cleanup, downloads and workers

    A shallow embedding of the parts of the StashtoEmby plugins that
    compute destination paths and drive filesystem and HTTP effects:
    - [plugins/AutoMoveOrganized/auto_move_organized.py]
    - [plugins/actorSyncEmby/emby_uploader.py], [actor_sync_worker.py]
    - [plugins/StudioToCollection/StudioToCollection.py], [hook_handler.py]

    Python values are modelled by [pyval]; a Python dict is an
    association list with unique keys.  Raising code returns [res].
    Paths follow CPython's [posixpath] ([os.sep = "/"]).  Strings are
    ASCII strings. *)

From Stdlib Require Import String Ascii List ZArith Bool Lia.
Import ListNotations.
Open Scope list_scope.
Open Scope string_scope.
Set Warnings "-register-all".

(* ------------------------------------------------------------------ *)
(** ** Python values and exceptions *)

Inductive pyval : Type :=
  | PNone
  | PBool (b : bool)
  | PInt (z : Z)
  | PStr (s : string)
  | PList (l : list pyval)
  | PDict (d : list (string * pyval)).

Inductive pyexc : Type :=
  | KeyError | TypeError | ValueError | IndexError | AttributeError
  | RuntimeError | FileNotFoundError | OSError | NameError | OverflowError
  (** an input outside this model: for [str.format] a conversion, a
      format spec, attribute or item access or a nested field *)
  | OutsideModel.

Inductive res (A : Type) : Type :=
  | Ok (a : A)
  | Exc (e : pyexc).
Arguments Ok {A} a.
Arguments Exc {A} e.

Definition bind {A B} (m : res A) (k : A -> res B) : res B :=
  match m with Ok a => k a | Exc e => Exc e end.
Notation "x <- m ;; k" := (bind m (fun x => k))
  (at level 61, m at next level, right associativity).

(** Python truthiness. *)
Definition truthy (v : pyval) : bool :=
  match v with
  | PNone => false
  | PBool b => b
  | PInt z => negb (Z.eqb z 0)
  | PStr s => negb (String.eqb s "")
  | PList l => match l with [] => false | _ => true end
  | PDict d => match d with [] => false | _ => true end
  end.

(** [a or b] *)
Definition py_or (a b : pyval) : pyval := if truthy a then a else b.

Fixpoint assoc_get {V} (d : list (string * V)) (k : string) : option V :=
  match d with
  | [] => None
  | (k', v) :: d' => if String.eqb k k' then Some v else assoc_get d' k
  end.

(** [d.get(k, default)] on a dict. *)
Definition dget (d : list (string * pyval)) (k : string) (default : pyval) : pyval :=
  match assoc_get d k with Some v => v | None => default end.

(** [v.get(k, default)] where [v] must be a dict. *)
Definition vget (v : pyval) (k : string) (default : pyval) : res pyval :=
  match v with
  | PDict d => Ok (dget d k default)
  | _ => Exc AttributeError
  end.

(** [d[k]] *)
Definition dindex (d : list (string * pyval)) (k : string) : res pyval :=
  match assoc_get d k with Some v => Ok v | None => Exc KeyError end.

(* ------------------------------------------------------------------ *)
(** ** Strings *)

Definition slash : ascii := "/"%char.
Definition bslash : ascii := "\"%char.

Fixpoint str_rev (s : string) : string :=
  match s with
  | EmptyString => EmptyString
  | String c s' => str_rev s' ++ String c EmptyString
  end.

Fixpoint starts_with (p s : string) : bool :=
  match p, s with
  | EmptyString, _ => true
  | String c p', String d s' => Ascii.eqb c d && starts_with p' s'
  | String _ _, EmptyString => false
  end.

Definition ends_with (p s : string) : bool :=
  starts_with (str_rev p) (str_rev s).

(** Characters for which [str.isspace()] holds, restricted to ASCII. *)
Definition py_space (c : ascii) : bool :=
  let n := nat_of_ascii c in
  ((9 <=? n)%nat && (n <=? 13)%nat) || ((28 <=? n)%nat && (n <=? 32)%nat).

Fixpoint lstrip_ws (s : string) : string :=
  match s with
  | String c s' => if py_space c then lstrip_ws s' else s
  | EmptyString => EmptyString
  end.

(** [str.strip()] *)
Definition py_strip (s : string) : string :=
  str_rev (lstrip_ws (str_rev (lstrip_ws s))).

(** [s.replace(a, b)] for a one-character [a] and [b]. *)
Fixpoint replace_char (a b : ascii) (s : string) : string :=
  match s with
  | EmptyString => EmptyString
  | String c s' =>
      String (if Ascii.eqb c a then b else c) (replace_char a b s')
  end.

(** [s.split(c)] for a one-character separator: empty fields kept. *)
Fixpoint split_char (c : ascii) (s : string) : list string :=
  match s with
  | EmptyString => [EmptyString]
  | String d s' =>
      let rest := split_char c s' in
      if Ascii.eqb d c then EmptyString :: rest
      else match rest with
           | f :: fs => String d f :: fs
           | [] => [String d EmptyString]
           end
  end.

(** [c.join(parts)] *)
Fixpoint join_str (c : string) (parts : list string) : string :=
  match parts with
  | [] => EmptyString
  | [p] => p
  | p :: ps => p ++ c ++ join_str c ps
  end.

(** [s.split(sep, 1)] for the two-character separator ["->"]: [None]
    when the separator does not occur, else the two halves. *)
Fixpoint split_arrow (s : string) : option (string * string) :=
  match s with
  | String "-" (String ">" rest) => Some (EmptyString, rest)
  | String c s' =>
      match split_arrow s' with
      | Some (a, b) => Some (String c a, b)
      | None => None
      end
  | EmptyString => None
  end.

(** [s.rfind(c)] as an option index. *)
Fixpoint rfind (c : ascii) (s : string) : option nat :=
  match s with
  | EmptyString => None
  | String d s' =>
      match rfind c s' with
      | Some i => Some (S i)
      | None => if Ascii.eqb c d then Some 0 else None
      end
  end.

Fixpoint repeat_str (n : nat) (s : string) : string :=
  match n with 0 => EmptyString | S n' => s ++ repeat_str n' s end.

(** Decimal rendering of an integer, as [str(int)]. *)
Fixpoint digits_of_pos (fuel : nat) (n : Z) (acc : string) : string :=
  match fuel with
  | 0 => acc
  | S f =>
      let d := Z.modulo n 10 in
      let acc' := String (ascii_of_nat (48 + Z.to_nat d)%nat) acc in
      if Z.ltb n 10 then acc' else digits_of_pos f (Z.div n 10) acc'
  end.

Definition str_of_Z (z : Z) : string :=
  if Z.ltb z 0 then "-" ++ digits_of_pos (S (Z.to_nat (Z.log2 (- z)))) (- z) ""
  else digits_of_pos (S (Z.to_nat (Z.log2 z))) z "".

(* ------------------------------------------------------------------ *)
(** ** [posixpath] *)

Definition isabs (p : string) : bool := starts_with "/" p.

(** One step of the component loop of [posixpath.normpath]; the stack
    holds [new_comps] last-first. *)
Definition normpath_step (initial : nat) (stack : list string) (comp : string)
  : list string :=
  if String.eqb comp "" || String.eqb comp "." then stack
  else if negb (String.eqb comp "..")
          || (Nat.eqb initial 0 && match stack with [] => true | _ => false end)
          || match stack with top :: _ => String.eqb top ".." | [] => false end
  then comp :: stack
  else match stack with _ :: st => st | [] => [] end.

Definition normpath (p : string) : string :=
  if String.eqb p "" then "." else
  let initial :=
    if starts_with "/" p then
      if starts_with "//" p && negb (starts_with "///" p) then 2 else 1
    else 0 in
  let stack := fold_left (normpath_step initial) (split_char slash p) [] in
  let r := repeat_str initial "/" ++ join_str "/" (rev stack) in
  if String.eqb r "" then "." else r.

(** [posixpath.join(a, b)] *)
Definition join2 (a b : string) : string :=
  if starts_with "/" b then b
  else if String.eqb a "" || ends_with "/" a then a ++ b
  else a ++ "/" ++ b.

(** [posixpath.join(a, *bs)] *)
Definition path_join (a : string) (bs : list string) : string :=
  fold_left join2 bs a.

(** Index just after the last ["/"], 0 when there is none. *)
Definition after_last_sep (p : string) : nat :=
  match rfind slash p with Some i => S i | None => 0 end.

Fixpoint rstrip_slash_rev (r : string) : string :=
  match r with
  | String "/" r' => rstrip_slash_rev r'
  | _ => r
  end.

(** [posixpath.dirname] *)
Definition dirname (p : string) : string :=
  let i := after_last_sep p in
  let head := substring 0 i p in
  if negb (String.eqb head "") && negb (String.eqb head (repeat_str (String.length head) "/"))
  then str_rev (rstrip_slash_rev (str_rev head))
  else head.

(** [posixpath.basename] *)
Definition basename (p : string) : string :=
  let i := after_last_sep p in
  substring i (String.length p - i) p.

Fixpoint all_dots (s : string) : bool :=
  match s with
  | EmptyString => true
  | String c s' => Ascii.eqb c "."%char && all_dots s'
  end.

(** [posixpath.splitext] (CPython's [genericpath._splitext]). *)
Definition splitext (p : string) : string * string :=
  let sepI := match rfind slash p with Some i => Z.of_nat i | None => (-1)%Z end in
  let dotI := match rfind "."%char p with Some i => Z.of_nat i | None => (-1)%Z end in
  if Z.ltb sepI dotI then
    let fstart := Z.to_nat (sepI + 1) in
    let d := Z.to_nat dotI in
    if all_dots (substring fstart (d - fstart) p) then (p, "")
    else (substring 0 d p, substring d (String.length p - d) p)
  else (p, "").

(** [posixpath.abspath], with the process working directory [cwd]
    ([os.getcwd()], an absolute path) made explicit. *)
Definition abspath (cwd p : string) : string :=
  normpath (if isabs p then p else join2 cwd p).

Fixpoint common_prefix_len (a b : list string) : nat :=
  match a, b with
  | x :: a', y :: b' => if String.eqb x y then S (common_prefix_len a' b') else 0
  | _, _ => 0
  end.

(** [posixpath.relpath(path, start)] *)
Definition relpath (cwd path start : string) : res string :=
  if String.eqb path "" then Exc ValueError else
  let start_list := filter (fun x => negb (String.eqb x "")) (split_char slash (abspath cwd start)) in
  let path_list := filter (fun x => negb (String.eqb x "")) (split_char slash (abspath cwd path)) in
  let i := common_prefix_len start_list path_list in
  let rel_list := app (repeat ".." (length start_list - i)) (skipn i path_list) in
  match rel_list with
  | [] => Ok "."
  | r :: rs => Ok (path_join r rs)
  end.

(* ------------------------------------------------------------------ *)
(** ** [str] and [str.format] on the values of a template *)

(** [str(v)] for scalars; the [repr] of containers is not modelled. *)
Definition py_str (v : pyval) : res string :=
  match v with
  | PNone => Ok "None"
  | PBool b => Ok (if b then "True" else "False")
  | PInt z => Ok (str_of_Z z)
  | PStr s => Ok s
  | PList _ | PDict _ => Exc OutsideModel
  end.

Fixpoint all_digits (s : string) : bool :=
  match s with
  | EmptyString => true
  | String c s' =>
      let n := nat_of_ascii c in ((48 <=? n)%nat && (n <=? 57)%nat) && all_digits s'
  end.

(** Scan a replacement field after its opening ["{"]: CPython's
    [MarkupIterator] counts braces until the matching ["}"]. *)
Fixpoint take_field (depth : nat) (s : string) : option (string * string) :=
  match s with
  | EmptyString => None
  | String "}" r =>
      match depth with
      | 0 => Some (EmptyString, r)
      | S d => match take_field d r with
               | Some (f, r') => Some (String "}" f, r')
               | None => None
               end
      end
  | String "{" r =>
      match take_field (S depth) r with
      | Some (f, r') => Some (String "{" f, r')
      | None => None
      end
  | String c r =>
      match take_field depth r with
      | Some (f, r') => Some (String c f, r')
      | None => None
      end
  end.

(** Split a field into the part before the first of [. [ ! :] and the rest. *)
Fixpoint field_head (s : string) : string * string :=
  match s with
  | EmptyString => (EmptyString, EmptyString)
  | String c r =>
      if Ascii.eqb c "."%char || Ascii.eqb c "["%char
         || Ascii.eqb c "!"%char || Ascii.eqb c ":"%char
      then (EmptyString, s)
      else let (h, t) := field_head r in (String c h, t)
  end.

(** The text of one replacement field of [template.format( **kw)]:
    an empty or numeric name is positional, and no positional argument
    is passed ([IndexError]); a missing name is a [KeyError]. *)
Definition format_field (field : string) (kw : list (string * pyval)) : res string :=
  let (name, rest) := field_head field in
  if String.eqb name "" || all_digits name then Exc IndexError else
  match assoc_get kw name with
  | None => Exc KeyError
  | Some v => if String.eqb rest "" then py_str v else Exc OutsideModel
  end.

Fixpoint format_go (fuel : nat) (s : string) (kw : list (string * pyval)) : res string :=
  match fuel with
  | 0 => Exc OutsideModel
  | S fuel' =>
      match s with
      | EmptyString => Ok EmptyString
      | String "{" (String "{" r) =>
          rest <- format_go fuel' r kw ;; Ok (String "{" rest)
      | String "}" (String "}" r) =>
          rest <- format_go fuel' r kw ;; Ok (String "}" rest)
      | String "}" _ => Exc ValueError
      | String "{" r =>
          match take_field 0 r with
          | None => Exc ValueError
          | Some (field, r') =>
              v <- format_field field kw ;;
              rest <- format_go fuel' r' kw ;; Ok (v ++ rest)
          end
      | String c r => rest <- format_go fuel' r kw ;; Ok (String c rest)
      end
  end.

(** [template.format( **kw)] *)
Definition py_format (template : string) (kw : list (string * pyval)) : res string :=
  format_go (S (String.length template)) template kw.

(* ------------------------------------------------------------------ *)
(** ** [safe_segment] and [re.split(r"[\\/]+", s)] *)

(** The double quote character. *)
Definition dquote : ascii := Ascii.ascii_of_nat 34.

Definition is_bad_char (c : ascii) : bool :=
  existsb (Ascii.eqb c) ["<"; ">"; ":"; dquote; "|"; "?"; "*"]%char.

Fixpoint sub_bad (s : string) : string :=
  match s with
  | EmptyString => EmptyString
  | String c s' => String (if is_bad_char c then "_"%char else c) (sub_bad s')
  end.

Definition safe_segment (segment : string) : string :=
  let s := replace_char slash "_" (replace_char bslash "_" (py_strip segment)) in
  let s := sub_bad s in
  if String.eqb s "" then "_" else s.

Definition is_path_sep (c : ascii) : bool := Ascii.eqb c slash || Ascii.eqb c bslash.

(** Split at every single separator character, keeping empty fields. *)
Fixpoint split_seps (s : string) : list string :=
  match s with
  | EmptyString => [EmptyString]
  | String d s' =>
      let rest := split_seps s' in
      if is_path_sep d then EmptyString :: rest
      else match rest with
           | f :: fs => String d f :: fs
           | [] => [String d EmptyString]
           end
  end.

Fixpoint drop_inner_empty (l : list string) : list string :=
  match l with
  | [] => []
  | [x] => [x]
  | x :: rest => (if String.eqb x "" then [] else [x]) ++ drop_inner_empty rest
  end%list.

(** [re.split(r"[\\/]+", s)]: a run of separators splits once, so the
    empty fields between adjacent separators vanish; a leading or
    trailing empty field stays. *)
Definition re_split_seps (s : string) : list string :=
  match split_seps s with
  | [] => []
  | x :: rest => x :: drop_inner_empty rest
  end.

(* ------------------------------------------------------------------ *)
(** ** [apply_multi_file_suffix] *)

(** Hashable values and their dict-key equality ([True == 1]). *)
Definition hashable (v : pyval) : bool :=
  match v with PList _ | PDict _ => false | _ => true end.

Definition num_of (v : pyval) : option Z :=
  match v with
  | PBool b => Some (if b then 1 else 0)%Z
  | PInt z => Some z
  | _ => None
  end.

Definition py_key_eq (a b : pyval) : bool :=
  match a, b with
  | PNone, PNone => true
  | PStr x, PStr y => String.eqb x y
  | _, _ =>
      match num_of a, num_of b with
      | Some x, Some y => Z.eqb x y
      | _, _ => false
      end
  end.

(** [len(v)] *)
Definition py_len (v : pyval) : res nat :=
  match v with
  | PList l => Ok (length l)
  | PStr s => Ok (String.length s)
  | PDict d => Ok (length d)
  | _ => Exc TypeError
  end.

(** [{f.get("id"): idx for idx, f in enumerate(files)}] as the list of
    its [(key, idx)] insertions, in order. *)
Fixpoint id_index_pairs (idx : nat) (files : list pyval) : res (list (pyval * nat)) :=
  match files with
  | [] => Ok []
  | f :: fs =>
      k <- vget f "id" PNone ;;
      if hashable k then
        rest <- id_index_pairs (S idx) fs ;; Ok ((k, idx) :: rest)
      else Exc TypeError
  end.

(** [m.get(key, 0)] on the dict built from the insertions: the last
    insertion of an equal key wins. *)
Definition index_lookup (pairs : list (pyval * nat)) (key : pyval) : nat :=
  fold_left (fun acc '(k, i) => if py_key_eq k key then i else acc) pairs 0.

(** One step of the dict-building loop read as a left fold. *)
Definition lookup_step (key : pyval) (acc : nat) (p : pyval * nat) : nat :=
  let '(k, i) := p in if py_key_eq k key then i else acc.

Definition apply_multi_file_suffix (filename : string) (scene : list (string * pyval))
    (file_obj : list (string * pyval)) (settings : list (string * pyval)) : res string :=
  let multi_file_mode := dget settings "multi_file_mode" (PStr "all") in
  if negb (py_key_eq multi_file_mode (PStr "all")) then Ok filename else
  let all_files := dget scene "files" (PList []) in
  n <- py_len all_files ;;
  if (n <=? 1)%nat then Ok filename else
  elems <- match all_files with
           | PList l => Ok l
           | _ => Exc AttributeError    (* iterating a str or dict yields str keys *)
           end ;;
  pairs <- id_index_pairs 0 elems ;;
  let current_file_id := dget file_obj "id" PNone in
  if negb (hashable current_file_id) then Exc TypeError else
  let file_index := index_lookup pairs current_file_id in
  let (name_without_ext, file_ext) := splitext filename in
  Ok (name_without_ext ++ "-cd" ++ str_of_Z (Z.of_nat (file_index + 1)) ++ file_ext).

(* ------------------------------------------------------------------ *)
(** ** [build_template_vars] *)

Definition is_digit (c : ascii) : bool :=
  let n := nat_of_ascii c in ((48 <=? n)%nat && (n <=? 57)%nat).

Definition digit_val (c : ascii) : Z := Z.of_nat (nat_of_ascii c - 48).

Fixpoint parse_int_body (s : string) (acc : Z) (prev_us seen : bool) : option Z :=
  match s with
  | EmptyString => if seen && negb prev_us then Some acc else None
  | String c r =>
      if is_digit c then parse_int_body r (acc * 10 + digit_val c) false true
      else if Ascii.eqb c "_"%char && seen && negb prev_us
      then parse_int_body r acc true seen
      else None
  end.

(** [int(s)] for a [str]: surrounding whitespace, a sign, and digits with
    single underscores between them. *)
Definition py_int_of_str (s : string) : res Z :=
  let t := py_strip s in
  let parsed :=
    match t with
    | String "-" r => option_map Z.opp (parse_int_body r 0 false false)
    | String "+" r => parse_int_body r 0 false false
    | _ => parse_int_body t 0 false false
    end in
  match parsed with Some z => Ok z | None => Exc ValueError end.

(** [int(v)] *)
Definition py_int (v : pyval) : res Z :=
  match v with
  | PInt z => Ok z
  | PBool b => Ok (if b then 1 else 0)%Z
  | PStr s => py_int_of_str s
  | _ => Exc TypeError
  end.

(** Iterating [for x in v]: a str yields its one-character strs and a
    dict its keys, none of which is a dict. *)
Definition py_iter (v : pyval) : res (list pyval) :=
  match v with
  | PList l => Ok l
  | PStr s => Ok (map (fun c => PStr (String c EmptyString)) (list_ascii_of_string s))
  | PDict d => Ok (map (fun kv => PStr (fst kv)) d)
  | _ => Exc TypeError
  end.

(** [[p["name"] for p in items if isinstance(p, dict) and p.get("name")]] *)
Definition collect_names (items : list pyval) : list pyval :=
  flat_map (fun p => match p with
                     | PDict d => let n := dget d "name" PNone in
                                  if truthy n then [n] else []
                     | _ => []
                     end) items.

(** [sep.join(values)]: every value must be a [str]. *)
Definition join_values (sep : string) (vs : list pyval) : res string :=
  strs <- fold_right (fun v acc => s <- acc ;;
                        match v with PStr x => Ok (x :: s) | _ => Exc TypeError end)
                     (Ok []) vs ;;
  Ok (join_str sep strs).

(** [re.match(r"^(\d{4})-(\d{2})-(\d{2})", s)] *)
Definition match_date (s : string) : option (string * string * string) :=
  match list_ascii_of_string s with
  | y1 :: y2 :: y3 :: y4 :: d1 :: m1 :: m2 :: d2 :: a1 :: a2 :: _ =>
      if forallb is_digit [y1; y2; y3; y4; m1; m2; a1; a2]
         && Ascii.eqb d1 "-"%char && Ascii.eqb d2 "-"%char
      then Some (string_of_list_ascii [y1; y2; y3; y4],
                 string_of_list_ascii [m1; m2], string_of_list_ascii [a1; a2])
      else None
  | _ => None
  end.

(** The resolution ladder of [build_template_vars], inside its [try]. *)
Definition resolution_quality (width height : pyval) : res (string * string) :=
  w <- (match width with PNone => Ok None | _ => bind (py_int width) (fun z => Ok (Some z)) end) ;;
  h <- (match height with PNone => Ok None | _ => bind (py_int height) (fun z => Ok (Some z)) end) ;;
  match w, h with
  | Some w, Some h =>
      if negb (Z.eqb w 0) && negb (Z.eqb h 0) && Z.ltb 0 w && Z.ltb 0 h then
        let min_dim := Z.min w h in
        let '(r, q) :=
          if Z.leb 4320 min_dim then ("8K", "FUHD")
          else if Z.leb 2160 min_dim then ("4K", "UHD")
          else if Z.leb 1440 min_dim then ("1440p", "QHD")
          else if Z.leb 1080 min_dim then ("1080p", "FHD")
          else if Z.leb 720 min_dim then ("720p", "HD")
          else if Z.leb 480 min_dim then ("480p", "SD")
          else ("480p", "LOW") in
        let q := if String.eqb r "1080p" && Z.leb 2000 w && Z.ltb w 2560 then "2K" else q in
        Ok (r, q)
      else Ok ("", "")
  | _, _ => Ok ("", "")
  end.

(** [ext.lstrip(".")] *)
Fixpoint lstrip_dots (s : string) : string :=
  match s with
  | String "." r => lstrip_dots r
  | _ => s
  end.

(** [first_elem.get(key) or ""] for the first dict of a truthy list, as
    for [groups] and [stash_ids]; [""] otherwise. *)
Definition first_dict_field (v : pyval) (k : string) : pyval :=
  match py_or v (PList []) with
  | PList (x :: _) =>
      match x with PDict d => py_or (dget d k PNone) (PStr "") | _ => PStr "" end
  | _ => PStr ""
  end.

Definition build_template_vars (scene : list (string * pyval)) (file_path : string)
    (file_obj : pyval) : res (list (string * pyval)) :=
  let original_basename := basename file_path in
  let '(original_name, ext0) := splitext original_basename in
  let ext := lstrip_dots ext0 in
  let scene_id := dget scene "id" PNone in
  let scene_title := py_or (dget scene "title" PNone) (PStr "") in
  let scene_date := py_or (dget scene "date" PNone) (PStr "") in
  let code := py_or (dget scene "code" PNone) (PStr "") in
  let director := py_or (dget scene "director" PNone) (PStr "") in
  ymd <- match scene_date with
         | PStr s => Ok (match match_date s with Some t => t | None => ("", "", "") end)
         | _ => Exc TypeError
         end ;;
  let '(date_year, date_month, date_day) := ymd in
  sn_si <- match dget scene "studio" PNone with
           | PDict st =>
               sid <- py_str (py_or (dget st "id" PNone) (PStr "")) ;;
               Ok (py_or (dget st "name" PNone) (PStr ""), sid)
           | _ => Ok (PStr "", "")
           end ;;
  let '(studio_name, studio_id) := sn_si in
  perfs <- py_iter (dget scene "performers" (PList [])) ;;
  let performer_names := collect_names perfs in
  performers_str <- join_values "-" performer_names ;;
  let first_performer := match performer_names with n :: _ => n | [] => PStr "" end in
  let performer_count := PInt (Z.of_nat (length performer_names)) in
  tags <- py_iter (dget scene "tags" (PList [])) ;;
  let tag_names := collect_names tags in
  tags_str <- join_values ", " tag_names ;;
  let group_name :=
    match py_or (dget scene "groups" PNone) (PList []) with
    | PList (PDict g0 :: _) =>
        match dget g0 "group" PNone with
        | PDict g => py_or (dget g "name" PNone) (PStr "")
        | _ => PStr ""
        end
    | _ => PStr ""
    end in
  let rating100 := dget scene "rating100" PNone in
  rating <- match rating100 with PNone => Ok "" | v => py_str v end ;;
  let external_id := first_dict_field (dget scene "stash_ids" PNone) "stash_id" in
  let '(width, height) :=
    match file_obj with
    | PDict fo => (dget fo "width" PNone, dget fo "height" PNone)
    | _ => (PNone, PNone)
    end in
  let '(resolution, quality) :=
    match resolution_quality width height with Ok rq => rq | Exc _ => ("", "") end in
  Ok [("id", scene_id); ("scene_title", scene_title); ("scene_date", scene_date);
      ("date_year", PStr date_year); ("date_month", PStr date_month);
      ("date_day", PStr date_day); ("studio", studio_name);
      ("studio_name", studio_name); ("studio_id", PStr studio_id); ("code", code);
      ("director", director); ("performers", PStr performers_str);
      ("first_performer", first_performer); ("performer_count", performer_count);
      ("tag_names", PStr tags_str); ("tags", PStr tags_str);
      ("group_name", group_name); ("rating100", rating100); ("rating", PStr rating);
      ("original_basename", PStr original_basename);
      ("original_name", PStr original_name); ("ext", PStr ext);
      ("external_id", external_id); ("width", width); ("height", height);
      ("resolution", PStr resolution); ("quality", PStr quality)].

(* ------------------------------------------------------------------ *)
(** ** [build_target_path] *)

(** [s.strip()] on a value that must be a [str]. *)
Definition vstrip (v : pyval) : res string :=
  match v with PStr s => Ok (py_strip s) | _ => Exc AttributeError end.

(** [{k: v.replace("\\", "_").replace("/", "_") if isinstance(v, str) else v}] *)
Definition vars_for_path (vars_map : list (string * pyval)) : list (string * pyval) :=
  map (fun '(k, v) =>
         (k, match v with
             | PStr s => PStr (replace_char slash "_" (replace_char bslash "_" s))
             | _ => v
             end)) vars_map.

(** The file-name block that every branch of [build_target_path]
    repeats: substitute the template, sanitize each segment, keep the
    original extension, apply the multi-file suffix. *)
Definition render_template_path (template : string) (scene : list (string * pyval))
    (file_path : string) (file_obj settings : list (string * pyval)) : res string :=
  vars_map <- build_template_vars scene file_path (PDict file_obj) ;;
  original_basename <- (v <- dindex vars_map "original_basename" ;; match v with PStr s => Ok s | _ => Exc TypeError end) ;;
  ext <- (v <- dindex vars_map "ext" ;; match v with PStr s => Ok s | _ => Exc TypeError end) ;;
  part <- match py_format template (vars_for_path vars_map) with
          | Ok r => Ok r
          | Exc OutsideModel => Exc OutsideModel
          | Exc _ => Exc RuntimeError
          end ;;
  let parts := map safe_segment (filter (fun x => negb (String.eqb x "")) (re_split_seps part)) in
  let clean := match parts with [] => original_basename | p :: ps => path_join p ps end in
  let clean := if String.eqb (snd (splitext clean)) "" && negb (String.eqb ext "")
               then clean ++ "." ++ ext else clean in
  apply_multi_file_suffix clean scene file_obj settings.

(** Branch taken when the file lies under [base] (the source or the
    target base directory of the mapping). *)
Definition mapped_target (cwd : string) (base target_base_dir : string)
    (scene : list (string * pyval)) (file_path : string)
    (file_obj settings : list (string * pyval)) : res string :=
  rel <- relpath cwd file_path base ;;
  let first_level_dir := match split_char slash rel with x :: _ => x | [] => "" end in
  template <- (v <- dindex settings "filename_template" ;; vstrip v) ;;
  filename_clean <- render_template_path template scene file_path file_obj settings ;;
  Ok (normpath (path_join target_base_dir [first_level_dir; filename_clean])).

(** The logic without a mapping, under [target_root]. *)
Definition standard_target (scene : list (string * pyval)) (file_path : string)
    (file_obj settings : list (string * pyval)) : res string :=
  target_root <- (v <- dindex settings "target_root" ;; vstrip v) ;;
  template <- (v <- dindex settings "filename_template" ;; vstrip v) ;;
  if String.eqb target_root "" then Exc RuntimeError else
  rel_path_clean <- render_template_path template scene file_path file_obj settings ;;
  Ok (path_join target_root [rel_path_clean]).

Definition under (base p : string) : bool :=
  starts_with (base ++ "/") p || String.eqb p base.

Definition build_target_path (cwd : string) (scene : list (string * pyval))
    (file_path : string) (file_obj settings : list (string * pyval)) : res string :=
  source_target_mapping <- vstrip (dget settings "source_target_mapping" (PStr "")) ;;
  if String.eqb source_target_mapping "" then standard_target scene file_path file_obj settings
  else match split_arrow source_target_mapping with
  | None => Exc RuntimeError
  | Some (s0, t0) =>
      let source_base_dir := py_strip s0 in
      let target_base_dir := py_strip t0 in
      if String.eqb source_base_dir "" || String.eqb target_base_dir "" then Exc RuntimeError
      else
        let normalized_source_base := normpath source_base_dir in
        let normalized_target_base := normpath target_base_dir in
        let normalized_file_path := normpath file_path in
        if under normalized_source_base normalized_file_path then
          mapped_target cwd normalized_source_base target_base_dir scene file_path file_obj settings
        else if under normalized_target_base normalized_file_path then
          mapped_target cwd normalized_target_base target_base_dir scene file_path file_obj settings
        else standard_target scene file_path file_obj settings
  end.

(* ------------------------------------------------------------------ *)
(** ** Facts about the templating functions *)

(* ------------------------------------------------------------------ *)
(** ** Concrete inputs used by the properties *)

Definition ex_scene : list (string * pyval) :=
  [("id", PStr "12"); ("title", PStr "Title"); ("organized", PBool true);
   ("studio", PDict [("name", PStr "Stu")]);
   ("files", PList [PDict [("id", PStr "f1"); ("path", PStr "/data/src/111/x.mp4")]])].

Definition ex_file : list (string * pyval) :=
  [("id", PStr "f1"); ("path", PStr "/data/src/111/x.mp4")].

Definition ex_settings (template : string) : list (string * pyval) :=
  [("source_target_mapping", PStr "/data/src->/data/dst");
   ("filename_template", PStr template); ("target_root", PStr "")].

(** The [id] of a file entry of a scene. *)
Definition file_id_of (f : pyval) : pyval :=
  match f with PDict d => dget d "id" PNone | _ => PNone end.

(** A file entry as [apply_multi_file_suffix] can read it: a dict with a
    hashable [id]. *)
Definition file_entry_ok (f : pyval) : Prop :=
  exists d, f = PDict d /\ hashable (dget d "id" PNone) = true.

Definition ex_two_files_scene : list (string * pyval) :=
  [("id", PStr "5");
   ("files", PList [PDict [("id", PStr "f1")]; PDict [("id", PStr "f2")]])].

(* ------------------------------------------------------------------ *)
(** ** The filesystem and its effects *)

(** A filesystem: the directories and the files that exist, named by
    normalized absolute paths.  A relative path is resolved against the
    working directory [cwd] as the OS does. *)
Record fsys := mkfs { fs_dirs : list string; fs_files : list string }.

(** The filesystem effects of the plugin code, in the order performed. *)
Inductive effect : Type :=
  | EMakedirs (d : string)                  (* os.makedirs(d, exist_ok=True) *)
  | ERmdir (d : string)                     (* os.rmdir(d) *)
  | ERemove (p : string)                    (* os.remove(p) *)
  | EMoveFile (src dst : string)            (* shutil.move(src, dst) *)
  | EWriteFile (p : string)                 (* open(p, "wb"/"w") and write *)
  | EGqlMoveFiles (file_id : pyval) (dst_dir dst_basename : string)
                                            (* the server's moveFiles mutation *)
  | EHttp (what : string).                  (* a network request, no file touched *)

Definition fs_isdir (cwd : string) (st : fsys) (p : string) : bool :=
  existsb (String.eqb (abspath cwd p)) (fs_dirs st).

Definition fs_isfile (cwd : string) (st : fsys) (p : string) : bool :=
  existsb (String.eqb (abspath cwd p)) (fs_files st).

Definition fs_exists (cwd : string) (st : fsys) (p : string) : bool :=
  fs_isdir cwd st p || fs_isfile cwd st p.

(** The entries of [os.listdir(p)], in the order the filesystem lists
    them. *)
Definition fs_listdir (cwd : string) (st : fsys) (p : string) : list string :=
  let a := abspath cwd p in
  map basename (filter (fun q => String.eqb (dirname q) a && negb (String.eqb q a))
                       (app (fs_dirs st) (fs_files st))).

Definition fs_rmdir (cwd : string) (st : fsys) (p : string) : fsys :=
  mkfs (filter (fun q => negb (String.eqb q (abspath cwd p))) (fs_dirs st)) (fs_files st).

(** [if os.path.isdir(current) and not os.listdir(current)] *)
Definition empty_dir (cwd : string) (st : fsys) (p : string) : bool :=
  fs_isdir cwd st p && match fs_listdir cwd st p with [] => true | _ => false end.

(** The upward walk [while current != stop and os.path.dirname(current)
    != current: ...], shared by both branches of
    [remove_empty_parent_dirs].  Each round strictly shortens [current],
    so [String.length current + 1] rounds suffice. *)
Fixpoint cleanup_walk (fuel : nat) (cwd stop : string) (st : fsys) (current : string)
    (trace : list effect) : fsys * list effect * string :=
  match fuel with
  | O => (st, trace, current)
  | S fuel' =>
      if String.eqb current stop || String.eqb (dirname current) current then (st, trace, current)
      else if empty_dir cwd st current then
        cleanup_walk fuel' cwd stop (fs_rmdir cwd st current) (dirname current)
                     (app trace [ERmdir current])
      else (st, trace, current)
  end.

Definition walk_up (cwd stop : string) (st : fsys) (start : string) : fsys * list effect * string :=
  cleanup_walk (S (String.length start)) cwd stop st start [].

(** [remove_empty_parent_dirs(directory, base_path, source_target_mapping,
    is_moving_from_target_dir)]: the filesystem afterwards and the
    directories removed.  The whole body sits in [try ... except
    Exception], so an exception ends the call with the effects done so
    far (none can occur before the first [rmdir] here except in
    [relpath], which only raises on an empty path). *)
Definition remove_empty_parent_dirs (cwd : string) (st : fsys) (directory base_path : string)
    (source_target_mapping : string) (is_moving_from_target_dir : bool) : fsys * list effect :=
  let dir_path := normpath directory in
  let base_path := normpath base_path in
  let generic :=
    if String.eqb source_target_mapping "" && negb is_moving_from_target_dir then (st, [])
    else let '(st', tr, _) := walk_up cwd base_path st dir_path in (st', tr) in
  match (if String.eqb source_target_mapping "" then None else split_arrow source_target_mapping) with
  | Some (s0, _) =>
      let source_base_dir := py_strip s0 in
      if String.eqb source_base_dir "" then generic else
      let normalized_source := normpath source_base_dir in
      let normalized_dir := normpath directory in
      if starts_with (normalized_source ++ "/") normalized_dir then
        match relpath cwd normalized_dir normalized_source with
        | Exc _ => (st, [])
        | Ok rel_path =>
            let first_subdir :=
              if String.eqb rel_path "" then ""
              else match split_char slash rel_path with x :: _ => x | [] => "" end in
            if String.eqb first_subdir "" then (st, []) else
            let stop_dir := join2 normalized_source first_subdir in
            let '(st1, tr1, current) := walk_up cwd stop_dir st normalized_dir in
            if fs_isdir cwd st1 stop_dir && String.eqb current stop_dir
               && match fs_listdir cwd st1 stop_dir with [] => true | _ => false end
            then (fs_rmdir cwd st1 stop_dir, app tr1 [ERmdir stop_dir])
            else (st1, tr1)
        end
      else generic
  | None => generic
  end.

(** A library: the mapped source base [/data/src] now empty, the target
    base [/data/dst] holding a moved file. *)
Definition ex_fs_src_emptied : fsys :=
  mkfs ["/"; "/data"; "/data/src"; "/data/dst"; "/data/dst/111"]
       ["/data/dst/111/x.mp4"].

(** The same with the file still in a subdirectory of [/data/src]. *)
Definition ex_fs_nested : fsys :=
  mkfs ["/"; "/data"; "/data/src"; "/data/src/111"; "/data/src/111/a"; "/data/dst"]
       ["/data/src/keep.txt"].

(* ------------------------------------------------------------------ *)
(** ** Downloading with retries ([_download_binary]) *)

(** [p in s] for strings. *)
Fixpoint str_contains (p s : string) : bool :=
  match s with
  | EmptyString => starts_with p EmptyString
  | String _ s' => starts_with p s || str_contains p s'
  end.

Definition ascii_lower (c : ascii) : ascii :=
  let n := nat_of_ascii c in
  if ((65 <=? n)%nat && (n <=? 90)%nat) then ascii_of_nat (n + 32) else c.

(** [s.lower()] on ASCII strings. *)
Fixpoint str_lower (s : string) : string :=
  match s with
  | EmptyString => EmptyString
  | String c s' => String (ascii_lower c) (str_lower s')
  end.

(** A [requests.Session] as far as the requests it sends differ: the
    cookie set from [SessionCookie] (name, value, path, domain or
    [None]) and the [ApiKey] header. *)
Record session := mksession {
  s_cookie : option (pyval * pyval * pyval * pyval);
  s_apikey : option pyval }.

(** A response that passed [raise_for_status()]: its [Content-Type]
    header, [resp.url] and the body streamed by [iter_content]. *)
Record response := mkresponse {
  r_content_type : option string;
  r_url : string;
  r_body : string }.

(** The effects of a download. *)
Inductive dl_event : Type :=
  | DGet (url : string) (s : session)     (* session.get(url, timeout=30, stream=True) *)
  | DSleep (secs : nat)                   (* time.sleep(secs) *)
  | DMakedirs (d : string)                (* os.makedirs(d, exist_ok=True) *)
  | DWrite (p : string) (body : string).  (* open(p, "wb") and the chunks written *)

(** The body of [_build_requests_session], from the server connection
    and the API key it reads. *)
Definition build_session_from (server_conn api_key : pyval) : res session :=
  c <- vget server_conn "SessionCookie" PNone ;;
  let cookie := py_or c (PDict []) in
  n1 <- vget cookie "Name" PNone ;; n2 <- vget cookie "name" PNone ;;
  v1 <- vget cookie "Value" PNone ;; v2 <- vget cookie "value" PNone ;;
  d1 <- vget cookie "Domain" PNone ;; d2 <- vget cookie "domain" PNone ;;
  p1 <- vget cookie "Path" PNone ;; p2 <- vget cookie "path" PNone ;;
  let name := py_or n1 n2 in
  let value := py_or v1 v2 in
  let domain := py_or d1 d2 in
  let path := py_or (py_or p1 p2) (PStr "/") in
  let ck := if truthy name && truthy value
            then Some (name, value, py_or path (PStr "/"), if truthy domain then domain else PNone)
            else None in
  Ok (mksession ck (if truthy api_key then Some api_key else None)).

(** The body of [build_absolute_url] once the server connection is read. *)
Definition absolute_url_from (url : string) (server_conn : pyval) : res string :=
  if String.eqb url "" then Ok url else
  if starts_with "http://" url || starts_with "https://" url then Ok url else
  scheme <- vget server_conn "Scheme" (PStr "http") ;;
  host <- vget server_conn "Host" (PStr "localhost") ;;
  port <- vget server_conn "Port" PNone ;;
  s <- py_str scheme ;; h <- py_str host ;;
  let base := s ++ "://" ++ h in
  base <- (if truthy port then (p <- py_str port ;; Ok (base ++ ":" ++ p)) else Ok base) ;;
  let url := if starts_with "/" url then url else "/" ++ url in
  Ok (base ++ url).

(** AutoMoveOrganized: [build_absolute_url(url, settings)] and
    [_build_requests_session(settings)]. *)
Definition amo_build_absolute_url (url : string) (settings : list (string * pyval)) : res string :=
  absolute_url_from url (py_or (dget settings "server_connection" PNone) (PDict [])).

Definition amo_build_requests_session (settings : list (string * pyval)) : res session :=
  build_session_from (py_or (dget settings "server_connection" PNone) (PDict []))
                     (py_or (dget settings "stash_api_key" PNone) (PStr "")).

Definition max_attempts : nat := 3.

Section Download.

(** The network: the outcome of the request of attempt [n] for a URL
    and session, [None] when [session.get] or [raise_for_status()]
    raises. *)
Variable net : string -> session -> nat -> option response.
(** Whether [makedirs] and [open(p, "wb")] and the writes succeed. *)
Variable writable : string -> bool.
(** [urlparse(u).path] of the standard library, [None] when it raises. *)
Variable url_path : string -> option string.

(** The path the AutoMoveOrganized copy writes to. *)
Definition amo_final_path (detect_ext : bool) (url dst_path : string) (resp : response) : string :=
  if negb detect_ext then dst_path else
  let content_type := str_lower (match r_content_type resp with Some s => s | None => "" end) in
  let guessed_ext :=
    if str_contains "image/" content_type then
      if str_contains "jpeg" content_type || str_contains "jpg" content_type then ".jpg"
      else if str_contains "png" content_type then ".png"
      else if str_contains "webp" content_type then ".webp"
      else if str_contains "gif" content_type then ".gif"
      else if str_contains "svg" content_type then ".svg"
      else ""
    else "" in
  let guessed_ext :=
    if String.eqb guessed_ext "" then
      match url_path (if String.eqb (r_url resp) "" then url else r_url resp) with
      | Some path => snd (splitext path)
      | None => ""
      end
    else guessed_ext in
  let lower_path := str_lower dst_path in
  let has_known_ext := ends_with ".jpg" lower_path || ends_with ".jpeg" lower_path
    || ends_with ".png" lower_path || ends_with ".webp" lower_path || ends_with ".gif" lower_path in
  if negb (String.eqb guessed_ext "") && negb has_known_ext then dst_path ++ guessed_ext
  else dst_path.

(** The path the actorSyncEmby copy writes to: the extension is
    guessed (the guess cannot raise) and then discarded. *)
Definition ase_final_path (detect_ext : bool) (url dst_path : string) (resp : response) : string :=
  dst_path.

(** One pass of the body of the [for attempt in range(1, 4)] loop: the
    effects and whether it returned [True].  [os.makedirs("")] raises. *)
Definition try_download (final_path_of : response -> string) (url : string) (s : session)
    (attempt : nat) : list dl_event * bool :=
  match net url s attempt with
  | None => ([DGet url s], false)
  | Some resp =>
      let final_path := final_path_of resp in
      let d := dirname final_path in
      if String.eqb d "" then ([DGet url s], false)
      else if writable final_path then ([DGet url s; DMakedirs d; DWrite final_path (r_body resp)], true)
      else ([DGet url s; DMakedirs d], false)
  end.

(** The loop from [attempt] with [fuel] passes left; a failed pass
    sleeps [2 * attempt] seconds when [attempt < max_attempts]. *)
Fixpoint download_loop (final_path_of : response -> string) (url : string) (s : session)
    (attempt fuel : nat) : list dl_event * bool :=
  match fuel with
  | O => ([], false)
  | S fuel' =>
      let '(t, ok) := try_download final_path_of url s attempt in
      if ok then (t, true) else
      let '(t', b) := download_loop final_path_of url s (S attempt) fuel' in
      (app t (app (if (attempt <? max_attempts)%nat then [DSleep (2 * attempt)] else []) t'), b)
  end.

(** [_download_binary(url, dst_path, settings, detect_ext)] of
    AutoMoveOrganized: effects and result.  [build_absolute_url] and
    [_build_requests_session] run outside the [try]. *)
Definition amo_download_binary (url dst_path : string) (settings : list (string * pyval))
    (detect_ext : bool) : res (list dl_event * bool) :=
  if String.eqb url "" then Ok ([], false) else
  url' <- amo_build_absolute_url url settings ;;
  s <- amo_build_requests_session settings ;;
  Ok (download_loop (amo_final_path detect_ext url' dst_path) url' s 1 max_attempts).

(** [_download_binary(url, dst_path, server_conn, stash_api_key,
    detect_ext)] of [actorSyncEmby/emby_uploader.py]. *)
Definition ase_download_binary (url dst_path : string) (server_conn stash_api_key : pyval)
    (detect_ext : bool) : res (list dl_event * bool) :=
  if String.eqb url "" then Ok ([], false) else
  url' <- absolute_url_from url server_conn ;;
  s <- build_session_from server_conn stash_api_key ;;
  Ok (download_loop (ase_final_path detect_ext url' dst_path) url' s 1 max_attempts).

End Download.

Fixpoint count_gets (tr : list dl_event) : nat :=
  match tr with
  | [] => 0
  | DGet _ _ :: tr' => S (count_gets tr')
  | _ :: tr' => count_gets tr'
  end.

(** A server answering every request with a PNG image. *)
Definition png_net (url : string) (s : session) (n : nat) : option response :=
  Some (mkresponse (Some "image/png") url "PNGDATA").

Definition any_writable (p : string) : bool := true.

Definition no_url_path (u : string) : option string := None.

Definition ex_dl_settings : list (string * pyval) :=
  [("server_connection", PDict [("Scheme", PStr "http"); ("Host", PStr "stash"); ("Port", PInt 9999)]);
   ("stash_api_key", PStr "k")].

(* ------------------------------------------------------------------ *)
(** ** Which files get moved ([process_scene], [handle_hook_or_task]) *)

(** [d[k] = v] on a dict. *)
Fixpoint dset (d : list (string * pyval)) (k : string) (v : pyval) : list (string * pyval) :=
  match d with
  | [] => [(k, v)]
  | (k', v') :: d' => if String.eqb k k' then (k, v) :: d' else (k', v') :: dset d' k v
  end.

Definition dhas (d : list (string * pyval)) (k : string) : bool :=
  match assoc_get d k with Some _ => true | None => false end.

(** [files[0]] *)
Definition py_first (v : pyval) : res pyval :=
  match v with
  | PList (x :: _) => Ok x
  | PStr (String c _) => Ok (PStr (String c EmptyString))
  | PList [] | PStr EmptyString => Exc IndexError
  | PDict _ => Exc KeyError
  | _ => Exc TypeError
  end.

(** The files a scene handles under [multi_file_mode]
    ([settings.get("multi_file_mode", "all")]); [None] stands for the
    early [return 0] of mode ["skip"]. *)
Definition select_files (files : pyval) (settings : list (string * pyval)) : res (option pyval) :=
  n <- py_len files ;;
  let multi_file_mode := dget settings "multi_file_mode" (PStr "all") in
  if (1 <? n)%nat then
    if py_key_eq multi_file_mode (PStr "skip") then Ok None
    else if py_key_eq multi_file_mode (PStr "primary_only") then
      (f0 <- py_first files ;; Ok (Some (PList [f0])))
    else Ok (Some files)
  else Ok (Some files).

Section Moving.

(** Whether [move_file_with_suffix_handling(scene, f, settings, set(),
    idx)] on a dict [f] reports a move.  It depends on the filesystem
    and on the server; on a dict it never raises (its own [try] blocks
    catch everything after [file_obj.get]). *)
Variable mv : list (string * pyval) -> list (string * pyval) -> nat -> bool.
(** [regenerate_file_at_target(file_obj, scene, settings)]: whether the
    file, already under the target, was moved to a new path. *)
Variable regen : list (string * pyval) -> pyval -> bool.
(** [build_target_path_for_existing_file(file_path, scene, file_obj,
    settings)]; it raises [RuntimeError] on any failure. *)
Variable target_of : list (string * pyval) -> pyval -> res string.

(** [_is_file_organized] of [process_scene]. *)
Definition is_file_organized (scene settings : list (string * pyval)) : bool :=
  if negb (truthy (dget settings "move_only_organized" PNone)) then true
  else if dhas scene "organized" then truthy (dget scene "organized" PNone)
  else false.

(** The loop of [process_scene]: the files moved and the files handed
    to [move_file_with_suffix_handling], in order. *)
Fixpoint process_files (scene settings : list (string * pyval)) (idx : nat) (fs : list pyval)
    : res (nat * list pyval) :=
  match fs with
  | [] => Ok (0%nat, [])
  | f :: fs' =>
      if negb (is_file_organized scene settings) then process_files scene settings (S idx) fs'
      else match f with
           | PDict fd =>
               r <- process_files scene settings (S idx) fs' ;;
               let '(n, tried) := r in
               Ok ((if mv scene fd idx then S n else n), f :: tried)
           | _ => Exc AttributeError          (* file_obj.get("path") *)
           end
  end.

(** [process_scene(scene, settings)]: the number of files moved and the
    files it tried to move. *)
Definition process_scene (scene settings : list (string * pyval)) : res (nat * list pyval) :=
  match scene with [] => Ok (0%nat, []) | _ =>
  let files := py_or (dget scene "files" PNone) (PList []) in
  if negb (truthy files) then Ok (0%nat, []) else
  sel <- select_files files settings ;;
  match sel with
  | None => Ok (0%nat, [])
  | Some files_to_process =>
      fs <- py_iter files_to_process ;;
      process_files scene settings 0 fs
  end end.

(** [is_file_in_target_location]; its body is inside [try ... except
    Exception: return False]. *)
Definition is_file_in_target_location (file_path : string) (settings : list (string * pyval)) : bool :=
  match vstrip (dget settings "source_target_mapping" (PStr "")) with
  | Exc _ => false
  | Ok source_target_mapping =>
      let target_root :=
        match (if String.eqb source_target_mapping "" then None else split_arrow source_target_mapping) with
        | Some (_, t) => Ok (py_strip t)
        | None => vstrip (dget settings "target_root" (PStr ""))
        end in
      match target_root with
      | Exc _ => false
      | Ok target_root =>
          if String.eqb target_root "" then false else
          let nc := normpath file_path in
          let nt := normpath target_root in
          starts_with (nt ++ "/") nc || String.eqb nc nt
      end
  end.

(** The split of the hook-mode loop: files needing processing and files
    already in the target tree. *)
Fixpoint classify_files (settings : list (string * pyval)) (source_target_mapping target_root : string)
    (fs : list pyval) : res (list pyval * list pyval) :=
  match fs with
  | [] => Ok ([], [])
  | f :: fs' =>
      fp <- vget f "path" (PStr "") ;;
      rest <- classify_files settings source_target_mapping target_root fs' ;;
      let '(need, already) := rest in
      if negb (truthy fp) then Ok rest else
      match fp with
      | PStr file_path =>
          match (if String.eqb source_target_mapping "" then None else split_arrow source_target_mapping) with
          | Some (s0, t0) =>
              let sb := py_strip s0 in let tb := py_strip t0 in
              if negb (String.eqb sb "") && negb (String.eqb tb "") then
                let nf := normpath file_path in
                if starts_with (normpath sb ++ "/") nf then Ok (f :: need, already)
                else if starts_with (normpath tb ++ "/") nf then Ok (need, f :: already)
                else Ok rest
              else Ok rest
          | None =>
              if negb (String.eqb target_root "") && negb (is_file_in_target_location file_path settings)
              then Ok (f :: need, already) else Ok (need, f :: already)
          end
      | _ => Exc OutsideModel                (* a path that is not a str *)
      end
  end.

(** The loop over files already in the target tree: [regen] is asked
    when the freshly computed path differs from the current one. *)
Fixpoint regen_files (scene : list (string * pyval)) (fs : list pyval) : res (nat * list pyval) :=
  match fs with
  | [] => Ok (0%nat, [])
  | f :: fs' =>
      fp <- vget f "path" (PStr "") ;;
      rest <- regen_files scene fs' ;;
      let '(n, tried) := rest in
      if negb (truthy fp) then Ok rest else
      match fp with
      | PStr file_path =>
          match target_of scene f with
          | Ok current_target_path =>
              if negb (String.eqb (normpath file_path) (normpath current_target_path)) then
                Ok ((if regen scene f then S n else n), f :: tried)
              else Ok rest
          | Exc _ => Ok rest
          end
      | _ => Exc OutsideModel                (* a path that is not a str *)
      end
  end.

(** The task-mode loop over all scenes. *)
Fixpoint task_loop (settings : list (string * pyval)) (scenes : list pyval) : res (nat * list pyval) :=
  match scenes with
  | [] => Ok (0%nat, [])
  | sc :: rest =>
      match sc with
      | PDict scene =>
          v <- dindex scene "id" ;; _ <- py_int v ;;
          if negb (truthy (dget scene "organized" PNone))
             && truthy (dget settings "move_only_organized" PNone)
          then task_loop settings rest
          else
            r1 <- process_scene scene settings ;;
            r2 <- task_loop settings rest ;;
            Ok ((fst r1 + fst r2)%nat, app (snd r1) (snd r2))
      | _ => Exc TypeError               (* scene["id"] *)
      end
  end.

(** [handle_hook_or_task(stash, args, settings)] as far as moves go:
    the moved count it reports and the files it tried to move.  The
    catalog's answers are [find_scene] (by id) and [all_scenes] (what
    [get_all_scenes] returns). *)
Definition handle_hook_or_task (find_scene : Z -> pyval) (all_scenes : list pyval)
    (args settings : list (string * pyval)) : res (nat * list pyval) :=
  hook_ctx <- vget (PDict args) "hookContext" PNone ;;
  let hook_ctx := py_or hook_ctx (PDict []) in
  i1 <- vget hook_ctx "id" PNone ;; i2 <- vget hook_ctx "scene_id" PNone ;;
  let scene_id := py_or i1 i2 in
  match scene_id with
  | PNone =>
      (* Task mode *)
      _ <- py_int (dget settings "per_page" (PInt 1000)) ;;
      task_loop settings all_scenes
  | _ =>
      (* Hook mode *)
      if negb (truthy (dget settings "enable_hook_mode" (PBool true))) then Ok (0%nat, []) else
      sid <- py_int scene_id ;;
      let found := find_scene sid in
      if negb (truthy found) then Ok (0%nat, []) else
      match found with
      | PDict scene =>
          if negb (truthy (dget scene "organized" PNone)) then Ok (0%nat, []) else
          source_target_mapping <- vstrip (dget settings "source_target_mapping" (PStr "")) ;;
          target_root <- vstrip (dget settings "target_root" (PStr "")) ;;
          files <- py_iter (dget scene "files" (PList [])) ;;
          parts <- classify_files settings source_target_mapping target_root files ;;
          let '(need, already) := parts in
          r1 <- (match need with
                 | [] => Ok (0%nat, [])
                 | _ => process_scene (dset scene "files" (PList need)) settings
                 end) ;;
          r2 <- (match already with
                 | [] => Ok (0%nat, [])
                 | _ => sel <- select_files (PList already) settings ;;
                        match sel with
                        | None => Ok (0%nat, [])
                        | Some to_process => fs <- py_iter to_process ;; regen_files scene fs
                        end
                 end) ;;
          Ok ((fst r1 + fst r2)%nat, app (snd r1) (snd r2))
      | _ => Exc AttributeError              (* scene.get on a non-dict *)
      end
  end.

End Moving.

(** Every move succeeds. *)
Definition mv_always (scene f : list (string * pyval)) (idx : nat) : bool := true.

Definition ex_unorganized_scene : list (string * pyval) :=
  [("id", PStr "7"); ("organized", PBool false);
   ("files", PList [PDict [("id", PStr "f9"); ("path", PStr "/data/src/a/v.mp4")]])].

(* ------------------------------------------------------------------ *)
(** ** Moving one file ([move_file_with_suffix_handling]) *)

(** Code that reads and changes the filesystem, records its effects and
    may raise: a state, writer and error monad.  An exception keeps the
    effects done before it. *)
Definition M (A : Type) : Type := fsys -> list effect -> fsys * list effect * res A.

Definition mret {A} (a : A) : M A := fun st tr => (st, tr, Ok a).
Definition mraise {A} (e : pyexc) : M A := fun st tr => (st, tr, Exc e).
Definition mbind {A B} (m : M A) (k : A -> M B) : M B :=
  fun st tr => match m st tr with
               | (st', tr', Ok a) => k a st' tr'
               | (st', tr', Exc e) => (st', tr', Exc e)
               end.
Definition mlift {A} (r : res A) : M A :=
  match r with Ok a => mret a | Exc e => mraise e end.
Definition mget : M fsys := fun st tr => (st, tr, Ok st).
(** [try: m except Exception as e: h(e)] *)
Definition mtry {A} (m : M A) (h : pyexc -> M A) : M A :=
  fun st tr => match m st tr with
               | (st', tr', Exc e) => h e st' tr'
               | r => r
               end.
(** An effect and the filesystem it leaves. *)
Definition mdo (e : effect) (st' : fsys) : M unit := fun _ tr => (st', app tr [e], Ok tt).

Notation "x <-- m ;;; k" := (mbind m (fun x => k))
  (at level 61, m at next level, right associativity).

(** [p] and its parent directories up to the root. *)
Fixpoint ancestors (fuel : nat) (p : string) : list string :=
  match fuel with
  | O => [p]
  | S f => if String.eqb (dirname p) p then [p] else p :: ancestors f (dirname p)
  end.

(** The directories [os.makedirs(d)] creates, added. *)
Definition fs_add_dirs (cwd : string) (st : fsys) (d : string) : fsys :=
  let ps := ancestors (String.length (abspath cwd d)) (abspath cwd d) in
  mkfs (app (fs_dirs st) (filter (fun q => negb (existsb (String.eqb q) (fs_dirs st))) ps))
       (fs_files st).

(** [os.makedirs(d, exist_ok=True)]: raises on [""] and when a
    component is an existing file. *)
Definition os_makedirs (cwd d : string) : M unit :=
  if String.eqb d "" then mraise FileNotFoundError else
  st <-- mget ;;;
  let ps := ancestors (String.length (abspath cwd d)) (abspath cwd d) in
  if existsb (fun q => existsb (String.eqb q) (fs_files st)) ps then mraise OSError
  else mdo (EMakedirs d) (fs_add_dirs cwd st d).

Definition fs_add_file (cwd : string) (st : fsys) (p : string) : fsys :=
  let a := abspath cwd p in
  if existsb (String.eqb a) (fs_files st) then st else mkfs (fs_dirs st) (app (fs_files st) [a]).

Definition fs_del_file (cwd : string) (st : fsys) (p : string) : fsys :=
  mkfs (fs_dirs st) (filter (fun q => negb (String.eqb q (abspath cwd p))) (fs_files st)).

Definition fs_move_file (cwd : string) (st : fsys) (src dst : string) : fsys :=
  fs_add_file cwd (fs_del_file cwd st src) dst.

(** [remove_old_metadata(file_path, settings)]; its body is inside
    [try ... except Exception]. *)
Definition remove_old_metadata (cwd file_path : string) (settings : list (string * pyval)) : M unit :=
  let dry := truthy (dget settings "dry_run" PNone) in
  let remove_if_exists (p : string) : M unit :=
    st <-- mget ;;;
    if fs_exists cwd st p then (if dry then mret tt else mdo (ERemove p) (fs_del_file cwd st p))
    else mret tt in
  let nfo_path := fst (splitext file_path) ++ ".nfo" in
  let video_dir := dirname file_path in
  let base_name := fst (splitext (basename file_path)) in
  _ <-- remove_if_exists nfo_path ;;;
  _ <-- remove_if_exists (join2 video_dir (base_name ++ "-poster.jpg")) ;;;
  _ <-- remove_if_exists (join2 video_dir (base_name ++ "-poster.jpeg")) ;;;
  _ <-- remove_if_exists (join2 video_dir (base_name ++ "-poster.png")) ;;;
  _ <-- remove_if_exists (join2 video_dir (base_name ++ "-poster.webp")) ;;;
  remove_if_exists (join2 video_dir (base_name ++ "-poster.gif")).

Definition subtitle_exts : list string := [".srt"; ".ass"; ".ssa"; ".vtt"; ".sub"; ".sup"].

(** [name[n:]] *)
Definition str_drop (n : nat) (s : string) : string := substring n (String.length s - n) s.

(** One entry of the loop of [move_related_subtitle_files]. *)
Definition subtitle_step (cwd src_dir dst_dir src_stem dst_stem : string) (dry : bool)
    (name : string) : M unit :=
  st <-- mget ;;;
  let full_src := join2 src_dir name in
  if negb (fs_isfile cwd st full_src) then mret tt else
  if negb (existsb (String.eqb (str_lower (snd (splitext name)))) subtitle_exts) then mret tt else
  if negb (starts_with src_stem name) then mret tt else
  let new_name := dst_stem ++ str_drop (String.length src_stem) name in
  let full_dst := join2 dst_dir new_name in
  if String.eqb full_src full_dst then mret tt else
  if fs_exists cwd st full_dst then mret tt else
  if dry then mret tt else
  _ <-- os_makedirs cwd dst_dir ;;;
  st <-- mget ;;;
  mdo (EMoveFile full_src full_dst) (fs_move_file cwd st full_src full_dst).

Fixpoint subtitle_loop (cwd src_dir dst_dir src_stem dst_stem : string) (dry : bool)
    (names : list string) : M unit :=
  match names with
  | [] => mret tt
  | n :: ns => _ <-- subtitle_step cwd src_dir dst_dir src_stem dst_stem dry n ;;;
               subtitle_loop cwd src_dir dst_dir src_stem dst_stem dry ns
  end.

(** [move_related_subtitle_files(src_video_path, dst_video_path,
    settings)]; the loop is inside [try ... except Exception]. *)
Definition move_related_subtitle_files (cwd src_video_path dst_video_path : string)
    (settings : list (string * pyval)) : M unit :=
  let src_dir := dirname src_video_path in
  let dst_dir := dirname dst_video_path in
  st <-- mget ;;;
  if String.eqb src_dir "" || negb (fs_isdir cwd st src_dir) then mret tt else
  let src_stem := fst (splitext (basename src_video_path)) in
  let dst_stem := fst (splitext (basename dst_video_path)) in
  if String.eqb src_stem "" || String.eqb dst_stem "" then mret tt else
  let dry := truthy (dget settings "dry_run" PNone) in
  mtry (subtitle_loop cwd src_dir dst_dir src_stem dst_stem dry (fs_listdir cwd st src_dir))
       (fun _ => mret tt).

(** Modelled from the spec: [translate_title_and_plot] comes from the
    module [ai_translate], which the repository does not contain.  The
    spec describes the plugins as glue around two REST APIs and a
    filesystem; the translation is taken to be one HTTP call that
    touches no file.  Its result does not matter here. *)
Definition translate_title_and_plot : M unit :=
  fun st tr => (st, app tr [EHttp "translate_title_and_plot"], Ok tt).

(** [write_nfo_for_scene(video_path, scene, settings)].  Besides
    [build_template_vars], what can raise in it are the reads
    [urls[0]] and the iterations over [files], [tags] and
    [performers]; building the XML tree does not raise. *)
Definition write_nfo_for_scene (cwd video_path : string) (scene settings : list (string * pyval)) : M unit :=
  if negb (truthy (dget settings "write_nfo" (PBool true))) then mret tt else
  _ <-- mlift (build_template_vars scene video_path PNone) ;;;
  let urls := py_or (dget scene "urls" PNone) (PList []) in
  _ <-- mlift (if truthy urls then py_first urls else Ok PNone) ;;;
  _ <-- mlift (py_iter (py_or (dget scene "files" PNone) (PList []))) ;;;
  _ <-- mlift (py_iter (py_or (dget scene "tags" PNone) (PList []))) ;;;
  _ <-- mtry translate_title_and_plot (fun _ => mret tt) ;;;
  _ <-- mlift (py_iter (py_or (dget scene "performers" PNone) (PList []))) ;;;
  let nfo_path := fst (splitext video_path) ++ ".nfo" in
  if truthy (dget settings "dry_run" PNone) then mret tt else
  mtry (_ <-- os_makedirs cwd (dirname nfo_path) ;;;
        st <-- mget ;;; mdo (EWriteFile nfo_path) (fs_add_file cwd st nfo_path))
       (fun _ => mret tt).

Section Art.

Variable net : string -> session -> nat -> option response.
Variable writable : string -> bool.
Variable url_path : string -> option string.
(** [overlay_studio_logo_on_poster(poster_base, scene, settings)] (image
    processing with PIL); it returns at once under [dry_run]. *)
Variable overlay_studio_logo_on_poster : string -> M unit.

Definition apply_dl_event (cwd : string) (e : dl_event) : M unit :=
  st <-- mget ;;;
  match e with
  | DGet url _ => mdo (EHttp url) st
  | DSleep _ => mret tt
  | DMakedirs d => mdo (EMakedirs d) (fs_add_dirs cwd st d)
  | DWrite p _ => mdo (EWriteFile p) (fs_add_file cwd st p)
  end.

Fixpoint apply_dl_events (cwd : string) (es : list dl_event) : M unit :=
  match es with
  | [] => mret tt
  | e :: es' => _ <-- apply_dl_event cwd e ;;; apply_dl_events cwd es'
  end.

(** [download_scene_art(video_path, scene, settings)] *)
Definition download_scene_art (cwd video_path : string) (scene settings : list (string * pyval)) : M unit :=
  if negb (truthy (dget settings "download_poster" (PBool true))) then mret tt else
  let paths := py_or (dget scene "paths" PNone) (PDict []) in
  shot <-- mlift (vget paths "screenshot" PNone) ;;;
  webp <-- mlift (vget paths "webp" PNone) ;;;
  let poster_url := py_or (py_or shot webp) (PStr "") in
  if negb (truthy poster_url) then mret tt else
  let video_dir := dirname video_path in
  let base_name := fst (splitext (basename video_path)) in
  let poster_base := join2 video_dir (base_name ++ "-poster") in
  st <-- mget ;;;
  if existsb (fun ext => fs_exists cwd st (poster_base ++ ext)) [".jpg"; ".jpeg"; ".png"; ".webp"; ".gif"]
  then mret tt else
  abs_url <-- mlift (match poster_url with
                     | PStr u => amo_build_absolute_url u settings
                     | _ => Exc AttributeError
                     end) ;;;
  if truthy (dget settings "dry_run" PNone) then mret tt else
  r <-- mlift (amo_download_binary net writable url_path abs_url poster_base settings true) ;;;
  let '(es, ok) := r in
  _ <-- apply_dl_events cwd es ;;;
  if negb ok then mret tt else
  mtry (overlay_studio_logo_on_poster poster_base) (fun _ => mret tt).

(** [post_process_moved_file(src, dst, scene, settings)] *)
Definition post_process_moved_file (cwd src_video_path dst_video_path : string)
    (scene settings : list (string * pyval)) : M unit :=
  _ <-- move_related_subtitle_files cwd src_video_path dst_video_path settings ;;;
  _ <-- write_nfo_for_scene cwd dst_video_path scene settings ;;;
  download_scene_art cwd dst_video_path scene settings.

(** [should_clean_directory(original_dir, settings)] *)
Definition should_clean_directory (original_dir : string) (settings : list (string * pyval)) : res bool :=
  source_target_mapping <- vstrip (dget settings "source_target_mapping" (PStr "")) ;;
  if negb (String.eqb source_target_mapping "") then Ok true else
  target_root <- vstrip (dget settings "target_root" (PStr "")) ;;
  if String.eqb target_root "" then Ok false else
  Ok (starts_with (normpath target_root ++ "/") (normpath original_dir)).

(** Whether the server's [moveFiles] mutation reports success
    ([move_file_with_graphql] catches its own exceptions). *)
Variable move_file_with_graphql : pyval -> string -> string -> bool.

(** [move_file_with_suffix_handling(scene, file_obj, settings, used_paths,
    file_idx)]: whether it reports a move. *)
Definition move_file_with_suffix_handling (cwd : string) (scene file_obj settings : list (string * pyval))
    : M bool :=
  let src := dget file_obj "path" PNone in
  let file_id := dget file_obj "id" PNone in
  if negb (truthy src) then mret false else
  if negb (truthy file_id) then mret false else
  match src with
  | PStr src =>
      match build_target_path cwd scene src file_obj settings with
      | Exc _ => mret false
      | Ok dst =>
          let dst_dir := dirname dst in
          let dst_basename := basename dst in
          let original_dir := dirname src in
          let dry := truthy (dget settings "dry_run" PNone) in
          mtry (
            moved <-- (if negb dry then
                         (st <-- mget ;;;
                          if move_file_with_graphql file_id dst_dir dst_basename then
                            _ <-- mdo (EGqlMoveFiles file_id dst_dir dst_basename)
                                      (fs_move_file cwd (fs_add_dirs cwd st dst_dir) src
                                                    (join2 dst_dir dst_basename)) ;;;
                            mret true
                          else mret false)
                       else
                         (* should this raise, the [except] clause's message reads
                            [final_dst], not yet bound: [UnboundLocalError] escapes *)
                         _ <-- mtry (os_makedirs cwd dst_dir) (fun _ => mraise NameError) ;;;
                         mret true) ;;;
            if negb moved then mret false else
            let final_dst := join2 dst_dir dst_basename in
            _ <-- mtry (post_process_moved_file cwd src final_dst scene settings) (fun _ => mret tt) ;;;
            _ <-- (if dry then mret tt else
                   source_target_mapping <-- mlift (vstrip (dget settings "source_target_mapping" (PStr ""))) ;;;
                   base_path <-- mlift
                     (match (if String.eqb source_target_mapping "" then None
                             else split_arrow source_target_mapping) with
                      | Some (_, t) => Ok (py_strip t)
                      | None => vstrip (dget settings "target_root" (PStr ""))
                      end) ;;;
                   if String.eqb base_path "" then mret tt else
                   is_moving <-- mlift (should_clean_directory original_dir settings) ;;;
                   st <-- mget ;;;
                   let '(st', es) := remove_empty_parent_dirs cwd st original_dir base_path
                                       source_target_mapping is_moving in
                   fun _ tr => (st', app tr es, Ok tt)) ;;;
            mret true)
          (fun e => match e with NameError => mraise NameError | _ => mret false end)
      end
  | _ => mret false        (* build_target_path raises on a non-str path *)
  end.

End Art.

(** Effects that change the filesystem (all but network requests). *)
Definition mutating (e : effect) : bool :=
  match e with EHttp _ => false | _ => true end.

(** [m] leaves the files as they are, only adds directories, and only
    appends effects satisfying [ok]. *)
Definition dry_safe {A} (ok : effect -> Prop) (m : M A) : Prop :=
  forall st tr,
    fs_files (fst (fst (m st tr))) = fs_files st /\
    incl (fs_dirs st) (fs_dirs (fst (fst (m st tr)))) /\
    exists ex, snd (fst (m st tr)) = app tr ex /\ Forall ok ex.

Definition no_overlay (p : string) : M unit := mret tt.

Definition gql_always (file_id : pyval) (dir base : string) : bool := true.

Definition ex_dry_settings : list (string * pyval) :=
  app (ex_settings "{original_basename}") [("dry_run", PBool true)].

Definition ex_fs_before_move : fsys :=
  mkfs ["/"; "/data"; "/data/src"; "/data/src/111"] ["/data/src/111/x.mp4"].

(* ------------------------------------------------------------------ *)
(** ** Processes started by a plugin run *)

(** [subprocess.Popen(cmd, ..., start_new_session=...)] records the
    worker script, the configuration it is handed (base64-encoded JSON in
    [cmd]) and whether it starts a new session; [PWait] stands for a
    [wait()] or [communicate()] on a started process. *)
Inductive proc_event : Type :=
  | PPopen (script : string) (config : list (string * pyval)) (start_new_session : bool)
  | PWait (script : string).

(** [v[k]] where [v] must be a dict. *)
Definition vindex (v : pyval) (k : string) : res pyval :=
  match v with
  | PDict d => dindex d k
  | _ => Exc TypeError
  end.

(** [v == s] for a str constant [s]. *)
Definition py_eq_str (v : pyval) (s : string) : bool :=
  match v with PStr t => String.eqb t s | _ => false end.

Module StudioToCollection.

(** [os.path.join(os.path.dirname(__file__), "studio_sync_worker.py")],
    named by its file name. *)
Definition worker_script : string := "studio_sync_worker.py".

(** The [try] block of [start_worker] that parses [worker_delays]
    (["35,70"] by default); any exception gives [(35, 70)]. *)
Definition parse_worker_delays (worker_delays_str : pyval) : Z * Z :=
  let parsed :=
    match worker_delays_str with
    | PStr s =>
        let delays_parts := split_char "," s in
        stash_wait <- (match delays_parts with
                       | p :: _ => py_int_of_str (py_strip p)
                       | [] => Ok 35%Z
                       end) ;;
        emby_wait <- (match delays_parts with
                      | _ :: q :: _ => py_int_of_str (py_strip q)
                      | _ => Ok 70%Z
                      end) ;;
        Ok (stash_wait, emby_wait)
    | _ => Exc AttributeError
    end in
  match parsed with Ok r => r | Exc _ => (35%Z, 70%Z) end.

(** [start_worker(studio_id, studio_name, emby_data, collection_id,
    user_id, settings)]: builds the worker configuration and starts the
    worker with [subprocess.Popen(..., start_new_session=True)]; the
    [Popen] object is dropped, nothing waits for it. *)
Definition start_worker (studio_id : Z) (studio_name emby_data collection_id user_id : pyval)
    (settings : list (string * pyval)) : res (list proc_event) :=
  let server_conn := dget settings "server_connection" (PDict []) in
  scheme <- vget server_conn "Scheme" (PStr "http") ;;
  host <- vget server_conn "Host" (PStr "localhost") ;;
  port <- vget server_conn "Port" (PStr "9999") ;;
  s <- py_str scheme ;; h <- py_str host ;; p <- py_str port ;;
  let stash_url := s ++ "://" ++ h ++ ":" ++ p in
  let '(stash_wait, emby_wait) :=
    parse_worker_delays (dget settings "worker_delays" (PStr "35,70")) in
  emby_server <- dindex settings "emby_server" ;;
  emby_api_key <- dindex settings "emby_api_key" ;;
  stash_api_key <- dindex settings "stash_api_key" ;;
  dry_run <- dindex settings "dry_run" ;;
  let config :=
    [("emby_server", emby_server); ("emby_api_key", emby_api_key);
     ("stash_url", PStr stash_url); ("stash_api_key", stash_api_key);
     ("studio_id", PInt studio_id); ("studio_name", studio_name);
     ("emby_data", emby_data); ("collection_id", collection_id);
     ("user_id", user_id); ("dry_run", dry_run);
     ("stash_wait", PInt stash_wait); ("emby_wait", PInt emby_wait);
     ("scheduled_task_id", dget settings "scheduled_task_id" PNone);
     ("enable_worker_log", dget settings "enable_worker_log" (PBool true))] in
  Ok [PPopen worker_script config true].

Section Hook.

(** The catalog and Emby lookups: [stash.find_studio(studio_id, ...)],
    [get_emby_user_id(emby_server, emby_api_key)] and
    [find_collection_by_name(emby_server, emby_api_key, user_id, name)]. *)
Variable find_studio : Z -> pyval.
Variable get_emby_user_id : pyval -> pyval -> pyval.
Variable find_collection_by_name : pyval -> pyval -> pyval -> pyval -> pyval.
(** [build_emby_data(studio, collection_id)] of utils.py. *)
Variable build_emby_data : pyval -> pyval -> res pyval.
(** [handle_update_hook] and [handle_task]: their HTTP calls are made in
    the plugin process; they call no [subprocess] or [threading]
    function, so they start no process. *)
Variable handle_update_hook : Z -> list (string * pyval) -> res unit.
Variable handle_task : list (string * pyval) -> res unit.

(** [hook_handler.handle_create_hook(stash, studio_id, settings,
    start_worker)]; the returned message is not modelled. *)
Definition handle_create_hook (studio_id : Z) (settings : list (string * pyval))
    : res (list proc_event) :=
  let studio := find_studio studio_id in
  if negb (truthy studio) then Ok [] else
  studio_name <- vget studio "name" (PStr "Unknown") ;;
  emby_server <- dindex settings "emby_server" ;;
  emby_api_key <- dindex settings "emby_api_key" ;;
  let user_id := get_emby_user_id emby_server emby_api_key in
  if negb (truthy user_id) then Ok [] else
  let collection := find_collection_by_name emby_server emby_api_key user_id studio_name in
  if negb (truthy collection) then Ok [] else
  cid <- vindex collection "Id" ;;
  emby_data <- build_emby_data studio cid ;;
  start_worker studio_id studio_name emby_data cid user_id settings.

(** [main()] from the loaded [settings] (with [server_connection] set)
    and [args.get("hookContext")]: the processes the run starts.  Its
    [try ... except Exception] prints the error, so a run that raises
    has started none. *)
Definition main (settings : list (string * pyval)) (hook_ctx : pyval) : list proc_event :=
  let run :=
    if truthy hook_ctx then
      idv <- vget hook_ctx "id" (PInt 0) ;;
      studio_id <- py_int idv ;;
      hook_type <- vget hook_ctx "type" (PStr "") ;;
      enable_hook <- dindex settings "enable_hook" ;;
      if negb (truthy enable_hook) then Ok []
      else if py_eq_str hook_type "Studio.Create.Post" then handle_create_hook studio_id settings
      else if py_eq_str hook_type "Studio.Update.Post" then
        (_ <- handle_update_hook studio_id settings ;; Ok [])
      else Ok []
    else (_ <- handle_task settings ;; Ok []) in
  match run with Ok evs => evs | Exc _ => [] end.

End Hook.

End StudioToCollection.

Definition ex_stc_settings : list (string * pyval) :=
  [("enable_hook", PBool true); ("emby_server", PStr "http://emby:8096");
   ("emby_api_key", PStr "e"); ("stash_api_key", PStr "k"); ("dry_run", PBool false);
   ("worker_delays", PStr "35,70");
   ("server_connection", PDict [("Scheme", PStr "http"); ("Host", PStr "localhost");
                                ("Port", PInt 9999)])].

Definition ex_studio (z : Z) : pyval := PDict [("id", PInt z); ("name", PStr "Stu")].
Definition ex_user (server key : pyval) : pyval := PStr "u1".
Definition ex_collection (server key user name : pyval) : pyval := PDict [("Id", PStr "c1")].
Definition ex_emby_data (studio cid : pyval) : res pyval := Ok (PDict [("Name", PStr "Stu")]).
Definition ex_update (z : Z) (settings : list (string * pyval)) : res unit := Ok tt.
Definition ex_task (settings : list (string * pyval)) : res unit := Ok tt.
Definition ex_create_hook_ctx : pyval :=
  PDict [("id", PInt 3); ("type", PStr "Studio.Create.Post")].

(* ------------------------------------------------------------------ *)
(** ** The actorSyncEmby create-hook worker ([actor_sync_worker.py]) *)

(** What the worker does that the schedule is about: a [time.sleep], the
    library refresh, the existence check and the upload of attempt [i]. *)
Inductive wk_event : Type :=
  | WSleep (seconds : Z)
  | WRefresh
  | WCheck (attempt : nat)
  | WUpload (attempt : nat).

(** How the worker process ends: [sys.exit(code)] (or [main] returning,
    code 0), or an uncaught exception (status 1 with a traceback). *)
Inductive wk_exit : Type :=
  | ExitCode (code : Z)
  | Crash (e : pyexc).

(** The worker's code: it records its events and may end the process. *)
Definition W (A : Type) : Type := list wk_event -> list wk_event * (wk_exit + A).

Definition wret {A} (a : A) : W A := fun tr => (tr, inr a).
Definition wexit {A} (code : Z) : W A := fun tr => (tr, inl (ExitCode code)).
Definition wlift {A} (r : res A) : W A :=
  fun tr => match r with Ok a => (tr, inr a) | Exc e => (tr, inl (Crash e)) end.
Definition wemit (e : wk_event) : W unit := fun tr => (app tr [e], inr tt).
Definition wbind {A B} (m : W A) (k : A -> W B) : W B :=
  fun tr => match m tr with
            | (tr', inr a) => k a tr'
            | (tr', inl x) => (tr', inl x)
            end.
Notation "x <== m ;;; k" := (wbind m (fun x => k))
  (at level 61, m at next level, right associativity).

Module ActorSyncWorker.

(** [int] seconds that [time.sleep] accepts: CPython converts them to a
    signed 64-bit count of nanoseconds ([_PyTime_t]). *)
Definition sleep_max : Z := 9223372036.

(** [time.sleep(n)] for an [int] [n]. *)
Definition sleep (n : Z) : W unit :=
  _ <== wlift (if (n <? 0)%Z then Exc ValueError
               else if (sleep_max <? n)%Z then Exc OverflowError else Ok tt) ;;;
  wemit (WSleep n).

(** [v.strip()] where [v] must be a str. *)
Definition strip_v (v : pyval) : res string :=
  match v with PStr s => Ok (py_strip s) | _ => Exc AttributeError end.

(** [urllib.parse.quote(actor_name)], which [check_actor_exists_in_emby]
    calls outside its [try]: a non-str name raises [TypeError]. *)
Definition quote_arg (v : pyval) : res string :=
  match v with PStr s => Ok s | _ => Exc TypeError end.

(** The delay parsing of [main]: the same [try] block as in
    StudioToCollection's [start_worker]. *)
Definition parse_worker_delays (worker_delays_str : pyval) : Z * Z :=
  StudioToCollection.parse_worker_delays worker_delays_str.

Definition retry_delays : list Z := [30; 60; 90]%Z.
Definition max_attempts : nat := length retry_delays + 1.

Section Worker.

(** [base64.b64decode(config_b64).decode("utf-8")] and [json.loads];
    [None] when one of them raises. *)
Variable decode_config : string -> option pyval.
(** [get_performer_from_stash(stash_url, stash_api_key, performer_id)]:
    its body catches every exception and returns [None] then. *)
Variable get_performer_from_stash : pyval -> pyval -> string -> pyval.
(** [check_actor_exists_in_emby(emby_server, emby_api_key, actor_name)]
    at attempt [i]: its request is in a [try] that returns [False]. *)
Variable check_actor_exists_in_emby : string -> string -> string -> nat -> bool.
(** Whether [upload_actor_to_emby(performer=..., ...)] returns ([true])
    or raises an [Exception] ([false]) at attempt [i]. *)
Variable upload_actor_to_emby : pyval -> string -> string -> nat -> bool.

(** [retry_delays[attempt]] *)
Definition retry_delay (attempt : nat) : res Z :=
  match nth_error retry_delays attempt with Some d => Ok d | None => Exc IndexError end.

(** The [for attempt in range(max_attempts)] loop of [main]. *)
Fixpoint upload_loop (performer actor_name : pyval) (emby_server emby_api_key : string)
    (attempts : list nat) : W unit :=
  match attempts with
  | [] => wret tt
  | attempt :: rest =>
      name <== wlift (quote_arg actor_name) ;;;
      _ <== wemit (WCheck attempt) ;;;
      if negb (check_actor_exists_in_emby emby_server emby_api_key name attempt) then
        if (attempt <? max_attempts - 1)%nat then
          wait_time <== wlift (retry_delay attempt) ;;;
          _ <== sleep wait_time ;;;
          upload_loop performer actor_name emby_server emby_api_key rest
        else wexit 1
      else
        _ <== wemit (WUpload attempt) ;;;
        if upload_actor_to_emby performer emby_server emby_api_key attempt then wexit 0
        else if (attempt <? max_attempts - 1)%nat then
          wait_time <== wlift (retry_delay attempt) ;;;
          _ <== sleep wait_time ;;;
          upload_loop performer actor_name emby_server emby_api_key rest
        else wexit 1
  end.

(** [main()] with [sys.argv]: the worker's events and how it ends. *)
Definition main_w (argv : list string) : W unit :=
  match argv with
  | _ :: performer_id :: config_b64 :: _ =>
      match decode_config config_b64 with
      | None => wexit 1
      | Some config =>
          _ <== wlift (vget config "enable_worker_log" (PBool true)) ;;;
          es <== wlift (vget config "emby_server" (PStr "")) ;;;
          emby_server <== wlift (strip_v es) ;;;
          ek <== wlift (vget config "emby_api_key" (PStr "")) ;;;
          emby_api_key <== wlift (strip_v ek) ;;;
          stash_api_key <== wlift (vget config "stash_api_key" (PStr "")) ;;;
          _ <== wlift (vget config "server_connection" (PDict [])) ;;;
          _ <== wlift (vget config "upload_mode" (PInt 1)) ;;;
          stash_url <== wlift (vget config "stash_url" (PStr "http://localhost:9999")) ;;;
          worker_delays_str <== wlift (vget config "worker_delays" (PStr "35,70")) ;;;
          let '(stash_wait, emby_wait) := parse_worker_delays worker_delays_str in
          if String.eqb emby_server "" || String.eqb emby_api_key "" then wexit 1 else
          let performer := get_performer_from_stash stash_url stash_api_key performer_id in
          if negb (truthy performer) then wexit 1 else
          actor_name <== wlift (vget performer "name" (PStr "")) ;;;
          _ <== sleep stash_wait ;;;
          _ <== wemit WRefresh ;;;
          _ <== sleep emby_wait ;;;
          upload_loop performer actor_name emby_server emby_api_key (seq 0 max_attempts)
      end
  | _ => wexit 1
  end.

Definition main (argv : list string) : list wk_event * wk_exit :=
  match main_w argv [] with
  | (tr, inl x) => (tr, x)
  | (tr, inr _) => (tr, ExitCode 0)
  end.

End Worker.

End ActorSyncWorker.

(** The upload phase as the claim words it: at most 4 attempts, with a
    sleep of 30, 60 and 90 seconds before the retries; exit status 0 on
    the first success and 1 after the fourth failure.  An attempt checks
    that the actor exists and, if it does, uploads. *)
Fixpoint claimed_attempts (delays : list Z) (i : nat) (check upload : nat -> bool)
    : list wk_event * wk_exit :=
  let attempt := WCheck i :: (if check i then [WUpload i] else []) in
  if check i && upload i then (attempt, ExitCode 0) else
  match delays with
  | [] => (attempt, ExitCode 1)
  | d :: ds =>
      let '(tr, ex) := claimed_attempts ds (S i) check upload in
      (app attempt (WSleep d :: tr), ex)
  end.

Definition claimed_upload_schedule (check upload : nat -> bool) : list wk_event * wk_exit :=
  claimed_attempts [30; 60; 90]%Z 0 check upload.

Definition ex_worker_config : pyval :=
  PDict [("emby_server", PStr "http://emby:8096"); ("emby_api_key", PStr "e");
         ("stash_url", PStr "http://localhost:9999"); ("stash_api_key", PStr "k")].

Definition ex_decode (b64 : string) : option pyval := Some ex_worker_config.
Definition ex_decode_no_emby (b64 : string) : option pyval :=
  Some (PDict [("stash_url", PStr "http://localhost:9999")]).
Definition ex_performer (url key : pyval) (pid : string) : pyval :=
  PDict [("id", PStr pid); ("name", PStr "Ann")].
(** The actor shows up in Emby from the third attempt on; the upload succeeds. *)
Definition ex_check (server key name : string) (i : nat) : bool := (2 <=? i)%nat.
Definition ex_upload (performer : pyval) (server key : string) (i : nat) : bool := true.
Definition ex_argv : list string := ["actor_sync_worker.py"; "42"; "e30="].

(* ------------------------------------------------------------------ *)
(** ** Replaying directory removals *)

(** Applies a trace of [os.rmdir] effects one by one, each only to an
    existing empty directory; [None] when a step is anything else. *)
Fixpoint rmdir_replay (cwd : string) (st : fsys) (tr : list effect) : option fsys :=
  match tr with
  | [] => Some st
  | ERmdir d :: tr' =>
      if empty_dir cwd st d then rmdir_replay cwd (fs_rmdir cwd st d) tr' else None
  | _ :: _ => None
  end.

(** A string with each character mapped by [f]. *)
Fixpoint smap (f : ascii -> ascii) (s : string) : string :=
  match s with
  | EmptyString => EmptyString
  | String c s' => String (f c) (smap f s')
  end.

(** The character map that [safe_segment] applies after [strip()]. *)
Definition safe_char (c : ascii) : ascii :=
  let c := if Ascii.eqb c bslash then "_"%char else c in
  let c := if Ascii.eqb c slash then "_"%char else c in
  if is_bad_char c then "_"%char else c.

(** Whether a worker event is an existence check. *)
Definition is_check (e : wk_event) : bool := match e with WCheck _ => true | _ => false end.

(* ------------------------------------------------------------------ *)
(** ** The actorSyncEmby hooks ([hook_handler.py]) *)

(** [v == n] for an int constant [n]: a bool compares as 0 or 1. *)
Definition py_eq_int (v : pyval) (n : Z) : bool :=
  match v with
  | PInt z => Z.eqb z n
  | PBool b => Z.eqb (if b then 1 else 0) n
  | _ => false
  end.

Module ActorHook.

(** The calls [_process_hook_performer] makes that act outside it, with
    the arguments it passes. *)
Inductive hook_event : Type :=
  (* export_func(performer=..., actor_output_dir=..., export_mode=1,
     server_conn=..., stash_api_key=..., dry_run=...) *)
  | HExport (performer actor_output_dir server_conn stash_api_key dry_run : pyval)
  (* upload_func(performer=..., emby_server=..., emby_api_key=...,
     server_conn=..., stash_api_key=..., upload_mode=1) *)
  | HUpload (performer emby_server emby_api_key server_conn stash_api_key : pyval)
  (* start_async_worker(performer_id, upload_settings) *)
  | HStartWorker (performer_id : Z) (upload_settings : list (string * pyval)).

(** The calls made so far and the outcome. *)
Definition HM (A : Type) : Type := list hook_event * res A.

Definition hret {A} (a : A) : HM A := ([], Ok a).
Definition hlift {A} (r : res A) : HM A := ([], r).
Definition hbind {A B} (m : HM A) (k : A -> HM B) : HM B :=
  match m with
  | (evs, Ok a) => let '(evs', r) := k a in (app evs evs', r)
  | (evs, Exc e) => (evs, Exc e)
  end.
Notation "x <~ m ;; k" := (hbind m (fun x => k))
  (at level 61, m at next level, right associativity).

Definition hook_create : string := "创建".
Definition hook_update : string := "更新".

Section Hook.

(** [stash.find_performer(performer_id)] *)
Variable find_performer : Z -> res pyval.
(** Whether the called function returns or raises. *)
Variable call_result : hook_event -> res unit.

Definition hcall (e : hook_event) : HM unit := ([e], call_result e).

(** [if local_exporter: export_func = local_exporter.get(...); if
    export_func: export_func(...)]; a function in [settings] is a
    truthy value. *)
Definition export_local (performer : pyval) (settings : list (string * pyval)) : HM unit :=
  let local_exporter := dget settings "local_exporter" PNone in
  if truthy local_exporter then
    export_func <~ hlift (vget local_exporter "export_actor_to_local" PNone) ;;
    if truthy export_func then
      hcall (HExport performer (dget settings "actor_output_dir" (PStr ""))
                     (dget settings "server_connection" (PDict []))
                     (dget settings "stash_api_key" (PStr ""))
                     (dget settings "dry_run" (PBool false)))
    else hret tt
  else hret tt.

(** [upload_func = emby_uploader.get("upload_actor_to_emby"); if
    upload_func: upload_func(...)] *)
Definition upload_sync (emby_uploader performer : pyval) (settings : list (string * pyval))
    : HM unit :=
  upload_func <~ hlift (vget emby_uploader "upload_actor_to_emby" PNone) ;;
  if truthy upload_func then
    hcall (HUpload performer (dget settings "emby_server" (PStr ""))
                   (dget settings "emby_api_key" (PStr ""))
                   (dget settings "server_connection" (PDict []))
                   (dget settings "stash_api_key" (PStr "")))
  else hret tt.

(** [upload_settings = dict(settings); upload_settings["upload_mode"] = 1;
    start_async_worker(performer_id, upload_settings)] *)
Definition start_worker (performer_id : Z) (settings : list (string * pyval)) : HM unit :=
  hcall (HStartWorker performer_id (dset settings "upload_mode" (PInt 1))).

Definition _process_hook_performer (performer_id : Z) (settings : list (string * pyval))
    (hook_type : string) : HM string :=
  performer <~ hlift (find_performer performer_id) ;;
  if negb (truthy performer) then hret ("找不到演员 ID: " ++ str_of_Z performer_id) else
  performer_name <~ hlift (vget performer "name" (PStr "Unknown")) ;;
  let emby_uploader := dget settings "emby_uploader" PNone in
  let hook_mode := dget settings "hook_mode" (PInt 3) in
  if py_eq_int hook_mode 0 then hret "Hook 响应已关闭" else
  if py_eq_int hook_mode 1 then
    _ <~ export_local performer settings ;;
    name <~ hlift (py_str performer_name) ;;
    hret ("演员 " ++ name ++ " " ++ hook_type ++ "成功，已导出本地（覆盖模式）")
  else if py_eq_int hook_mode 2 then
    if String.eqb hook_type "创建" then
      _ <~ start_worker performer_id settings ;;
      name <~ hlift (py_str performer_name) ;;
      hret ("演员 " ++ name ++ " " ++ hook_type ++ "成功，已启动异步上传 Emby（覆盖模式）")
    else
      _ <~ (if truthy emby_uploader then upload_sync emby_uploader performer settings
            else hret tt) ;;
      name <~ hlift (py_str performer_name) ;;
      hret ("演员 " ++ name ++ " " ++ hook_type ++ "成功，已上传 Emby（覆盖模式）")
  else if py_eq_int hook_mode 3 then
    _ <~ export_local performer settings ;;
    if truthy emby_uploader then
      if String.eqb hook_type "创建" then
        _ <~ start_worker performer_id settings ;;
        name <~ hlift (py_str performer_name) ;;
        hret ("演员 " ++ name ++ " " ++ hook_type
              ++ "成功，已导出本地并启动异步上传 Emby（覆盖模式）")
      else
        _ <~ upload_sync emby_uploader performer settings ;;
        name <~ hlift (py_str performer_name) ;;
        hret ("演员 " ++ name ++ " " ++ hook_type ++ "成功，已同步到本地和 Emby（覆盖模式）")
    else
      name <~ hlift (py_str performer_name) ;;
      hret ("演员 " ++ name ++ " " ++ hook_type ++ "成功，已导出本地（覆盖模式）")
  else
    m <~ hlift (py_str hook_mode) ;;
    hret ("未知的 hook_mode=" ++ m).

Definition handle_create_hook (performer_id : Z) (settings : list (string * pyval)) : HM string :=
  _process_hook_performer performer_id settings hook_create.

Definition handle_update_hook (performer_id : Z) (settings : list (string * pyval)) : HM string :=
  _process_hook_performer performer_id settings hook_update.

End Hook.

End ActorHook.

(* ------------------------------------------------------------------ *)
(** ** Files already under the target ([regenerate_file_at_target]) *)

(** [build_target_path_for_existing_file(file_path, scene, file_obj,
    settings)]: its body is inside [try ... except Exception as e: raise
    RuntimeError(...)]. *)
Definition build_target_path_for_existing_file (cwd : string) (scene : list (string * pyval))
    (file_path : string) (file_obj settings : list (string * pyval)) : res string :=
  let body :=
    source_target_mapping <- vstrip (dget settings "source_target_mapping" (PStr "")) ;;
    match (if String.eqb source_target_mapping "" then None else split_arrow source_target_mapping) with
    | Some (_, t0) =>
        let target_base_dir := py_strip t0 in
        if String.eqb target_base_dir "" then Exc RuntimeError else
        let normalized_target_base := normpath target_base_dir in
        let normalized_file_path := normpath file_path in
        if starts_with (normalized_target_base ++ "/") normalized_file_path then
          mapped_target cwd normalized_target_base target_base_dir scene file_path file_obj settings
        else build_target_path cwd scene file_path file_obj settings
    | None =>
        target_root <- vstrip (dget settings "target_root" (PStr "")) ;;
        if String.eqb target_root "" then Exc RuntimeError else
        template <- (v <- dindex settings "filename_template" ;; vstrip v) ;;
        rel_path_clean <- render_template_path template scene file_path file_obj settings ;;
        Ok (path_join target_root [rel_path_clean])
    end in
  match body with
  | Ok p => Ok p
  | Exc OutsideModel => Exc OutsideModel
  | Exc _ => Exc RuntimeError
  end.

Section Regen.

Variable net : string -> session -> nat -> option response.
Variable writable : string -> bool.
Variable url_path : string -> option string.
Variable overlay_studio_logo_on_poster : string -> M unit.
Variable move_file_with_graphql : pyval -> string -> string -> bool.

(** [except Exception as e: log.error(...); return False] *)
Definition regen_handler (e : pyexc) : M bool :=
  match e with OutsideModel => mraise OutsideModel | _ => mret false end.

(** [regenerate_file_at_target(file_obj, scene, settings)] *)
Definition regenerate_file_at_target (cwd : string) (file_obj scene settings : list (string * pyval))
    : M bool :=
  mtry (
    let file_path := dget file_obj "path" (PStr "") in
    let file_id := dget file_obj "id" (PStr "") in
    if negb (truthy file_path) || negb (truthy file_id) then mret false else
    match file_path with
    | PStr file_path =>
        let original_dir := dirname file_path in
        new_target_path <-- mlift (build_target_path_for_existing_file cwd scene file_path
                                     file_obj settings) ;;;
        let new_target_dir := dirname new_target_path in
        let new_target_basename := basename new_target_path in
        let dry := truthy (dget settings "dry_run" PNone) in
        moved <-- (if negb dry then
                     (st <-- mget ;;;
                      if move_file_with_graphql file_id new_target_dir new_target_basename then
                        _ <-- mdo (EGqlMoveFiles file_id new_target_dir new_target_basename)
                                  (fs_move_file cwd (fs_add_dirs cwd st new_target_dir) file_path
                                                (join2 new_target_dir new_target_basename)) ;;;
                        mret true
                      else mret false)
                   else
                     _ <-- os_makedirs cwd new_target_dir ;;;
                     mret true) ;;;
        if negb moved then mret false else
        _ <-- post_process_moved_file net writable url_path overlay_studio_logo_on_poster
                cwd file_path new_target_path scene settings ;;;
        _ <-- (if dry then mret tt else
               source_target_mapping <-- mlift (vstrip (dget settings "source_target_mapping" (PStr ""))) ;;;
               base_path <-- mlift
                 (match (if String.eqb source_target_mapping "" then None
                         else split_arrow source_target_mapping) with
                  | Some (_, t) => Ok (py_strip t)
                  | None => vstrip (dget settings "target_root" (PStr ""))
                  end) ;;;
               if String.eqb base_path "" then mret tt else
               is_moving <-- mlift (should_clean_directory original_dir settings) ;;;
               st <-- mget ;;;
               let '(st', es) := remove_empty_parent_dirs cwd st original_dir base_path
                                   source_target_mapping is_moving in
               fun _ tr => (st', app tr es, Ok tt)) ;;;
        mret true
    | _ => mraise TypeError        (* os.path.dirname of a non-str *)
    end)
  regen_handler.

(** [regenerate_metadata_only(file_path, scene, settings)]: both branches
    call [post_process_moved_file(file_path, file_path, ...)]. *)
Definition regenerate_metadata_only (cwd file_path : string) (scene settings : list (string * pyval))
    : M bool :=
  mtry (
    _ <-- post_process_moved_file net writable url_path overlay_studio_logo_on_poster
            cwd file_path file_path scene settings ;;;
    mret true)
  regen_handler.

End Regen.

(* ------------------------------------------------------------------ *)
(** ** The StudioToCollection create-hook worker ([studio_sync_worker.py]) *)

Module StudioSyncWorker.

(** What [sync_studio_to_collection] does that its schedule is about: a
    [time.sleep], the library refresh request, the scheduled-task request
    and the collection search of attempt [i], and the [upload_metadata]
    call of attempt [i] with the collection id. *)
Inductive sw_event : Type :=
  | SSleep (seconds : Z)
  | SLibraryRefresh
  | STask (attempt : nat)
  | SSearch (attempt : nat)
  | SUpload (attempt : nat) (collection_id : pyval).

(** Which of the four messages [sync_studio_to_collection] returns:
    ["缺少 collection_id"], ["工作室 {studio_name} 同步完成"],
    ["工作室 {studio_name} 上传失败"] and
    ["工作室 {studio_name}：三次尝试后仍未找到合集，放弃同步"]. *)
Inductive sync_result : Type :=
  | MissingCollectionId
  | SyncCompleted
  | UploadFailed
  | GaveUp.

(** The worker's code records its events and may raise. *)
Definition SW (A : Type) : Type := list sw_event * res A.

Definition sret {A} (a : A) : SW A := ([], Ok a).
Definition slift {A} (r : res A) : SW A := ([], r).
Definition semit (e : sw_event) : SW unit := ([e], Ok tt).
Definition sbind {A B} (m : SW A) (k : A -> SW B) : SW B :=
  match m with
  | (evs, Ok a) => let '(evs', r) := k a in (app evs evs', r)
  | (evs, Exc e) => (evs, Exc e)
  end.
Notation "x <: m ;; k" := (sbind m (fun x => k))
  (at level 61, m at next level, right associativity).

(** [time.sleep(n)] for an [int] [n] (the bounds of [ActorSyncWorker.sleep]). *)
Definition sleep (n : Z) : SW unit :=
  _ <: slift (if (n <? 0)%Z then Exc ValueError
              else if (ActorSyncWorker.sleep_max <? n)%Z then Exc OverflowError
              else Ok tt) ;;
  semit (SSleep n).

(** [time.sleep(v)] for a JSON value [v] of the configuration: a [bool] is
    an [int]; [None], a str, a list or a dict raise [TypeError]. *)
Definition sleep_v (v : pyval) : SW unit :=
  match v with
  | PInt n => sleep n
  | PBool b => sleep (Z.b2z b)
  | _ => slift (Exc TypeError)
  end.

Section Worker.

(** [find_collection_by_name(emby_server, emby_api_key, user_id,
    studio_name)] at attempt [i]: its body is one [try] that returns
    [None] on any exception, else an item of the response or [None]. *)
Variable find_collection_by_name : pyval -> pyval -> pyval -> pyval -> nat -> pyval.
(** [upload_metadata(collection_id, emby_data, emby_server, emby_api_key,
    dry_run)] of [emby_uploader.py] at attempt [i]: it returns [True] on
    [dry_run] and otherwise catches every exception of its request. *)
Variable upload_metadata : pyval -> pyval -> pyval -> pyval -> pyval -> nat -> bool.

(** [trigger_emby_library_refresh(config["emby_server"],
    config["emby_api_key"])]: the arguments are read outside the callee,
    whose body catches every exception. *)
Definition library_refresh (config : list (string * pyval)) : SW unit :=
  _ <: slift (dindex config "emby_server") ;;
  _ <: slift (dindex config "emby_api_key") ;;
  semit SLibraryRefresh.

(** [if task_id: trigger_emby_scheduled_task(config["emby_server"],
    config["emby_api_key"], task_id)] *)
Definition trigger_task (config : list (string * pyval)) (task_id : pyval) (i : nat)
    : SW unit :=
  if truthy task_id then
    _ <: slift (dindex config "emby_server") ;;
    _ <: slift (dindex config "emby_api_key") ;;
    semit (STask i)
  else sret tt.

(** [find_collection_by_name(config["emby_server"],
    config["emby_api_key"], user_id, studio_name)] *)
Definition search (config : list (string * pyval)) (user_id studio_name : pyval) (i : nat)
    : SW pyval :=
  es <: slift (dindex config "emby_server") ;;
  ek <: slift (dindex config "emby_api_key") ;;
  _ <: semit (SSearch i) ;;
  sret (find_collection_by_name es ek user_id studio_name i).

(** [upload_to_emby(config, collection_id)]: [config["emby_data"].copy()]
    is a dict copy (a list copies too, but its item assignment raises
    [TypeError]; other values have no [copy]). *)
Definition upload_to_emby (config : list (string * pyval)) (collection_id : pyval) (i : nat)
    : SW bool :=
  ed <: slift (dindex config "emby_data") ;;
  emby_data <: slift (match ed with
                      | PDict d => Ok (dset d "Id" collection_id)
                      | PList _ => Exc TypeError
                      | _ => Exc AttributeError
                      end) ;;
  es <: slift (dindex config "emby_server") ;;
  ek <: slift (dindex config "emby_api_key") ;;
  let dry_run := dget config "dry_run" (PBool false) in
  _ <: semit (SUpload i collection_id) ;;
  sret (upload_metadata collection_id (PDict emby_data) es ek dry_run i).

(** [if upload_to_emby(config, collection["Id"]): ...] after a search of
    attempt [i] found [collection]. *)
Definition upload_found (config : list (string * pyval)) (collection : pyval) (i : nat)
    : SW sync_result :=
  cid <: slift (vindex collection "Id") ;;
  ok <: upload_to_emby config cid i ;;
  sret (if ok then SyncCompleted else UploadFailed).

(** [sync_studio_to_collection(config)] for the dict [config]. *)
Definition sync_studio_to_collection (config : list (string * pyval)) : SW sync_result :=
  studio_name <: slift (dindex config "studio_name") ;;
  let collection_id := dget config "collection_id" PNone in
  let task_id := dget config "scheduled_task_id" PNone in
  let user_id := dget config "user_id" PNone in
  let stash_wait := dget config "stash_wait" (PInt 35) in
  let emby_wait := dget config "emby_wait" (PInt 70) in
  if negb (truthy collection_id) then sret MissingCollectionId else
  _ <: sleep_v stash_wait ;;
  _ <: library_refresh config ;;
  _ <: sleep_v emby_wait ;;
  _ <: trigger_task config task_id 0 ;;
  _ <: sleep 30 ;;
  c1 <: search config user_id studio_name 0 ;;
  if truthy c1 then upload_found config c1 0 else
  _ <: sleep 60 ;;
  _ <: trigger_task config task_id 1 ;;
  c2 <: search config user_id studio_name 1 ;;
  if truthy c2 then upload_found config c2 1 else
  _ <: sleep 90 ;;
  _ <: trigger_task config task_id 2 ;;
  c3 <: search config user_id studio_name 2 ;;
  if truthy c3 then upload_found config c3 2 else
  sret GaveUp.

End Worker.

(** The seconds of the sleeps of a trace, in order. *)
Fixpoint sleeps (tr : list sw_event) : list Z :=
  match tr with
  | [] => []
  | SSleep n :: tr' => n :: sleeps tr'
  | _ :: tr' => sleeps tr'
  end.

(** The attempts of the searches of a trace, in order. *)
Fixpoint searches (tr : list sw_event) : list nat :=
  match tr with
  | [] => []
  | SSearch i :: tr' => i :: searches tr'
  | _ :: tr' => searches tr'
  end.

(** The uploads of a trace, in order. *)
Fixpoint uploads (tr : list sw_event) : list (nat * pyval) :=
  match tr with
  | [] => []
  | SUpload i c :: tr' => (i, c) :: uploads tr'
  | _ :: tr' => uploads tr'
  end.

End StudioSyncWorker.

(** A run of [sync_studio_to_collection]: the first search finds nothing,
    the second finds the collection ["9"]. *)
Definition ex_sw_config : list (string * pyval) :=
  [("studio_name", PStr "Stu"); ("collection_id", PStr "c1");
   ("scheduled_task_id", PStr "t1"); ("user_id", PStr "u1");
   ("emby_server", PStr "http://emby:8096"); ("emby_api_key", PStr "e");
   ("emby_data", PDict [("Name", PStr "Stu")])].
Definition ex_sw_find (es ek user studio : pyval) (i : nat) : pyval :=
  match i with
  | O => PNone
  | S _ => PDict [("Id", PStr "9"); ("Name", PStr "Stu")]
  end.
Definition ex_sw_upload (cid data es ek dry : pyval) (i : nat) : bool := true.
Definition ex_sw_trace : list StudioSyncWorker.sw_event :=
  [StudioSyncWorker.SSleep 35; StudioSyncWorker.SLibraryRefresh;
   StudioSyncWorker.SSleep 70; StudioSyncWorker.STask 0; StudioSyncWorker.SSleep 30;
   StudioSyncWorker.SSearch 0; StudioSyncWorker.SSleep 60; StudioSyncWorker.STask 1;
   StudioSyncWorker.SSearch 1; StudioSyncWorker.SUpload 1 (PStr "9")].

(** The configuration [start_worker] builds for the studio ["Stu"] with
    the example settings of the create hook. *)
Definition ex_sw_worker_config : list (string * pyval) :=
  match StudioToCollection.start_worker 3 (PStr "Stu") (PDict [("Name", PStr "Stu")])
          (PStr "9") (PStr "u1") ex_stc_settings with
  | Ok [PPopen _ c _] => c
  | _ => []
  end.

(* ================================================================== *)
(** * Properties *)

Example str_of_Z_ex : str_of_Z 1080 = "1080" /\ str_of_Z (-7) = "-7" /\ str_of_Z 0 = "0".
Proof. repeat split; reflexivity. Qed.

Example normpath_ex :
  normpath "/a//b/./c/../d/" = "/a/b/d" /\ normpath "//a/b" = "//a/b" /\
  normpath "../../a/b" = "../../a/b" /\ normpath "" = "." /\ normpath "a/.." = ".".
Proof. repeat split; reflexivity. Qed.

Example dirname_ex :
  dirname "/a/b/c" = "/a/b" /\ dirname "/a" = "/" /\ dirname "a" = "" /\
  dirname "//" = "//" /\ basename "/a/b.mp4" = "b.mp4".
Proof. repeat split; reflexivity. Qed.

Example splitext_ex :
  splitext "/a/b.tar.gz" = ("/a/b.tar", ".gz") /\ splitext ".bashrc" = (".bashrc", "") /\
  splitext "a.b/c" = ("a.b/c", "") /\ splitext "x." = ("x", ".").
Proof. repeat split; reflexivity. Qed.

Example relpath_ex :
  relpath "/x/y" "../../a/b.mp4" ".." = Ok "../a/b.mp4" /\
  relpath "/" "../../a/b.mp4" ".." = Ok "a/b.mp4" /\
  relpath "/w" "/data/src/a/b.mp4" "/data/src" = Ok "a/b.mp4" /\
  relpath "/w" "/data/src" "/data/src" = Ok ".".
Proof. repeat split; reflexivity. Qed.

Example py_format_ex :
  py_format "{studio}/{{x}} {n}" [("studio", PStr "S"); ("n", PInt 3)] = Ok "S/{x} 3" /\
  py_format "{foo}" [("studio", PStr "S")] = Exc KeyError /\
  py_format "{}" [] = Exc IndexError /\ py_format "a}" [] = Exc ValueError /\
  py_format "{a" [("a", PStr "x")] = Exc ValueError.
Proof. repeat split; reflexivity. Qed.

Example re_split_ex :
  re_split_seps "a//b\c" = ["a"; "b"; "c"] /\ re_split_seps "/a/" = [""; "a"; ""] /\
  re_split_seps "" = [""] /\ safe_segment " a:b " = "a_b" /\ safe_segment "  " = "_".
Proof. repeat split; reflexivity. Qed.

Example apply_multi_file_suffix_ex :
  let sc := [("files", PList [PDict [("id", PStr "7")]; PDict [("id", PStr "9")]])] in
  apply_multi_file_suffix "dir/a.mp4" sc [("id", PStr "9")] [] = Ok "dir/a-cd2.mp4" /\
  apply_multi_file_suffix "dir/a.mp4" sc [("id", PStr "5")] [] = Ok "dir/a-cd1.mp4" /\
  apply_multi_file_suffix "dir/a.mp4" sc [("id", PStr "9")]
    [("multi_file_mode", PStr "primary_only")] = Ok "dir/a.mp4".
Proof. repeat split; reflexivity. Qed.

Example build_target_path_ex :
  let sc := [("id", PStr "12"); ("title", PStr "A/B"); ("studio", PDict [("name", PStr "Stu")]);
             ("files", PList [PDict [("id", PStr "f1")]])] in
  let fo := [("id", PStr "f1"); ("path", PStr "/data/src/111/x.mp4")] in
  let st := [("source_target_mapping", PStr " /data/src -> /data/dst ");
             ("filename_template", PStr "{studio}/{scene_title}"); ("target_root", PStr "")] in
  build_target_path "/" sc "/data/src/111/x.mp4" fo st = Ok "/data/dst/111/Stu/A_B.mp4" /\
  build_target_path "/" sc "/data/src/111/x.mp4" fo
    [("filename_template", PStr "{code}-{id}"); ("target_root", PStr "/t")]
    = Ok "/t/-12.mp4".
Proof. split; reflexivity. Qed.

Ltac split_res H :=
  repeat match type of H with
         | context [match ?x with _ => _ end] => destruct x eqn:?
         end; try discriminate.

Lemma build_template_vars_basename_ext (scene : list (string * pyval)) p fo vars :
  build_template_vars scene p fo = Ok vars ->
  dindex vars "original_basename" = Ok (PStr (basename p)) /\
  dindex vars "ext" = Ok (PStr (lstrip_dots (snd (splitext (basename p))))).
Proof.
  intro H. unfold build_template_vars in H.
  destruct (splitext (basename p)) as [on e] eqn:Hse.
  unfold bind in H. split_res H.
  all: injection H as <-; split; reflexivity.
Qed.

Lemma split_arrow_nonempty s a b : split_arrow s = Some (a, b) -> String.eqb s "" = false.
Proof. destruct s; [discriminate | reflexivity]. Qed.

Lemma render_template_path_eq template scene file_path file_obj settings vars r :
  build_template_vars scene file_path (PDict file_obj) = Ok vars ->
  py_format template (vars_for_path vars) = Ok r ->
  render_template_path template scene file_path file_obj settings =
    let segs := map safe_segment (filter (fun x => negb (String.eqb x "")) (re_split_seps r)) in
    let f0 := match segs with [] => basename file_path | p :: ps => path_join p ps end in
    let e := lstrip_dots (snd (splitext (basename file_path))) in
    let f1 := if String.eqb (snd (splitext f0)) "" && negb (String.eqb e "")
              then f0 ++ "." ++ e else f0 in
    apply_multi_file_suffix f1 scene file_obj settings.
Proof.
  intros Hv Hf.
  destruct (build_template_vars_basename_ext _ _ _ _ Hv) as [Hb He].
  unfold render_template_path. rewrite Hv. simpl. rewrite Hb, He. simpl.
  rewrite Hf. reflexivity.
Qed.


(** C1 (amended).  With a mapping ["SRC->DST"] (non-empty [SRC] and
    [DST] after stripping) and a file under the normalized [SRC]:
    - when the substitution of the stripped template fails (any exception
      of [str.format]; [OutsideModel] marks format features this model
      does not cover, where nothing is known), [build_target_path]
      raises [RuntimeError];
    - when it succeeds, [build_target_path] returns the normalized
      [DST/d/f], where [d] is the first component of the path of the file
      relative to [SRC] and [f] comes from the substituted text: it is
      split at runs of ['/'] and ['\'], each non-empty segment is cleaned
      by [safe_segment] (no segment: the original basename), the original
      extension is added when there is none, and [apply_multi_file_suffix]
      is applied. *)
Theorem build_target_path_source_mapping (cwd : string)
    (scene file_obj settings vars : list (string * pyval))
    (file_path m s0 t0 tpl rel : string) :
  dget settings "source_target_mapping" (PStr "") = PStr m ->
  split_arrow (py_strip m) = Some (s0, t0) ->
  py_strip s0 <> "" -> py_strip t0 <> "" ->
  under (normpath (py_strip s0)) (normpath file_path) = true ->
  relpath cwd file_path (normpath (py_strip s0)) = Ok rel ->
  dindex settings "filename_template" = Ok (PStr tpl) ->
  build_template_vars scene file_path (PDict file_obj) = Ok vars ->
  (forall e, py_format (py_strip tpl) (vars_for_path vars) = Exc e -> e <> OutsideModel ->
     build_target_path cwd scene file_path file_obj settings = Exc RuntimeError) /\
  (forall r f, py_format (py_strip tpl) (vars_for_path vars) = Ok r ->
   (let segs := map safe_segment (filter (fun x => negb (String.eqb x "")) (re_split_seps r)) in
    let f0 := match segs with [] => basename file_path | p :: ps => path_join p ps end in
    let e := lstrip_dots (snd (splitext (basename file_path))) in
    let f1 := if String.eqb (snd (splitext f0)) "" && negb (String.eqb e "")
              then f0 ++ "." ++ e else f0 in
    apply_multi_file_suffix f1 scene file_obj settings = Ok f) ->
   build_target_path cwd scene file_path file_obj settings
     = Ok (normpath (path_join (py_strip t0) [hd "" (split_char slash rel); f]))).
Proof.
  intros Hm Hsplit Hs Ht Hunder Hrel Htpl Hv.
  assert (Hpre : build_target_path cwd scene file_path file_obj settings =
            match render_template_path (py_strip tpl) scene file_path file_obj settings with
            | Ok fc => Ok (normpath (path_join (py_strip t0)
                             [match split_char slash rel with x :: _ => x | [] => "" end; fc]))
            | Exc e => Exc e
            end).
  { unfold build_target_path. rewrite Hm. simpl.
    rewrite (split_arrow_nonempty _ _ _ Hsplit), Hsplit.
    apply String.eqb_neq in Hs, Ht. rewrite Hs, Ht. simpl.
    rewrite Hunder. unfold mapped_target. rewrite Hrel. simpl.
    rewrite Htpl. simpl. destruct (render_template_path _ _ _ _ _); reflexivity. }
  split.
  - intros e Hfmt Hne. rewrite Hpre.
    destruct (build_template_vars_basename_ext _ _ _ _ Hv) as [Hb He].
    unfold render_template_path. rewrite Hv. simpl. rewrite Hb, He. simpl.
    rewrite Hfmt. destruct e; try reflexivity. contradiction.
  - intros r f Hfmt Hf. rewrite Hpre.
    rewrite (render_template_path_eq _ _ _ _ _ _ _ Hv Hfmt). cbv zeta in Hf |- *.
    simpl in Hf |- *. rewrite Hf.
    simpl. destruct (split_char slash rel); reflexivity.
Qed.

Lemma build_target_path_source_mapping_witness :
  dget (ex_settings "{studio}/{scene_title}") "source_target_mapping" (PStr "")
    = PStr "/data/src->/data/dst" /\
  build_target_path "/" ex_scene "/data/src/111/x.mp4" ex_file (ex_settings "{studio}/{scene_title}")
    = Ok (normpath (path_join "/data/dst" ["111"; "Stu/Title.mp4"])) /\
  build_target_path "/" ex_scene "/data/src/111/x.mp4" ex_file (ex_settings "{nosuch}")
    = Exc RuntimeError.
Proof.
  split; [reflexivity |]. split.
  - eapply (build_target_path_source_mapping "/" ex_scene ex_file
              (ex_settings "{studio}/{scene_title}")
              _ "/data/src/111/x.mp4" "/data/src->/data/dst" "/data/src" "/data/dst"
              "{studio}/{scene_title}" "111/x.mp4").
    all: try reflexivity; try discriminate; try (vm_compute; reflexivity).
  - eapply (build_target_path_source_mapping "/" ex_scene ex_file (ex_settings "{nosuch}")
              _ "/data/src/111/x.mp4" "/data/src->/data/dst" "/data/src" "/data/dst"
              "{nosuch}" "111/x.mp4").
    all: try reflexivity; try discriminate; try (vm_compute; reflexivity).
Defined.

(** C1 counterexample: the template names a variable that
    [build_template_vars] does not provide; [build_target_path] raises
    [RuntimeError] instead of returning a path. *)
Lemma build_target_path_unknown_placeholder :
  build_target_path "/" ex_scene "/data/src/111/x.mp4" ex_file (ex_settings "{nosuch}")
    = Exc RuntimeError /\
  (forall p, build_target_path "/" ex_scene "/data/src/111/x.mp4" ex_file (ex_settings "{nosuch}") <> Ok p).
Proof. split; [reflexivity | intros p; vm_compute; discriminate]. Qed.

Lemma id_index_pairs_ok (l : list pyval) k :
  Forall file_entry_ok l ->
  id_index_pairs k l = Ok (combine (map file_id_of l) (seq k (length l))).
Proof.
  revert k. induction l as [|f l IH]; intros k Hl; [reflexivity|].
  inversion Hl as [|? ? [d [-> Hh]] Hl']; subst.
  simpl. rewrite Hh. rewrite (IH (S k) Hl'). reflexivity.
Qed.

Lemma index_lookup_none (ids : list pyval) key k acc :
  (forall j, j < length ids -> py_key_eq (nth j ids PNone) key = false) ->
  fold_left (lookup_step key) (combine ids (seq k (length ids))) acc = acc.
Proof.
  revert k acc. induction ids as [|a ids IH]; intros k acc H; [reflexivity|].
  pose proof (H 0 ltac:(simpl; lia)) as H0. simpl in H0 |- *. rewrite H0.
  apply IH. intros j Hj. apply (H (S j)). simpl; lia.
Qed.

Lemma index_lookup_unique (ids : list pyval) key k acc i :
  i < length ids -> py_key_eq (nth i ids PNone) key = true ->
  (forall j, j < length ids -> j <> i -> py_key_eq (nth j ids PNone) key = false) ->
  fold_left (lookup_step key) (combine ids (seq k (length ids))) acc = k + i.
Proof.
  revert k acc i. induction ids as [|a ids IH]; intros k acc i Hi Hm Hu; [simpl in Hi; lia|].
  simpl. destruct i as [|i].
  - simpl in Hm. rewrite Hm. rewrite index_lookup_none; [lia|].
    intros j Hj. apply (Hu (S j)); simpl; lia.
  - pose proof (Hu 0 ltac:(simpl; lia) ltac:(lia)) as H0. simpl in H0. rewrite H0.
    rewrite (IH (S k) acc i); [lia | simpl in Hi; lia | exact Hm |].
    intros j Hj Hne. apply (Hu (S j)); simpl; lia.
Qed.

Lemma index_lookup_eq pairs key : index_lookup pairs key = fold_left (lookup_step key) pairs 0.
Proof. reflexivity. Qed.

(** C2.  [apply_multi_file_suffix] leaves the name alone unless the
    mode ([settings.get("multi_file_mode", "all")]) is ["all"] and the
    scene has two or more files; then it inserts [-cd(i+1)] between
    the [splitext] stem and extension, [i] being the index of the file's
    id in the scene's files, or 0 when the id does not occur. *)
Theorem apply_multi_file_suffix_spec (filename : string)
    (scene file_obj settings : list (string * pyval)) :
  (py_key_eq (dget settings "multi_file_mode" (PStr "all")) (PStr "all") = false ->
   apply_multi_file_suffix filename scene file_obj settings = Ok filename) /\
  (forall l, dget scene "files" (PList []) = PList l -> length l <= 1 ->
   apply_multi_file_suffix filename scene file_obj settings = Ok filename) /\
  (forall l, py_key_eq (dget settings "multi_file_mode" (PStr "all")) (PStr "all") = true ->
   dget scene "files" (PList []) = PList l -> 2 <= length l ->
   Forall file_entry_ok l -> hashable (dget file_obj "id" PNone) = true ->
   (forall i, i < length l ->
      py_key_eq (nth i (map file_id_of l) PNone) (dget file_obj "id" PNone) = true ->
      (forall j, j < length l -> j <> i ->
         py_key_eq (nth j (map file_id_of l) PNone) (dget file_obj "id" PNone) = false) ->
      apply_multi_file_suffix filename scene file_obj settings
        = Ok (fst (splitext filename) ++ "-cd" ++ str_of_Z (Z.of_nat (i + 1))
              ++ snd (splitext filename))) /\
   ((forall j, j < length l ->
       py_key_eq (nth j (map file_id_of l) PNone) (dget file_obj "id" PNone) = false) ->
    apply_multi_file_suffix filename scene file_obj settings
      = Ok (fst (splitext filename) ++ "-cd1" ++ snd (splitext filename)))).
Proof.
  split; [|split].
  - intros H. unfold apply_multi_file_suffix. rewrite H. reflexivity.
  - intros l Hf Hlen. unfold apply_multi_file_suffix.
    destruct (py_key_eq _ _); [|reflexivity]. simpl.
    rewrite Hf. simpl. apply Nat.leb_le in Hlen. rewrite Hlen. reflexivity.
  - intros l Hmode Hf Hlen Hall Hh.
    assert (Hlen' : (List.length l <=? 1)%nat = false) by (apply Nat.leb_gt; lia).
    assert (Hids : List.length (map file_id_of l) = List.length l) by apply length_map.
    unfold apply_multi_file_suffix. rewrite Hmode, Hf. simpl. rewrite Hlen'. simpl.
    rewrite (id_index_pairs_ok l 0 Hall). simpl. rewrite Hh. simpl.
    rewrite index_lookup_eq. rewrite <- Hids.
    destruct (splitext filename) as [stem ext]. simpl.
    split.
    + intros i Hi Hm Hu. rewrite (index_lookup_unique _ _ 0 0 i); [reflexivity | lia | exact Hm |].
      intros j Hj Hne. apply Hu; lia.
    + intros Hn. rewrite index_lookup_none; [reflexivity|].
      intros j Hj. apply Hn. lia.
Qed.

Lemma apply_multi_file_suffix_spec_witness :
  apply_multi_file_suffix "dir/a.mp4" ex_two_files_scene [("id", PStr "f2")] []
    = Ok (fst (splitext "dir/a.mp4") ++ "-cd" ++ str_of_Z (Z.of_nat (1 + 1))
          ++ snd (splitext "dir/a.mp4")).
Proof.
  destruct (apply_multi_file_suffix_spec "dir/a.mp4" ex_two_files_scene [("id", PStr "f2")] [])
    as [_ [_ H]].
  destruct (H [PDict [("id", PStr "f1")]; PDict [("id", PStr "f2")]]) as [H1 _].
  - reflexivity.
  - reflexivity.
  - simpl; lia.
  - repeat constructor; eexists; split; reflexivity.
  - reflexivity.
  - apply H1; [simpl; lia | reflexivity |].
    intros j Hj Hne. destruct j as [|[|j]]; [reflexivity | lia | simpl in Hj; lia].
Defined.

(* ------------------------------------------------------------------ *)
(** ** The working directory and [build_target_path] *)

Lemma relpath_abs (c1 c2 p b : string) :
  isabs p = true -> isabs b = true -> relpath c1 p b = relpath c2 p b.
Proof. intros Hp Hb. unfold relpath, abspath. rewrite Hp, Hb. reflexivity. Qed.

Lemma normpath_isabs (p : string) : isabs p = true -> isabs (normpath p) = true.
Proof.
  intros H. unfold normpath.
  destruct (String.eqb p "") eqn:E. { apply String.eqb_eq in E. subst. discriminate. }
  unfold isabs in H. rewrite H.
  destruct (starts_with "//" p && negb (starts_with "///" p));
    cbn [repeat_str String.append]; reflexivity.
Qed.

Lemma normpath_nonempty (p : string) : normpath p <> "".
Proof.
  unfold normpath. destruct (String.eqb p "") ; [discriminate|].
  match goal with |- context [if String.eqb ?r "" then _ else _] =>
    destruct (String.eqb r "") eqn:E end; [discriminate|].
  intro H. rewrite H in E. discriminate.
Qed.

Lemma under_isabs (b p : string) :
  isabs p = true -> b <> "" -> under b p = true -> isabs b = true.
Proof.
  intros Hp Hb Hu. unfold under in Hu. apply orb_true_iff in Hu as [Hu | Hu].
  - destruct b as [|c b']; [congruence|]. destruct p as [|d p']; [discriminate|].
    unfold isabs in *. cbn [starts_with String.append] in *.
    apply andb_true_iff in Hu as [Hcd _]. apply Ascii.eqb_eq in Hcd. subst d. exact Hp.
  - apply String.eqb_eq in Hu. subst. exact Hp.
Qed.

Lemma mapped_target_abs c1 c2 base tb scene file_path file_obj settings :
  isabs file_path = true -> under base (normpath file_path) = true -> base <> "" ->
  mapped_target c1 base tb scene file_path file_obj settings
  = mapped_target c2 base tb scene file_path file_obj settings.
Proof.
  intros Hp Hu Hb. unfold mapped_target.
  rewrite (relpath_abs c1 c2); [reflexivity | exact Hp |].
  exact (under_isabs _ _ (normpath_isabs _ Hp) Hb Hu).
Qed.

(** C6 (amended).  [build_template_vars] takes no hidden input.
    [build_target_path] reads the working directory only through
    [os.path.relpath]; for an absolute file path its result is the same
    in every working directory. *)
Theorem build_target_path_cwd_independent (cwd1 cwd2 : string)
    (scene file_obj settings : list (string * pyval)) (file_path : string) :
  isabs file_path = true ->
  build_target_path cwd1 scene file_path file_obj settings
  = build_target_path cwd2 scene file_path file_obj settings.
Proof.
  intros Hp. unfold build_target_path.
  destruct (vstrip _) as [m|e]; [|reflexivity]. simpl.
  destruct (String.eqb m ""); [reflexivity|].
  destruct (split_arrow m) as [[s0 t0]|]; [|reflexivity].
  destruct (String.eqb (py_strip s0) "" || String.eqb (py_strip t0) ""); [reflexivity|].
  destruct (under (normpath (py_strip s0)) (normpath file_path)) eqn:Hs.
  - apply mapped_target_abs; [exact Hp | exact Hs | apply normpath_nonempty].
  - destruct (under (normpath (py_strip t0)) (normpath file_path)) eqn:Ht; [|reflexivity].
    apply mapped_target_abs; [exact Hp | exact Ht | apply normpath_nonempty].
Qed.

Lemma build_target_path_cwd_independent_witness :
  isabs "/data/src/111/x.mp4" = true /\
  build_target_path "/home/u" ex_scene "/data/src/111/x.mp4" ex_file (ex_settings "{studio}")
  = build_target_path "/" ex_scene "/data/src/111/x.mp4" ex_file (ex_settings "{studio}").
Proof.
  split; [reflexivity|].
  apply build_target_path_cwd_independent. reflexivity.
Defined.

(** C6 counterexample: two runs with the same scene, file and settings
    but different working directories.  The mapping's source is [".."]
    and the file path ["../../a/v.mp4"] passes the [startswith] test;
    [os.path.relpath] then gives ["../a/v.mp4"] under [/x/y] and
    ["a/v.mp4"] under [/], so the targets differ. *)
Lemma build_target_path_depends_on_cwd :
  let st := [("source_target_mapping", PStr "..->/dst");
             ("filename_template", PStr "{original_basename}"); ("target_root", PStr "")] in
  let fo := [("id", PStr "f1"); ("path", PStr "../../a/v.mp4")] in
  build_target_path "/x/y" [("id", PStr "1")] "../../a/v.mp4" fo st = Ok "/v.mp4" /\
  build_target_path "/" [("id", PStr "1")] "../../a/v.mp4" fo st = Ok "/dst/a/v.mp4".
Proof. split; reflexivity. Qed.

Example remove_empty_parent_dirs_nested_ex :
  remove_empty_parent_dirs "/" ex_fs_nested "/data/src/111/a" "/data/dst" "/data/src->/data/dst" true
  = (mkfs ["/"; "/data"; "/data/src"; "/data/dst"] ["/data/src/keep.txt"],
     [ERmdir "/data/src/111/a"; ERmdir "/data/src/111"]).
Proof. vm_compute. reflexivity. Qed.

(** C5.  The mapped source base directory itself can be removed: after
    the only file of [/data/src] was moved out, the cleanup is called on
    [/data/src] with the mapping ["/data/src->/data/dst"], base
    ["/data/dst"] and [is_moving_from_target_dir = True] (what
    [should_clean_directory] answers whenever a mapping is set).  As
    [/data/src] does not start with [/data/src/], the mapped branch is
    skipped and the generic walk towards [/data/dst] removes the empty
    [/data/src]. *)
Theorem remove_empty_parent_dirs_removes_source_base :
  remove_empty_parent_dirs "/" ex_fs_src_emptied "/data/src" "/data/dst"
    "/data/src->/data/dst" true
  = (mkfs ["/"; "/data"; "/data/dst"; "/data/dst/111"] ["/data/dst/111/x.mp4"],
     [ERmdir "/data/src"]).
Proof. vm_compute. reflexivity. Qed.

Lemma count_gets_app (t1 t2 : list dl_event) : count_gets (app t1 t2) = (count_gets t1 + count_gets t2)%nat.
Proof. induction t1 as [|e t1 IH]; [reflexivity|]. destruct e; simpl; rewrite ?IH; reflexivity. Qed.

Lemma try_download_gets net writable f url s n :
  count_gets (fst (try_download net writable f url s n)) = 1%nat.
Proof.
  unfold try_download. destruct (net url s n) as [r|]; [|reflexivity].
  destruct (String.eqb _ ""); [reflexivity|]. destruct (writable _); reflexivity.
Qed.

Lemma try_download_success net writable f url s n :
  snd (try_download net writable f url s n) = true ->
  exists resp, net url s n = Some resp /\
    fst (try_download net writable f url s n)
    = [DGet url s; DMakedirs (dirname (f resp)); DWrite (f resp) (r_body resp)].
Proof.
  unfold try_download. destruct (net url s n) as [r|]; simpl; [|discriminate].
  destruct (String.eqb _ ""); simpl; [discriminate|].
  destruct (writable _); simpl; [|discriminate]. intros _. exists r. split; reflexivity.
Qed.

(** The three passes of the download loop, unrolled. *)
Lemma download_loop_shape net writable f url s :
  let att := try_download net writable f url s in
  exists k, (1 <= k <= 3)%nat /\
    (forall i, (1 <= i < k)%nat -> snd (att i) = false) /\
    fst (download_loop net writable f url s 1 max_attempts)
      = app (concat (map (fun i => app (fst (att i)) [DSleep (2 * i)]) (seq 1 (k - 1)))) (fst (att k)) /\
    snd (download_loop net writable f url s 1 max_attempts) = snd (att k) /\
    (snd (att k) = false -> k = 3%nat).
Proof.
  intros att. subst att. unfold max_attempts. simpl.
  destruct (try_download net writable f url s 1) as [t1 [|]] eqn:E1.
  { exists 1%nat. rewrite E1. simpl. split; [lia|]. split; [intros; lia|].
    repeat split; try reflexivity.
    all: try (intros Hd; discriminate Hd); rewrite ?app_nil_r, <- ?app_assoc; reflexivity. }
  destruct (try_download net writable f url s 2) as [t2 [|]] eqn:E2.
  { exists 2%nat. simpl. rewrite E1, E2. simpl. split; [lia|].
    split; [intros i Hi; assert (i = 1%nat) by lia; subst; rewrite E1; reflexivity|].
    rewrite !app_nil_r. repeat split; try reflexivity.
    all: try (intros Hd; discriminate Hd); rewrite ?app_nil_r, <- ?app_assoc; reflexivity. }
  destruct (try_download net writable f url s 3) as [t3 o3] eqn:E3.
  exists 3%nat. simpl. rewrite E1, E2, E3. simpl. split; [lia|].
  split; [intros i Hi; assert (i = 1%nat \/ i = 2%nat) as [-> | ->] by lia; [rewrite E1 | rewrite E2]; reflexivity|].
  destruct o3; simpl; repeat split; try reflexivity.
  all: try (rewrite ?app_nil_r, <- ?app_assoc; reflexivity).
Qed.

(** C4.  [_download_binary] of AutoMoveOrganized.  An empty URL gives
    [False] with no effect (no request, no exception); an exception or a
    request happens only for a non-empty URL.  An exception escapes only from
    [build_absolute_url] or [_build_requests_session], before any
    request.  Otherwise the call makes [k <= 3] passes, each with one
    request; failed pass [i < k] is followed by a sleep of [2 * i]
    seconds; the result is [False] only when all three passes failed,
    and [True] when pass [k] wrote the body of its response to
    [amo_final_path]: the destination path, with the guessed image
    extension appended when [detect_ext] is set and the destination has
    no image extension. *)
Theorem amo_download_binary_retries net writable url_path url dst_path settings detect_ext :
  (url = "" ->
   amo_download_binary net writable url_path url dst_path settings detect_ext = Ok ([], false)) /\
  match amo_download_binary net writable url_path url dst_path settings detect_ext with
  | Exc e =>
      url <> "" /\
      (amo_build_absolute_url url settings = Exc e
       \/ (exists u, amo_build_absolute_url url settings = Ok u
                     /\ amo_build_requests_session settings = Exc e))
  | Ok (tr, b) =>
      (url = "" /\ tr = [] /\ b = false)
      \/ url <> "" /\ exists url' s k,
        let f := amo_final_path url_path detect_ext url' dst_path in
        let att := try_download net writable f url' s in
        amo_build_absolute_url url settings = Ok url' /\
        amo_build_requests_session settings = Ok s /\
        (1 <= k <= 3)%nat /\
        (forall i, (1 <= i < k)%nat -> snd (att i) = false) /\
        tr = app (concat (map (fun i => app (fst (att i)) [DSleep (2 * i)]) (seq 1 (k - 1)))) (fst (att k)) /\
        count_gets tr = k /\
        b = snd (att k) /\
        (b = false -> k = 3%nat) /\
        (b = true -> exists resp, net url' s k = Some resp /\
            fst (att k) = [DGet url' s; DMakedirs (dirname (f resp)); DWrite (f resp) (r_body resp)])
  end.
Proof.
  split; [intros ->; reflexivity|].
  unfold amo_download_binary.
  destruct (String.eqb url "") eqn:Eu.
  { left. apply String.eqb_eq in Eu. auto. }
  apply String.eqb_neq in Eu.
  destruct (amo_build_absolute_url url settings) as [u|e] eqn:Ea; cbn [bind];
    [|split; [exact Eu | left; reflexivity]].
  destruct (amo_build_requests_session settings) as [s|e] eqn:Es; cbn [bind];
    [|split; [exact Eu | right; exists u; auto]].
  set (f := amo_final_path url_path detect_ext u dst_path).
  pose proof (download_loop_shape net writable f u s) as Hsh. cbv zeta in Hsh.
  destruct Hsh as (k & Hk & Hfail & Htr & Hb & H3).
  destruct (download_loop net writable f u s 1 max_attempts) as [tr b] eqn:El. simpl in Htr, Hb.
  right. split; [exact Eu|]. exists u, s, k. cbv zeta.
  split; [reflexivity|]. split; [reflexivity|]. split; [exact Hk|].
  split; [exact Hfail|]. split; [exact Htr|].
  split.
  { rewrite Htr, count_gets_app, try_download_gets.
    assert (forall n m, count_gets (concat (map (fun i => app (fst (try_download net writable f u s i)) [DSleep (2 * i)]) (seq m n))) = n) as Hc.
    { induction n as [|n IH]; intros m; [reflexivity|].
      simpl. rewrite !count_gets_app, try_download_gets, IH. reflexivity. }
    rewrite Hc. lia. }
  split; [exact Hb|]. split.
  - intros Hf. apply H3. rewrite Hb in Hf. exact Hf.
  - intros Ht. apply try_download_success. rewrite Hb in Ht. exact Ht.
Qed.

(** C4, refuted as stated: with [detect_ext = True], a destination
    without extension and a [Content-Type: image/png] answer, the body
    is written to [/x/poster.png], not to the destination path
    [/x/poster]. *)
Lemma amo_download_binary_appends_ext :
  exists tr,
    amo_download_binary png_net any_writable no_url_path "/s/1.png" "/x/poster" ex_dl_settings true
      = Ok (tr, true)
    /\ In (DWrite "/x/poster.png" "PNGDATA") tr
    /\ (forall body, ~ In (DWrite "/x/poster" body) tr).
Proof.
  eexists. split; [vm_compute; reflexivity|]. vm_compute. split.
  - right. right. left. reflexivity.
  - intros body H. repeat destruct H as [H|H]; try discriminate. exact H.
Qed.

Lemma py_or_dict (d : list (string * pyval)) : py_or (PDict d) (PDict []) = PDict d.
Proof. destruct d; reflexivity. Qed.

Lemma py_or_str (k : string) : py_or (PStr k) (PStr "") = PStr k.
Proof.
  unfold py_or. simpl. destruct (String.eqb k "") eqn:E; [|reflexivity].
  apply String.eqb_eq in E. subst. reflexivity.
Qed.

(** C7.  The [_download_binary] of AutoMoveOrganized and that of
    [actorSyncEmby/emby_uploader.py] agree, in result and in every HTTP
    and filesystem effect, when [detect_ext] is false, the settings
    hold the server connection as a dict and the API key as a string,
    and the latter copy is given that connection and key. *)
Theorem download_binary_copies_agree net writable url_path url dst_path
    (settings d : list (string * pyval)) (k : string) :
  dget settings "server_connection" PNone = PDict d ->
  dget settings "stash_api_key" PNone = PStr k ->
  amo_download_binary net writable url_path url dst_path settings false
  = ase_download_binary net writable url dst_path (PDict d) (PStr k) false.
Proof.
  intros Hs Hk. unfold amo_download_binary, ase_download_binary,
    amo_build_absolute_url, amo_build_requests_session.
  rewrite Hs, Hk, py_or_dict, py_or_str. reflexivity.
Qed.

Lemma download_binary_copies_agree_witness :
  amo_download_binary png_net any_writable no_url_path "/s/1.png" "/x/poster" ex_dl_settings false
  = ase_download_binary png_net any_writable "/s/1.png" "/x/poster"
      (PDict [("Scheme", PStr "http"); ("Host", PStr "stash"); ("Port", PInt 9999)]) (PStr "k") false.
Proof. apply download_binary_copies_agree; reflexivity. Defined.

(** C7, refuted as stated: on the same input with [detect_ext = True]
    the AutoMoveOrganized copy writes [/x/poster.png] and the
    actorSyncEmby copy writes [/x/poster]. *)
Lemma download_binary_copies_differ :
  amo_download_binary png_net any_writable no_url_path "/s/1.png" "/x/poster" ex_dl_settings true
  <> ase_download_binary png_net any_writable "/s/1.png" "/x/poster"
      (PDict [("Scheme", PStr "http"); ("Host", PStr "stash"); ("Port", PInt 9999)]) (PStr "k") true.
Proof. vm_compute. intros H. inversion H. Qed.

Lemma process_files_unorganized mv scene settings idx fs :
  is_file_organized scene settings = false ->
  process_files mv scene settings idx fs = Ok (0%nat, []).
Proof.
  intros H. revert idx. induction fs as [|f fs IH]; intros idx; [reflexivity|].
  simpl. rewrite H. apply IH.
Qed.

Lemma is_file_organized_false scene settings :
  truthy (dget settings "move_only_organized" PNone) = true ->
  truthy (dget scene "organized" PNone) = false ->
  is_file_organized scene settings = false.
Proof.
  intros Hm Ho. unfold is_file_organized. rewrite Hm. simpl.
  destruct (dhas scene "organized"); [exact Ho | reflexivity].
Qed.

Lemma process_scene_unorganized mv scene settings r :
  truthy (dget settings "move_only_organized" PNone) = true ->
  truthy (dget scene "organized" PNone) = false ->
  process_scene mv scene settings = Ok r -> r = (0%nat, []).
Proof.
  intros Hm Ho. pose proof (is_file_organized_false scene settings Hm Ho) as Hf.
  unfold process_scene. destruct scene as [|kv scene']; [congruence|].
  destruct (negb (truthy _)); [congruence|].
  destruct (select_files _ settings) as [[sel|]|e]; simpl; [|congruence|congruence].
  destruct (py_iter sel) as [fs|e]; simpl; [|congruence].
  rewrite process_files_unorganized by exact Hf. congruence.
Qed.

Lemma process_files_tried mv scene settings idx fs n tried f :
  process_files mv scene settings idx fs = Ok (n, tried) -> In f tried ->
  In f fs /\ exists d, f = PDict d.
Proof.
  revert idx n tried. induction fs as [|g fs IH]; intros idx n tried H Hin.
  - simpl in H. inversion H; subst. destruct Hin.
  - simpl in H. destruct (is_file_organized scene settings); simpl in H.
    + destruct g as [| | | | |gd]; try discriminate.
      destruct (process_files mv scene settings (S idx) fs) as [[n' tr']|e] eqn:E; simpl in H; [|discriminate].
      inversion H; subst. destruct Hin as [<-|Hin].
      * split; [left; reflexivity | eexists; reflexivity].
      * destruct (IH _ _ _ E Hin) as [H1 H2]. split; [right; exact H1 | exact H2].
    + destruct (IH _ _ _ H Hin) as [H1 H2]. split; [right; exact H1 | exact H2].
Qed.

Lemma process_scene_tried mv scene settings n tried f :
  process_scene mv scene settings = Ok (n, tried) -> In f tried ->
  exists l, py_or (dget scene "files" PNone) (PList []) = PList l /\ In f l.
Proof.
  unfold process_scene. cbv zeta. destruct scene as [|kv scene'].
  { intros H; inversion H; subst; intros []. }
  remember (py_or (dget (kv :: scene') "files" PNone) (PList [])) as files eqn:Efiles.
  destruct (negb (truthy files)). { intros H; inversion H; subst; intros []. }
  unfold select_files.
  destruct (py_len files) as [m|e]; simpl; [|discriminate].
  destruct (1 <? m)%nat.
  - destruct (py_key_eq _ (PStr "skip")). { simpl. intros H; inversion H; subst; intros []. }
    destruct (py_key_eq _ (PStr "primary_only")).
    + destruct (py_first files) as [f0|e] eqn:Ef; cbn [bind]; [|discriminate].
      intros H Hin. destruct (process_files_tried _ _ _ _ _ _ _ f H Hin) as [[Hf0|[]] [d Hd]].
      subst f0 f.
      destruct files as [|b|z|s|l|dd]; simpl in Ef; try discriminate.
      * destruct s; discriminate.
      * destruct l as [|x l]; inversion Ef; subst. exists (PDict d :: l). split; [reflexivity | left; reflexivity].
    + cbn [bind]. destruct (py_iter files) as [fs|e] eqn:Ei; cbn [bind]; [|discriminate]. intros H Hin.
      destruct (process_files_tried _ _ _ _ _ _ _ f H Hin) as [Hf [d ->]].
      destruct files as [|b|z|s|l|dd]; simpl in Ei; inversion Ei; subst.
      * apply in_map_iff in Hf. destruct Hf as [c [Hc _]]. discriminate.
      * exists fs. split; [reflexivity | exact Hf].
      * apply in_map_iff in Hf. destruct Hf as [c [Hc _]]. discriminate.
  - cbn [bind]. destruct (py_iter files) as [fs|e] eqn:Ei; cbn [bind]; [|discriminate]. intros H Hin.
    destruct (process_files_tried _ _ _ _ _ _ _ f H Hin) as [Hf [d ->]].
    destruct files as [|b|z|s|l|dd]; simpl in Ei; inversion Ei; subst.
    + apply in_map_iff in Hf. destruct Hf as [c [Hc _]]. discriminate.
    + exists fs. split; [reflexivity | exact Hf].
    + apply in_map_iff in Hf. destruct Hf as [c [Hc _]]. discriminate.
Qed.

Lemma task_loop_tried mv settings scenes n tried f :
  truthy (dget settings "move_only_organized" PNone) = true ->
  task_loop mv settings scenes = Ok (n, tried) -> In f tried ->
  exists sc, In (PDict sc) scenes /\ truthy (dget sc "organized" PNone) = true /\
    exists l, py_or (dget sc "files" PNone) (PList []) = PList l /\ In f l.
Proof.
  intros Hm. revert n tried. induction scenes as [|x scenes IH]; intros n tried H Hin.
  - simpl in H. inversion H; subst. destruct Hin.
  - simpl in H. destruct x as [| | | | |sc]; try discriminate.
    destruct (dindex sc "id") as [v|e]; simpl in H; [|discriminate].
    destruct (py_int v) as [z|e]; simpl in H; [|discriminate].
    rewrite Hm in H. destruct (truthy (dget sc "organized" PNone)) eqn:Eo; simpl in H.
    + destruct (process_scene mv sc settings) as [[n1 t1]|e] eqn:E1; simpl in H; [|discriminate].
      destruct (task_loop mv settings scenes) as [[n2 t2]|e] eqn:E2; simpl in H; [|discriminate].
      inversion H; subst. apply in_app_or in Hin. destruct Hin as [Hin|Hin].
      * exists sc. split; [left; reflexivity|]. split; [exact Eo|].
        exact (process_scene_tried _ _ _ _ _ _ E1 Hin).
      * destruct (IH _ _ eq_refl Hin) as [sc' [Hs Hr]]. exists sc'. split; [right; exact Hs | exact Hr].
    + destruct (IH _ _ H Hin) as [sc' [Hs Hr]]. exists sc'. split; [right; exact Hs | exact Hr].
Qed.

Lemma hook_unorganized mv regen target_of find_scene all_scenes args settings hc sid z scene :
  dget args "hookContext" PNone = PDict hc ->
  py_or (dget hc "id" PNone) (dget hc "scene_id" PNone) = sid -> sid <> PNone ->
  py_int sid = Ok z -> find_scene z = PDict scene ->
  truthy (dget scene "organized" PNone) = false ->
  handle_hook_or_task mv regen target_of find_scene all_scenes args settings = Ok (0%nat, []).
Proof.
  intros Hh Hs Hn Hz Hf Ho. unfold handle_hook_or_task. cbn [vget bind].
  rewrite Hh, py_or_dict. cbn [vget bind]. rewrite Hs.
  destruct sid as [|b|zz|s|l|d]; [exfalso; apply Hn; reflexivity| | | | |];
  (destruct (negb (truthy (dget settings "enable_hook_mode" (PBool true)))); [reflexivity|]);
  rewrite Hz; cbn [bind]; rewrite Hf; rewrite Ho;
  destruct (negb (truthy (PDict scene))); reflexivity.
Qed.

(** C3.  In hook mode, a scene whose [organized] flag is not truthy is
    skipped: nothing is handed to the movers and zero files are
    reported moved.  In task mode with [move_only_organized] truthy,
    every file the run tries to move belongs to a scene of the catalog
    whose [organized] flag is truthy.  With [move_only_organized] truthy,
    [process_scene] tries no file of a scene lacking a truthy
    [organized] flag. *)
Theorem moves_only_organized_scenes :
  (forall mv regen target_of find_scene all_scenes args settings hc sid z scene,
     dget args "hookContext" PNone = PDict hc ->
     py_or (dget hc "id" PNone) (dget hc "scene_id" PNone) = sid -> sid <> PNone ->
     py_int sid = Ok z -> find_scene z = PDict scene ->
     truthy (dget scene "organized" PNone) = false ->
     handle_hook_or_task mv regen target_of find_scene all_scenes args settings = Ok (0%nat, []))
  /\
  (forall mv regen target_of find_scene all_scenes args settings n tried f,
     dget args "hookContext" PNone = PNone ->
     truthy (dget settings "move_only_organized" PNone) = true ->
     handle_hook_or_task mv regen target_of find_scene all_scenes args settings = Ok (n, tried) ->
     In f tried ->
     exists sc, In (PDict sc) all_scenes /\ truthy (dget sc "organized" PNone) = true /\
       exists l, py_or (dget sc "files" PNone) (PList []) = PList l /\ In f l)
  /\
  (forall mv scene settings r,
     truthy (dget settings "move_only_organized" PNone) = true ->
     truthy (dget scene "organized" PNone) = false ->
     process_scene mv scene settings = Ok r -> r = (0%nat, [])).
Proof.
  split; [|split].
  - intros. eapply hook_unorganized; eassumption.
  - intros mv regen target_of find_scene all_scenes args settings n tried f Hh Hm H Hin.
    unfold handle_hook_or_task in H. cbn [vget bind] in H. rewrite Hh in H.
    cbn [py_or truthy vget dget assoc_get bind] in H.
    destruct (py_int (dget settings "per_page" (PInt 1000))) as [pp|e]; cbn [bind] in H; [|discriminate].
    exact (task_loop_tried _ _ _ _ _ _ Hm H Hin).
  - exact process_scene_unorganized.
Qed.

Lemma moves_only_organized_scenes_witness :
  handle_hook_or_task mv_always (fun _ _ => true) (fun _ _ => Ok "") (fun _ => PDict ex_unorganized_scene) []
    [("hookContext", PDict [("id", PStr "7")])] [] = Ok (0%nat, [])
  /\ (exists sc, In (PDict sc) [PDict ex_scene; PDict ex_unorganized_scene]
        /\ truthy (dget sc "organized" PNone) = true /\
        exists l, py_or (dget sc "files" PNone) (PList []) = PList l /\ In (PDict ex_file) l)
  /\ (0%nat, @nil pyval) = (0%nat, []).
Proof.
  destruct moves_only_organized_scenes as [H1 [H2 H3]]. split; [|split].
  - eapply (H1 _ _ _ _ _ _ _ [("id", PStr "7")] (PStr "7") 7%Z ex_unorganized_scene);
      try reflexivity; discriminate.
  - apply (H2 mv_always (fun _ _ => true) (fun _ _ => Ok "") (fun _ => PNone)
      [PDict ex_scene; PDict ex_unorganized_scene] [] [("move_only_organized", PBool true)]
      1%nat [PDict ex_file]); [reflexivity | reflexivity | vm_compute; reflexivity | left; reflexivity].
  - apply (H3 mv_always ex_unorganized_scene [("move_only_organized", PBool true)]);
      [reflexivity | reflexivity | vm_compute; reflexivity].
Defined.

(** C3, refuted as stated: with [move_only_organized] off, a task run
    moves the file of a scene whose [organized] flag is false
    ([process_scene] hands it to [move_file_with_suffix_handling]). *)
Lemma task_moves_unorganized_scene :
  handle_hook_or_task mv_always (fun _ _ => true) (fun _ _ => Ok "") (fun _ => PNone)
    [PDict ex_unorganized_scene] [] [("move_only_organized", PBool false)]
  = Ok (1%nat, [PDict [("id", PStr "f9"); ("path", PStr "/data/src/a/v.mp4")]]).
Proof. vm_compute. reflexivity. Qed.

(* ------------------------------------------------------------------ *)
(** ** Dry runs *)

Section DrySafe.

Variable ok : effect -> Prop.

Lemma dry_safe_ret {A} (a : A) : dry_safe ok (mret a).
Proof. intros st tr. simpl. split; [reflexivity|]. split; [apply incl_refl|]. exists []. rewrite app_nil_r. auto. Qed.

Lemma dry_safe_raise {A} e : dry_safe ok (@mraise A e).
Proof. intros st tr. simpl. split; [reflexivity|]. split; [apply incl_refl|]. exists []. rewrite app_nil_r. auto. Qed.

Lemma dry_safe_lift {A} (r : res A) : dry_safe ok (mlift r).
Proof. destruct r; [apply dry_safe_ret | apply dry_safe_raise]. Qed.

Lemma dry_safe_bind {A B} (m : M A) (k : A -> M B) :
  dry_safe ok m -> (forall a, dry_safe ok (k a)) -> dry_safe ok (mbind m k).
Proof.
  intros Hm Hk st tr. unfold mbind.
  specialize (Hm st tr). destruct (m st tr) as [[st1 tr1] r1]. simpl in Hm.
  destruct Hm as (Hf & Hi & ex & Htr & Hok).
  destruct r1 as [a|e]; simpl; [|split; [exact Hf|]; split; [exact Hi|]; exists ex; auto].
  specialize (Hk a st1 tr1). destruct (k a st1 tr1) as [[st2 tr2] r2]. simpl in *.
  destruct Hk as (Hf2 & Hi2 & ex2 & Htr2 & Hok2).
  split; [congruence|]. split; [eapply incl_tran; eassumption|].
  exists (app ex ex2). split; [subst; rewrite app_assoc; reflexivity | apply Forall_app; auto].
Qed.

Lemma dry_safe_get {A} (k : fsys -> M A) :
  (forall st, dry_safe ok (k st)) -> dry_safe ok (mbind mget k).
Proof.
  intros Hk st tr. unfold mbind, mget. apply Hk.
Qed.

Lemma dry_safe_try {A} (m : M A) (h : pyexc -> M A) :
  dry_safe ok m -> (forall e, dry_safe ok (h e)) -> dry_safe ok (mtry m h).
Proof.
  intros Hm Hh st tr. unfold mtry.
  specialize (Hm st tr). destruct (m st tr) as [[st1 tr1] [a|e]]; simpl in Hm; [exact Hm|].
  destruct Hm as (Hf & Hi & ex & Htr & Hok).
  specialize (Hh e st1 tr1). destruct (h e st1 tr1) as [[st2 tr2] r2]. simpl in *.
  destruct Hh as (Hf2 & Hi2 & ex2 & Htr2 & Hok2).
  split; [congruence|]. split; [eapply incl_tran; eassumption|].
  exists (app ex ex2). split; [subst; rewrite app_assoc; reflexivity | apply Forall_app; auto].
Qed.

Lemma dry_safe_mono {A} (ok' : effect -> Prop) (m : M A) :
  (forall e, ok' e -> ok e) -> dry_safe ok' m -> dry_safe ok m.
Proof.
  intros Himp Hm st tr. destruct (Hm st tr) as (Hf & Hi & ex & Htr & Hok).
  split; [exact Hf|]. split; [exact Hi|]. exists ex. split; [exact Htr|].
  eapply Forall_impl; [exact Himp | exact Hok].
Qed.

Lemma dry_safe_makedirs cwd d : ok (EMakedirs d) -> dry_safe ok (os_makedirs cwd d).
Proof.
  intros Hd st tr. unfold os_makedirs. destruct (String.eqb d ""); [apply dry_safe_raise|].
  unfold mbind, mget. destruct (existsb _ _); [apply dry_safe_raise|].
  simpl. split; [reflexivity|]. split.
  - unfold fs_add_dirs. simpl. intros x Hx. apply in_or_app. left. exact Hx.
  - exists [EMakedirs d]. auto.
Qed.

End DrySafe.

Ltac dry_steps :=
  repeat match goal with
  | |- dry_safe _ (mret _) => apply dry_safe_ret
  | |- dry_safe _ (mraise _) => apply dry_safe_raise
  | |- dry_safe _ (mlift _) => apply dry_safe_lift
  | |- dry_safe _ (mbind mget _) => apply dry_safe_get; intros ?
  | |- dry_safe _ (mbind _ _) => apply dry_safe_bind; [|intros ?]
  | |- dry_safe _ (mtry _ _) => apply dry_safe_try; [|intros ?]
  | |- dry_safe _ (if ?b then _ else _) => destruct b
  | |- dry_safe _ (match ?x with _ => _ end) => destruct x
  end.

Lemma subtitle_loop_dry (ok : effect -> Prop) cwd sd dd ss ds names :
  dry_safe ok (subtitle_loop cwd sd dd ss ds true names).
Proof.
  induction names as [|n ns IH]; simpl; [apply dry_safe_ret|].
  apply dry_safe_bind; [|intros; exact IH].
  unfold subtitle_step. dry_steps.
Qed.

Lemma move_related_subtitle_files_dry (ok : effect -> Prop) cwd src dst settings :
  truthy (dget settings "dry_run" PNone) = true ->
  dry_safe ok (move_related_subtitle_files cwd src dst settings).
Proof.
  intros Hd. unfold move_related_subtitle_files. rewrite Hd.
  apply dry_safe_get. intros st0.
  destruct (_ || _); [apply dry_safe_ret|].
  destruct (_ || _); [apply dry_safe_ret|].
  apply dry_safe_try; [apply subtitle_loop_dry | intros; apply dry_safe_ret].
Qed.

Lemma write_nfo_for_scene_dry cwd video_path scene settings :
  truthy (dget settings "dry_run" PNone) = true ->
  dry_safe (fun e => mutating e = false) (write_nfo_for_scene cwd video_path scene settings).
Proof.
  intros Hd. unfold write_nfo_for_scene. rewrite Hd.
  destruct (negb _); [apply dry_safe_ret|].
  apply dry_safe_bind; [apply dry_safe_lift|intros _].
  apply dry_safe_bind; [apply dry_safe_lift|intros _].
  apply dry_safe_bind; [apply dry_safe_lift|intros _].
  apply dry_safe_bind; [apply dry_safe_lift|intros _].
  apply dry_safe_bind; [|intros _].
  { apply dry_safe_try; [|intros; apply dry_safe_ret].
    intros st tr. simpl. split; [reflexivity|]. split; [apply incl_refl|].
    exists [EHttp "translate_title_and_plot"]. auto. }
  apply dry_safe_bind; [apply dry_safe_lift|intros _]. apply dry_safe_ret.
Qed.

Lemma download_scene_art_dry (ok : effect -> Prop) net writable url_path overlay cwd video_path scene settings :
  truthy (dget settings "dry_run" PNone) = true ->
  dry_safe ok (download_scene_art net writable url_path overlay cwd video_path scene settings).
Proof.
  intros Hd. unfold download_scene_art. rewrite Hd.
  destruct (negb _); [apply dry_safe_ret|].
  apply dry_safe_bind; [apply dry_safe_lift|intros shot].
  apply dry_safe_bind; [apply dry_safe_lift|intros webp].
  destruct (negb _); [apply dry_safe_ret|].
  apply dry_safe_get. intros st0.
  destruct (existsb _ _); [apply dry_safe_ret|].
  apply dry_safe_bind; [apply dry_safe_lift|intros u]. apply dry_safe_ret.
Qed.

Lemma remove_old_metadata_dry (ok : effect -> Prop) cwd file_path settings :
  truthy (dget settings "dry_run" PNone) = true ->
  dry_safe ok (remove_old_metadata cwd file_path settings).
Proof.
  intros Hd. unfold remove_old_metadata. rewrite Hd. dry_steps.
Qed.

Lemma move_file_with_suffix_handling_dry net writable url_path overlay gql cwd scene file_obj settings :
  truthy (dget settings "dry_run" PNone) = true ->
  dry_safe (fun e => mutating e = false \/
                     exists src dst, dget file_obj "path" PNone = PStr src /\
                       build_target_path cwd scene src file_obj settings = Ok dst /\
                       e = EMakedirs (dirname dst))
    (move_file_with_suffix_handling net writable url_path overlay gql cwd scene file_obj settings).
Proof.
  intros Hd. unfold move_file_with_suffix_handling.
  destruct (negb (truthy (dget file_obj "path" PNone))); [apply dry_safe_ret|].
  destruct (negb (truthy (dget file_obj "id" PNone))); [apply dry_safe_ret|].
  destruct (dget file_obj "path" PNone) as [| | | src | |] eqn:Es; try apply dry_safe_ret.
  destruct (build_target_path cwd scene src file_obj settings) as [dst|e] eqn:Eb; [|apply dry_safe_ret].
  rewrite Hd. simpl negb. cbv zeta.
  apply dry_safe_try; [|intros e; destruct e; try apply dry_safe_ret; apply dry_safe_raise].
  apply dry_safe_bind.
  { apply dry_safe_bind; [|intros; apply dry_safe_ret].
    apply dry_safe_try; [|intros; apply dry_safe_raise].
    apply dry_safe_makedirs. right. exists src, dst. auto. }
  intros moved. destruct (negb moved); [apply dry_safe_ret|].
  apply dry_safe_bind; [|intros _; apply dry_safe_bind; [apply dry_safe_ret | intros; apply dry_safe_ret]].
  apply dry_safe_try; [|intros; apply dry_safe_ret].
  unfold post_process_moved_file.
  apply dry_safe_bind; [apply move_related_subtitle_files_dry; exact Hd|intros _].
  apply dry_safe_bind; [|intros _; apply download_scene_art_dry; exact Hd].
  eapply dry_safe_mono; [|apply write_nfo_for_scene_dry; exact Hd].
  intros e He. left. exact He.
Qed.

(** C10.  Under [dry_run], [move_file_with_suffix_handling] (with the
    subtitle move, the NFO writer and the poster download it calls)
    removes, moves and writes no file; its only filesystem effect is
    [os.makedirs] of the directory of the target path computed by
    [build_target_path]; the other effects are network requests.
    [remove_old_metadata] under [dry_run] has no filesystem effect. *)
Theorem dry_run_only_makes_target_dir net writable url_path overlay gql cwd scene file_obj settings st :
  truthy (dget settings "dry_run" PNone) = true ->
  (let '(st', tr, _) := move_file_with_suffix_handling net writable url_path overlay gql cwd
                          scene file_obj settings st [] in
   fs_files st' = fs_files st /\ incl (fs_dirs st) (fs_dirs st') /\
   forall e, In e tr -> mutating e = true ->
     exists src dst, dget file_obj "path" PNone = PStr src /\
       build_target_path cwd scene src file_obj settings = Ok dst /\
       e = EMakedirs (dirname dst))
  /\
  (forall file_path,
   let '(st', tr, _) := remove_old_metadata cwd file_path settings st [] in
   fs_files st' = fs_files st /\ incl (fs_dirs st) (fs_dirs st') /\
   forall e, In e tr -> mutating e = false).
Proof.
  intros Hd. split.
  - destruct (move_file_with_suffix_handling_dry net writable url_path overlay gql cwd scene file_obj settings Hd st [])
      as (Hf & Hi & ex & Htr & Hok).
    destruct (move_file_with_suffix_handling _ _ _ _ _ _ _ _ _ st []) as [[st' tr] r]. simpl in *.
    split; [exact Hf|]. split; [exact Hi|].
    intros e He Hm. subst tr. simpl in He.
    rewrite Forall_forall in Hok. destruct (Hok e He) as [Hn|Hx]; [congruence | exact Hx].
  - intros file_path.
    destruct (remove_old_metadata_dry (fun e => mutating e = false) cwd file_path settings Hd st [])
      as (Hf & Hi & ex & Htr & Hok).
    destruct (remove_old_metadata cwd file_path settings st []) as [[st' tr] r]. simpl in *.
    split; [exact Hf|]. split; [exact Hi|].
    intros e He. subst tr. simpl in He. rewrite Forall_forall in Hok. exact (Hok e He).
Qed.

Lemma dry_run_only_makes_target_dir_witness :
  truthy (dget ex_dry_settings "dry_run" PNone) = true /\
  (let '(st', tr, _) := move_file_with_suffix_handling png_net any_writable no_url_path no_overlay
                          gql_always "/" ex_scene ex_file ex_dry_settings ex_fs_before_move [] in
   fs_files st' = fs_files ex_fs_before_move /\ incl (fs_dirs ex_fs_before_move) (fs_dirs st') /\
   forall e, In e tr -> mutating e = true ->
     exists src dst, dget ex_file "path" PNone = PStr src /\
       build_target_path "/" ex_scene src ex_file ex_dry_settings = Ok dst /\
       e = EMakedirs (dirname dst))
  /\
  (forall file_path,
   let '(st', tr, _) := remove_old_metadata "/" file_path ex_dry_settings ex_fs_before_move [] in
   fs_files st' = fs_files ex_fs_before_move /\ incl (fs_dirs ex_fs_before_move) (fs_dirs st') /\
   forall e, In e tr -> mutating e = false).
Proof.
  split; [reflexivity|].
  apply (dry_run_only_makes_target_dir png_net any_writable no_url_path no_overlay gql_always
           "/" ex_scene ex_file ex_dry_settings ex_fs_before_move).
  reflexivity.
Defined.

(** ** Processes started by StudioToCollection *)

Lemma start_worker_shape studio_id sn ed cid uid settings evs :
  StudioToCollection.start_worker studio_id sn ed cid uid settings = Ok evs ->
  exists cfg, evs = [PPopen StudioToCollection.worker_script cfg true].
Proof.
  unfold StudioToCollection.start_worker.
  destruct (vget _ "Scheme" _); [|discriminate]; cbn [bind].
  destruct (vget _ "Host" _); [|discriminate]; cbn [bind].
  destruct (vget _ "Port" _); [|discriminate]; cbn [bind].
  destruct (py_str a); [|discriminate]; cbn [bind].
  destruct (py_str a0); [|discriminate]; cbn [bind].
  destruct (py_str a1); [|discriminate]; cbn [bind].
  destruct (StudioToCollection.parse_worker_delays _) as [sw ew].
  destruct (dindex settings "emby_server"); [|discriminate]; cbn [bind].
  destruct (dindex settings "emby_api_key"); [|discriminate]; cbn [bind].
  destruct (dindex settings "stash_api_key"); [|discriminate]; cbn [bind].
  destruct (dindex settings "dry_run"); [|discriminate]; cbn [bind].
  intros H; injection H as <-. eexists; reflexivity.
Qed.

Lemma handle_create_hook_shape fs gu fc bed studio_id settings evs :
  StudioToCollection.handle_create_hook fs gu fc bed studio_id settings = Ok evs ->
  evs = [] \/ exists cfg, evs = [PPopen StudioToCollection.worker_script cfg true].
Proof.
  unfold StudioToCollection.handle_create_hook.
  destruct (negb (truthy (fs studio_id))); [intros H; injection H as <-; left; reflexivity|].
  destruct (vget _ "name" _); [|discriminate]; cbn [bind].
  destruct (dindex settings "emby_server"); [|discriminate]; cbn [bind].
  destruct (dindex settings "emby_api_key"); [|discriminate]; cbn [bind].
  destruct (negb (truthy (gu _ _))); [intros H; injection H as <-; left; reflexivity|].
  destruct (negb (truthy (fc _ _ _ _))); [intros H; injection H as <-; left; reflexivity|].
  destruct (vindex _ "Id"); [|discriminate]; cbn [bind].
  destruct (bed _ _); [|discriminate]; cbn [bind].
  intros H; right; exact (start_worker_shape _ _ _ _ _ _ _ H).
Qed.

Ltac no_procs :=
  split; [simpl; lia|];
  split; [let e := fresh in let H := fresh in intros e H; destruct H|];
  let Hn := fresh in intros Hn; exfalso; apply Hn; reflexivity.

(** C8 (amended): a run of StudioToCollection's [main] starts at most one
    process, and only when it handles a [Studio.Create.Post] hook with
    [enable_hook] set; that process runs [studio_sync_worker.py], is
    started with [start_new_session=True] and is never waited for.  The
    update hook and the task mode start no process. *)
Theorem studio_create_hook_starts_detached_worker fs gu fc bed upd task settings hook_ctx :
  let evs := StudioToCollection.main fs gu fc bed upd task settings hook_ctx in
  (length evs <= 1)%nat /\
  (forall e, In e evs -> exists cfg, e = PPopen StudioToCollection.worker_script cfg true) /\
  (evs <> [] ->
     truthy hook_ctx = true /\
     vget hook_ctx "type" (PStr "") = Ok (PStr "Studio.Create.Post") /\
     exists eh, dindex settings "enable_hook" = Ok eh /\ truthy eh = true).
Proof.
  assert (Hgen : forall evs : list proc_event,
    (evs = [] \/ exists cfg, evs = [PPopen StudioToCollection.worker_script cfg true]) ->
    (length evs <= 1)%nat /\
    (forall e, In e evs -> exists cfg, e = PPopen StudioToCollection.worker_script cfg true)).
  { intros evs [->|[cfg ->]]; split; simpl; try lia; intros e He.
    - destruct He as [<-|[]]. eexists; reflexivity. }
  cbv zeta. unfold StudioToCollection.main.
  destruct (truthy hook_ctx) eqn:Hc.
  2: { destruct (task settings); cbn [bind]; no_procs. }
  destruct (vget hook_ctx "id" _); cbn [bind].
  2: { no_procs. }
  destruct (py_int a) as [z|]; cbn [bind].
  2: { no_procs. }
  destruct (vget hook_ctx "type" _) as [ht|] eqn:Ht; cbn [bind].
  2: { no_procs. }
  destruct (dindex settings "enable_hook") as [eh|] eqn:He; cbn [bind].
  2: { no_procs. }
  destruct (truthy eh) eqn:Hteh; simpl negb; cbv iota.
  2: { no_procs. }
  destruct (py_eq_str ht "Studio.Create.Post") eqn:Hcr.
  - destruct (StudioToCollection.handle_create_hook fs gu fc bed z settings) as [evs|] eqn:Hh.
    + destruct (Hgen evs (handle_create_hook_shape _ _ _ _ _ _ _ Hh)) as [H1 H2].
      split; [exact H1|]. split; [exact H2|].
      intros _. split; [reflexivity|]. split.
      * destruct ht as [| | |s| |]; try discriminate Hcr. simpl in Hcr.
        apply String.eqb_eq in Hcr. subst s. reflexivity.
      * exists eh. split; [reflexivity|exact Hteh].
    + no_procs.
  - destruct (py_eq_str ht "Studio.Update.Post").
    + destruct (upd z settings); cbn [bind]; no_procs.
    + no_procs.
Qed.

(** C8: the claim that no plugin operation starts a concurrently running
    process fails: a [Studio.Create.Post] hook whose studio, Emby user and
    collection are found starts [studio_sync_worker.py] with
    [start_new_session=True] and returns without waiting for it. *)
Lemma studio_create_hook_spawns_worker :
  exists cfg,
    StudioToCollection.main ex_studio ex_user ex_collection ex_emby_data ex_update ex_task
      ex_stc_settings ex_create_hook_ctx
    = [PPopen StudioToCollection.worker_script cfg true] /\
    dget cfg "stash_wait" PNone = PInt 35 /\ dget cfg "emby_wait" PNone = PInt 70.
Proof. eexists. split; [vm_compute; reflexivity|]. split; reflexivity. Qed.

Lemma upload_loop_schedule check upload performer name es ek tr :
  ActorSyncWorker.upload_loop check upload performer (PStr name) es ek
    (seq 0 ActorSyncWorker.max_attempts) tr =
  let '(t, ex) := claimed_upload_schedule (check es ek name) (upload performer es ek) in
  (app tr t, inl ex).
Proof.
  unfold claimed_upload_schedule. simpl.
  cbv [wbind wlift wemit wexit wret ActorSyncWorker.sleep ActorSyncWorker.retry_delay
       ActorSyncWorker.retry_delays nth_error ActorSyncWorker.sleep_max].
  repeat match goal with
  | |- context [check es ek name ?i] => destruct (check es ek name i)
  | |- context [upload performer es ek ?i] => destruct (upload performer es ek i)
  end; simpl; rewrite <- ?app_assoc; reflexivity.
Qed.

Lemma upload_loop_exit check upload pf an es ek l tr0 :
  let '(tr, r) := ActorSyncWorker.upload_loop check upload pf an es ek l tr0 in
  exists ext, tr = app tr0 ext /\ (length (filter is_check ext) <= length l)%nat /\
   (r = inl (ExitCode 0) -> exists pre i, ext = app pre [WUpload i] /\ upload pf es ek i = true) /\
   (forall u, r = inr u -> forall a, In a l -> (a < 3)%nat).
Proof.
  revert tr0. induction l as [|a l IH]; intros tr0; simpl.
  - exists []. rewrite app_nil_r. split; [reflexivity|]. split; [simpl; lia|].
    split; [discriminate|]. intros _ _ _ [].
  - cbv [wbind wlift wemit wexit wret].
    destruct (ActorSyncWorker.quote_arg an) as [name|e].
    2:{ exists []. rewrite app_nil_r. split; [reflexivity|]. split; [simpl; lia|].
        split; intros; discriminate. }
    assert (Hrec : forall pre, filter is_check pre = [WCheck a] -> (a <? 3)%nat = true ->
      let '(tr, r) :=
        (let (tr', s) := match ActorSyncWorker.retry_delay a with
                         | Ok a0 => (app tr0 pre, inr a0)
                         | Exc e => (app tr0 pre, inl (Crash e)) end in
         match s with
         | inl x => (tr', inl x)
         | inr a0 =>
             let (tr'0, s0) := ActorSyncWorker.sleep a0 tr' in
             match s0 with
             | inl x => (tr'0, inl x)
             | inr _ => ActorSyncWorker.upload_loop check upload pf an es ek l tr'0
             end
         end) in
      exists ext, tr = app tr0 ext /\ (length (filter is_check ext) <= S (length l))%nat /\
       (r = inl (ExitCode 0) -> exists pre i, ext = app pre [WUpload i] /\ upload pf es ek i = true) /\
       (forall u, r = inr u -> forall a0, a = a0 \/ In a0 l -> (a0 < 3)%nat)).
    { intros pre Hpre Ha.
      destruct (ActorSyncWorker.retry_delay a) as [w|e].
      2:{ exists pre. split; [reflexivity|]. rewrite Hpre. split; [simpl; lia|].
          split; intros; discriminate. }
      unfold ActorSyncWorker.sleep. cbv [wbind wlift wemit].
      destruct (w <? 0)%Z.
      { exists pre. split; [reflexivity|]. rewrite Hpre. split; [simpl; lia|].
        split; intros; discriminate. }
      destruct (ActorSyncWorker.sleep_max <? w)%Z.
      { exists pre. split; [reflexivity|]. rewrite Hpre. split; [simpl; lia|].
        split; intros; discriminate. }
      specialize (IH (app (app tr0 pre) [WSleep w])).
      destruct (ActorSyncWorker.upload_loop check upload pf an es ek l _) as [tr r].
      destruct IH as (ext & -> & Hl & H0 & Hu).
      exists (app pre (WSleep w :: ext)). rewrite <- !app_assoc. split; [reflexivity|].
      rewrite filter_app, Hpre. simpl. split; [lia|]. split.
      - intros Hr. destruct (H0 Hr) as (p & i & -> & Hi).
        exists (app pre (WSleep w :: p)), i. rewrite <- app_assoc. split; [reflexivity|exact Hi].
      - intros u Hr a0 [<-|Hin]; [apply Nat.ltb_lt; exact Ha|exact (Hu u Hr a0 Hin)]. }
    destruct (check es ek name a) eqn:Ec; cbn [negb].
    + destruct (upload pf es ek a) eqn:Eu.
      * exists [WCheck a; WUpload a]. rewrite <- app_assoc. split; [reflexivity|].
        split; [simpl; lia|]. split; [|intros; discriminate].
        intros _. exists [WCheck a], a. split; [reflexivity|exact Eu].
      * destruct (a <? 3)%nat eqn:Ea.
        -- rewrite <- app_assoc. exact (Hrec [WCheck a; WUpload a] eq_refl eq_refl).
        -- exists [WCheck a; WUpload a]. rewrite <- app_assoc. split; [reflexivity|].
           split; [simpl; lia|]. split; intros; discriminate.
    + destruct (a <? 3)%nat eqn:Ea.
      * exact (Hrec [WCheck a] eq_refl eq_refl).
      * exists [WCheck a]. split; [reflexivity|].
        split; [simpl; lia|]. split; intros; discriminate.
Qed.

Lemma actor_main_cases dc gp check upload argv :
  (fst (ActorSyncWorker.main dc gp check upload argv) = [] /\
   (snd (ActorSyncWorker.main dc gp check upload argv) = ExitCode 1 \/
    exists e, snd (ActorSyncWorker.main dc gp check upload argv) = Crash e)) \/
  exists prog performer_id config_b64 rest config es ek sw ew,
    argv = prog :: performer_id :: config_b64 :: rest /\
    dc config_b64 = Some (PDict config) /\
    dget config "emby_server" (PStr "") = PStr es /\ py_strip es <> "" /\
    dget config "emby_api_key" (PStr "") = PStr ek /\ py_strip ek <> "" /\
    truthy (gp (dget config "stash_url" (PStr "http://localhost:9999"))
               (dget config "stash_api_key" (PStr "")) performer_id) = true /\
    ActorSyncWorker.parse_worker_delays (dget config "worker_delays" (PStr "35,70")) = (sw, ew) /\
    ((fst (ActorSyncWorker.main dc gp check upload argv) = [] /\
      exists e, snd (ActorSyncWorker.main dc gp check upload argv) = Crash e) \/
     exists name,
       vget (gp (dget config "stash_url" (PStr "http://localhost:9999"))
                (dget config "stash_api_key" (PStr "")) performer_id) "name" (PStr "") = Ok name /\
       ActorSyncWorker.main dc gp check upload argv =
       (let '(tr, r) :=
          (_ <== ActorSyncWorker.sleep sw ;;; _ <== wemit WRefresh ;;;
           _ <== ActorSyncWorker.sleep ew ;;;
           ActorSyncWorker.upload_loop check upload
             (gp (dget config "stash_url" (PStr "http://localhost:9999"))
                 (dget config "stash_api_key" (PStr "")) performer_id)
             name (py_strip es) (py_strip ek) (seq 0 ActorSyncWorker.max_attempts)) [] in
        (tr, match r with inl x => x | inr _ => ExitCode 0 end))).
Proof.
  unfold ActorSyncWorker.main, ActorSyncWorker.main_w.
  destruct argv as [|prog [|pid [|cb rest]]];
    try (left; split; [reflexivity | left; reflexivity]).
  destruct (dc cb) as [config|] eqn:Edc;
    [|left; split; [reflexivity | left; reflexivity]].
  destruct config as [| | | | |config];
    try (left; split; [reflexivity | right; eexists; reflexivity]).
  cbv [wbind wlift wexit wret vget ActorSyncWorker.strip_v].
  destruct (dget config "emby_server" (PStr "")) as [| | |es| |] eqn:Ees;
    try (left; split; [reflexivity | right; eexists; reflexivity]).
  destruct (dget config "emby_api_key" (PStr "")) as [| | |ek| |] eqn:Eek;
    try (left; split; [reflexivity | right; eexists; reflexivity]).
  destruct (ActorSyncWorker.parse_worker_delays (dget config "worker_delays" (PStr "35,70")))
    as [sw ew] eqn:Ed.
  destruct (String.eqb (py_strip es) "") eqn:Ees';
    [left; split; [reflexivity | left; reflexivity]|].
  destruct (String.eqb (py_strip ek) "") eqn:Eek';
    [left; split; [reflexivity | left; reflexivity]|].
  simpl orb. cbv iota.
  destruct (truthy (gp (dget config "stash_url" (PStr "http://localhost:9999"))
                       (dget config "stash_api_key" (PStr "")) pid)) eqn:Ep;
    [|left; split; [reflexivity | left; reflexivity]].
  right. apply String.eqb_neq in Ees', Eek'.
  exists prog, pid, cb, rest, config, es, ek, sw, ew.
  do 8 (split; [first [reflexivity | assumption]|]).
  simpl negb. cbv iota.
  destruct (gp (dget config "stash_url" (PStr "http://localhost:9999"))
               (dget config "stash_api_key" (PStr "")) pid) as [| | | | |pd] eqn:Eg;
    try discriminate Ep; cbv [vget];
    try (left; split; [reflexivity | eexists; reflexivity]).
  right. exists (dget pd "name" (PStr "")). split; [reflexivity|].
  cbv [wbind]. cbn [orb negb]. cbv beta iota.
  destruct (ActorSyncWorker.sleep sw []) as [t1 [x1|u1]]; [reflexivity|].
  destruct (wemit WRefresh t1) as [t2 [x2|u2]]; [reflexivity|].
  destruct (ActorSyncWorker.sleep ew t2) as [t3 [x3|u3]]; [reflexivity|].
  destruct (ActorSyncWorker.upload_loop _ _ _ _ _ _ _ t3) as [t4 [x4|u4]]; reflexivity.
Qed.

Ltac actor_tail Hm :=
  rewrite Hm; unfold ActorSyncWorker.sleep; cbv [wbind wlift wemit];
  repeat match goal with
         | |- context [if ?b then _ else _] => destruct b
         end;
  cbv beta iota.

(** C9 (amended): for every argument list, decoder, catalog answer and
    Emby answers, the worker either exits before any sleep or library
    refresh (status 1, or an uncaught exception), or it runs only with
    its arguments, a decoded config dict whose [emby_server] and
    [emby_api_key] are non-empty strs after stripping, and a performer
    found in the catalog: invalid arguments or config, an empty
    [emby_server] or key, or a missing performer never reach a sleep.
    Once it has all of these, a performer with a str name, and stash and
    Emby waits that [time.sleep] accepts, it sleeps the stash wait (35 s
    when [worker_delays] is absent), refreshes the Emby library, sleeps
    the Emby wait (70 s by default), then follows the claimed schedule:
    at most 4 attempts with sleeps of 30, 60 and 90 seconds before the
    retries, exit status 0 on the first success and 1 after the fourth
    failure. *)
Theorem actor_sync_worker_schedule dc gp check upload argv :
  (let '(tr, ex) := ActorSyncWorker.main dc gp check upload argv in
   (tr = [] -> ex = ExitCode 1 \/ exists e, ex = Crash e) /\
   (tr <> [] -> exists prog performer_id config_b64 rest config es ek,
      argv = prog :: performer_id :: config_b64 :: rest /\
      dc config_b64 = Some (PDict config) /\
      dget config "emby_server" (PStr "") = PStr es /\ py_strip es <> "" /\
      dget config "emby_api_key" (PStr "") = PStr ek /\ py_strip ek <> "" /\
      truthy (gp (dget config "stash_url" (PStr "http://localhost:9999"))
                 (dget config "stash_api_key" (PStr "")) performer_id) = true)) /\
  (forall prog performer_id config_b64 rest config es ek performer name sw ew,
   argv = prog :: performer_id :: config_b64 :: rest ->
   dc config_b64 = Some (PDict config) ->
   dget config "emby_server" (PStr "") = PStr es -> py_strip es <> "" ->
   dget config "emby_api_key" (PStr "") = PStr ek -> py_strip ek <> "" ->
   gp (dget config "stash_url" (PStr "http://localhost:9999"))
      (dget config "stash_api_key" (PStr "")) performer_id = performer ->
   truthy performer = true ->
   vget performer "name" (PStr "") = Ok (PStr name) ->
   ActorSyncWorker.parse_worker_delays (dget config "worker_delays" (PStr "35,70")) = (sw, ew) ->
   (0 <= sw <= ActorSyncWorker.sleep_max)%Z -> (0 <= ew <= ActorSyncWorker.sleep_max)%Z ->
   ActorSyncWorker.main dc gp check upload argv =
   let '(tr, ex) := claimed_upload_schedule (check (py_strip es) (py_strip ek) name)
                                            (upload performer (py_strip es) (py_strip ek)) in
   (WSleep sw :: WRefresh :: WSleep ew :: tr, ex)).
Proof.
  split.
  - destruct (actor_main_cases dc gp check upload argv)
      as [[H1 H2] | (prog & pid & cb & rest & config & es & ek & sw & ew &
                     Ha & Hdc & Hes & Hes' & Hek & Hek' & Hp & Hd & [[H1 H2] | (name & Hn & Hm)])].
    + destruct (ActorSyncWorker.main dc gp check upload argv) as [tr ex].
      simpl in H1, H2. split; [intros _; exact H2 | intros Hne; contradiction].
    + destruct (ActorSyncWorker.main _ _ _ _ _) as [tr ex].
      simpl in H1, H2. split; [intros _; right; exact H2 | intros Hne; contradiction].
    + assert (Hc : exists prog performer_id config_b64 rest config es ek,
                argv = prog :: performer_id :: config_b64 :: rest /\
                dc config_b64 = Some (PDict config) /\
                dget config "emby_server" (PStr "") = PStr es /\ py_strip es <> "" /\
                dget config "emby_api_key" (PStr "") = PStr ek /\ py_strip ek <> "" /\
                truthy (gp (dget config "stash_url" (PStr "http://localhost:9999"))
                           (dget config "stash_api_key" (PStr "")) performer_id) = true)
        by (exists prog, pid, cb, rest, config, es, ek; repeat split; assumption).
      actor_tail Hm.
      all: try match goal with
        | |- context [ActorSyncWorker.upload_loop ?c ?u ?pf ?an ?es ?ek ?l ?t] =>
            pose proof (upload_loop_exit c u pf an es ek l t) as Hl;
            destruct (ActorSyncWorker.upload_loop c u pf an es ek l t) as [tr x];
            destruct Hl as (ext & -> & _)
        end.
      all: cbv beta iota; split; [|intros _; exact Hc].
      all: try (intros _; right; eexists; reflexivity).
      all: intros Ht; discriminate Ht.
  - intros prog performer_id config_b64 rest config es ek performer name sw ew
      -> Hdc Hes Hes' Hek Hek' Hgp Hp Hn Hd Hsw Hew.
    destruct performer as [| | | | |pd]; try discriminate Hn.
    injection Hn as Hn.
    unfold ActorSyncWorker.main, ActorSyncWorker.main_w. rewrite Hdc.
    cbv [wbind wlift wemit wexit wret vget ActorSyncWorker.strip_v].
    rewrite Hes, Hek, Hd.
    rewrite (proj2 (String.eqb_neq _ _) Hes'), (proj2 (String.eqb_neq _ _) Hek'). simpl orb.
    rewrite Hgp, Hp. simpl negb. cbv iota.
    rewrite Hn. cbv beta iota.
    unfold ActorSyncWorker.sleep. cbv [wbind wlift wemit].
    rewrite (proj2 (Z.ltb_ge sw 0) (proj1 Hsw)), (proj2 (Z.ltb_ge _ sw) (proj2 Hsw)).
    rewrite (proj2 (Z.ltb_ge ew 0) (proj1 Hew)), (proj2 (Z.ltb_ge _ ew) (proj2 Hew)).
    cbv beta iota. cbn [orb negb]. cbv beta iota.
    rewrite upload_loop_schedule.
    destruct (claimed_upload_schedule _ _) as [tr ex]. reflexivity.
Qed.

Lemma actor_sync_worker_schedule_witness :
  ActorSyncWorker.main ex_decode ex_performer ex_check ex_upload ex_argv =
    ([WSleep 35; WRefresh; WSleep 70; WCheck 0; WSleep 30; WCheck 1; WSleep 60;
      WCheck 2; WUpload 2], ExitCode 0) /\
  ActorSyncWorker.main ex_decode ex_performer ex_check ex_upload ex_argv =
  (let '(tr, ex) := claimed_upload_schedule (ex_check "http://emby:8096" "e" "Ann")
                                            (ex_upload (ex_performer (PStr "http://localhost:9999") (PStr "k") "42")
                                                       "http://emby:8096" "e") in
   (WSleep 35 :: WRefresh :: WSleep 70 :: tr, ex)) /\
  (let '(tr, ex) := ActorSyncWorker.main ex_decode_no_emby ex_performer ex_check ex_upload ex_argv in
   tr = [] /\ (ex = ExitCode 1 \/ exists e, ex = Crash e)).
Proof.
  split; [vm_compute; reflexivity|]. split.
  - apply (proj2 (actor_sync_worker_schedule ex_decode ex_performer ex_check ex_upload ex_argv)
           "actor_sync_worker.py" "42" "e30=" []
           [("emby_server", PStr "http://emby:8096"); ("emby_api_key", PStr "e");
            ("stash_url", PStr "http://localhost:9999"); ("stash_api_key", PStr "k")]
           "http://emby:8096" "e"
           (ex_performer (PStr "http://localhost:9999") (PStr "k") "42") "Ann" 35%Z 70%Z);
      try reflexivity; try (vm_compute; discriminate); unfold ActorSyncWorker.sleep_max; lia.
  - pose proof (proj1 (actor_sync_worker_schedule ex_decode_no_emby ex_performer ex_check ex_upload ex_argv)) as H.
    vm_compute in H. destruct H as [H _]. vm_compute.
    split; [reflexivity | apply H; reflexivity].
Defined.

(** C9: the worker does not always sleep and refresh: with no
    [emby_server] in its config it exits with status 1 at once, before
    any sleep or library refresh. *)
Lemma actor_sync_worker_exits_without_schedule :
  ActorSyncWorker.main ex_decode_no_emby ex_performer ex_check ex_upload ex_argv = ([], ExitCode 1).
Proof. vm_compute. reflexivity. Qed.

(** ** Cleanup of empty directories *)

Lemma rmdir_replay_app cwd st t1 t2 :
  rmdir_replay cwd st (app t1 t2) =
  match rmdir_replay cwd st t1 with Some s => rmdir_replay cwd s t2 | None => None end.
Proof.
  revert st. induction t1 as [|e t1 IH]; intros st; [reflexivity|].
  destruct e; simpl; try reflexivity.
  destruct (empty_dir cwd st d); [apply IH|reflexivity].
Qed.

Lemma rmdir_replay_files cwd st tr st' :
  rmdir_replay cwd st tr = Some st' -> fs_files st' = fs_files st.
Proof.
  revert st. induction tr as [|e tr IH]; intros st H.
  - injection H as <-. reflexivity.
  - destruct e; simpl in H; try discriminate.
    destruct (empty_dir cwd st d); [|discriminate].
    rewrite (IH _ H). reflexivity.
Qed.

Lemma cleanup_walk_replay fuel cwd stop st cur tr st' tr' c' :
  cleanup_walk fuel cwd stop st cur tr = (st', tr', c') ->
  exists tr2, tr' = app tr tr2 /\ rmdir_replay cwd st tr2 = Some st' /\
    forall d, In (ERmdir d) tr2 -> d <> stop /\ dirname d <> d.
Proof.
  revert st cur tr. induction fuel as [|fuel IH]; intros st cur tr H; simpl in H.
  - injection H as <- <- <-. exists []. rewrite app_nil_r. split; [reflexivity|]. split; [reflexivity|].
    intros ? [].
  - destruct (String.eqb cur stop || String.eqb (dirname cur) cur) eqn:Es.
    + injection H as <- <- <-. exists []. rewrite app_nil_r. split; [reflexivity|]. split; [reflexivity|].
      intros ? [].
    + destruct (empty_dir cwd st cur) eqn:Ee.
      * destruct (IH _ _ _ H) as (tr2 & -> & Hr & Hg).
        exists (ERmdir cur :: tr2). rewrite <- app_assoc. split; [reflexivity|].
        split; [simpl; rewrite Ee; exact Hr|].
        intros d [Hd|Hd]; [|exact (Hg d Hd)].
        injection Hd as <-. apply orb_false_iff in Es as [E1 E2].
        split; intros Heq; [rewrite Heq, String.eqb_refl in E1 | rewrite Heq, String.eqb_refl in E2];
          discriminate.
      * injection H as <- <- <-. exists []. rewrite app_nil_r. split; [reflexivity|]. split; [reflexivity|].
        intros ? [].
Qed.

(** [remove_empty_parent_dirs] removes only empty directories, one at a
    time: replaying its trace of [os.rmdir] calls from the initial
    filesystem, every removed directory exists and is empty when it is
    removed, and the replay ends in the final filesystem.  No file is
    touched. *)
Theorem remove_empty_parent_dirs_removes_only_empty_dirs cwd st directory base_path mapping moving :
  let '(st', tr) := remove_empty_parent_dirs cwd st directory base_path mapping moving in
  rmdir_replay cwd st tr = Some st' /\ fs_files st' = fs_files st.
Proof.
  assert (Hw : forall stop start,
    let '(st', tr, _) := walk_up cwd stop st start in rmdir_replay cwd st tr = Some st').
  { intros stop start. unfold walk_up.
    destruct (cleanup_walk _ cwd stop st start []) as [[st' tr] c] eqn:E.
    destruct (cleanup_walk_replay _ _ _ _ _ _ _ _ _ E) as (tr2 & -> & Hr & _). exact Hr. }
  assert (Hg : forall b,
    let '(st', tr) := (if String.eqb mapping "" && negb moving then (st, [])
      else let '(st', tr, _) := walk_up cwd b st (normpath directory) in (st', tr)) in
    rmdir_replay cwd st tr = Some st').
  { intros b. destruct (String.eqb mapping "" && negb moving); [reflexivity|].
    specialize (Hw b (normpath directory)).
    destruct (walk_up cwd b st (normpath directory)) as [[st' tr] c]. exact Hw. }
  assert (H : let '(st', tr) := remove_empty_parent_dirs cwd st directory base_path mapping moving in
              rmdir_replay cwd st tr = Some st').
  { unfold remove_empty_parent_dirs.
    destruct (if String.eqb mapping "" then None else split_arrow mapping) as [[s0 t0]|];
      [|apply Hg].
    destruct (String.eqb (py_strip s0) ""); [apply Hg|].
    destruct (starts_with _ (normpath directory)); [|apply Hg].
    destruct (relpath _ _ _) as [rel|e]; [|reflexivity].
    match goal with |- context [if String.eqb ?x "" then _ else _] =>
      destruct (String.eqb x "") end; [reflexivity|].
    match goal with |- context [walk_up cwd ?sd st ?nd] =>
      specialize (Hw sd nd); destruct (walk_up cwd sd st nd) as [[st1 tr1] c] end.
    match goal with |- context [if ?c then _ else _] => destruct c eqn:Ec end.
    - rewrite rmdir_replay_app, Hw. simpl.
      apply andb_true_iff in Ec as [Ec H3]. apply andb_true_iff in Ec as [Ed _].
      unfold empty_dir. rewrite Ed. destruct (fs_listdir _ _ _); [reflexivity|discriminate].
    - exact Hw. }
  destruct (remove_empty_parent_dirs cwd st directory base_path mapping moving) as [st' tr].
  split; [exact H | exact (rmdir_replay_files _ _ _ _ H)].
Qed.

(** Without a source-to-target mapping, [remove_empty_parent_dirs]
    removes nothing unless [is_moving_from_target_dir] is set, and it
    never removes the normalized [base_path] nor a root directory (one
    that is its own [dirname]). *)
Theorem remove_empty_parent_dirs_no_mapping_keeps_base cwd st directory base_path moving :
  (moving = false -> remove_empty_parent_dirs cwd st directory base_path "" moving = (st, [])) /\
  forall d, In (ERmdir d) (snd (remove_empty_parent_dirs cwd st directory base_path "" moving)) ->
    d <> normpath base_path /\ dirname d <> d.
Proof.
  unfold remove_empty_parent_dirs. simpl. split.
  - intros ->. reflexivity.
  - destruct moving; simpl; [|intros d []].
    unfold walk_up.
    destruct (cleanup_walk _ cwd (normpath base_path) st (normpath directory) []) as [[st' tr] c] eqn:E.
    destruct (cleanup_walk_replay _ _ _ _ _ _ _ _ _ E) as (tr2 & -> & _ & Hg).
    exact Hg.
Qed.

(** ** [safe_segment] *)

Lemma replace_char_get a b s i c :
  String.get i (replace_char a b s) = Some c -> c = b \/ (String.get i s = Some c /\ c <> a).
Proof.
  revert i. induction s as [|d s IH]; intros i H; [destruct i; discriminate|].
  destruct i as [|i]; simpl in H.
  - injection H as <-. destruct (Ascii.eqb d a) eqn:E; [left; reflexivity|].
    right. split; [reflexivity|]. intros ->. rewrite Ascii.eqb_refl in E. discriminate.
  - exact (IH i H).
Qed.

Lemma sub_bad_get s i c :
  String.get i (sub_bad s) = Some c -> is_bad_char c = false /\ (c = "_"%char \/ String.get i s = Some c).
Proof.
  revert i. induction s as [|d s IH]; intros i H; [destruct i; discriminate|].
  destruct i as [|i]; simpl in H.
  - injection H as <-. destruct (is_bad_char d) eqn:E.
    + split; [reflexivity | left; reflexivity].
    + split; [exact E | right; reflexivity].
  - exact (IH i H).
Qed.

(** [safe_segment] always returns one non-empty path component free of
    the characters it sanitizes: no slash, no backslash, and none of
    [is_bad_char] (the characters less-than, greater-than, colon, double
    quote, bar, question mark and star). *)
Theorem safe_segment_single_component s :
  safe_segment s <> "" /\
  forall i c, String.get i (safe_segment s) = Some c ->
    is_path_sep c = false /\ is_bad_char c = false.
Proof.
  unfold safe_segment.
  set (r := sub_bad (replace_char slash "_" (replace_char bslash "_" (py_strip s)))).
  destruct (String.eqb r "") eqn:Er.
  - split; [discriminate|]. intros i c H. destruct i as [|[|i]]; try discriminate.
    injection H as <-. split; reflexivity.
  - split; [intros H; rewrite H in Er; discriminate|].
    intros i c H. destruct (sub_bad_get _ _ _ H) as [Hb [->|H1]]; [split; reflexivity|].
    split; [|exact Hb].
    destruct (replace_char_get _ _ _ _ _ H1) as [->|[H2 Hs]]; [reflexivity|].
    destruct (replace_char_get _ _ _ _ _ H2) as [->|[_ Hbs]]; [reflexivity|].
    unfold is_path_sep. apply orb_false_iff. split; apply Ascii.eqb_neq; assumption.
Qed.

Lemma str_app_assoc (a b c : string) : (a ++ (b ++ c) = (a ++ b) ++ c)%string.
Proof. induction a as [|x a IH]; simpl; [reflexivity|rewrite IH; reflexivity]. Qed.

Lemma str_app_nil (a : string) : (a ++ "" = a)%string.
Proof. induction a as [|x a IH]; simpl; [reflexivity|rewrite IH; reflexivity]. Qed.

Lemma str_rev_app (a b : string) : str_rev (a ++ b) = (str_rev b ++ str_rev a)%string.
Proof.
  induction a as [|x a IH]; simpl; [rewrite str_app_nil; reflexivity|].
  rewrite IH, str_app_assoc. reflexivity.
Qed.

Lemma str_rev_involutive (a : string) : str_rev (str_rev a) = a.
Proof. induction a as [|x a IH]; simpl; [reflexivity|]. rewrite str_rev_app, IH. reflexivity. Qed.

Lemma smap_app f (a b : string) : smap f (a ++ b) = (smap f a ++ smap f b)%string.
Proof. induction a as [|x a IH]; simpl; [reflexivity|rewrite IH; reflexivity]. Qed.

Lemma smap_rev f (a : string) : smap f (str_rev a) = str_rev (smap f a).
Proof. induction a as [|x a IH]; simpl; [reflexivity|]. rewrite smap_app, IH. reflexivity. Qed.

Lemma smap_lstrip f (a : string) :
  (forall c, py_space (f c) = py_space c) -> lstrip_ws (smap f a) = smap f (lstrip_ws a).
Proof.
  intros Hf. induction a as [|x a IH]; simpl; [reflexivity|].
  rewrite Hf. destruct (py_space x); [exact IH|reflexivity].
Qed.

Lemma smap_strip f (a : string) :
  (forall c, py_space (f c) = py_space c) -> py_strip (smap f a) = smap f (py_strip a).
Proof.
  intros Hf. unfold py_strip.
  rewrite smap_lstrip, <- smap_rev, smap_lstrip, <- smap_rev by exact Hf. reflexivity.
Qed.

Lemma lstrip_idem (a : string) : lstrip_ws (lstrip_ws a) = lstrip_ws a.
Proof.
  induction a as [|x a IH]; simpl; [reflexivity|].
  destruct (py_space x) eqn:E; [exact IH|simpl; rewrite E; reflexivity].
Qed.

Lemma lstrip_app_nonspace (a : string) (c : ascii) :
  py_space c = false ->
  exists w, lstrip_ws (a ++ String c "") = (w ++ String c "")%string.
Proof.
  intros Hc. induction a as [|x a IH]; simpl.
  - rewrite Hc. exists ""%string. reflexivity.
  - destruct (py_space x); [exact IH|]. exists (String x a). reflexivity.
Qed.

(** Stripping the end of a string that starts with a non-space leaves
    its start. *)
Lemma lstrip_rstrip (u : string) :
  lstrip_ws u = u -> lstrip_ws (str_rev (lstrip_ws (str_rev u))) = str_rev (lstrip_ws (str_rev u)).
Proof.
  destruct u as [|c u]; [reflexivity|]. simpl. intros H.
  destruct (py_space c) eqn:Hc.
  - exfalso. assert (Hl : String.length (lstrip_ws u) <= String.length u).
    { clear. induction u as [|x u IH]; simpl; [lia|]. destruct (py_space x); simpl; lia. }
    rewrite H in Hl. simpl in Hl. lia.
  - destruct (lstrip_app_nonspace (str_rev u) c Hc) as [w ->].
    rewrite str_rev_app. simpl. rewrite Hc. reflexivity.
Qed.

Lemma py_strip_idem (a : string) : py_strip (py_strip a) = py_strip a.
Proof.
  unfold py_strip at 2. set (u := lstrip_ws a).
  assert (Hu : lstrip_ws u = u) by apply lstrip_idem.
  unfold py_strip. rewrite (lstrip_rstrip u Hu), str_rev_involutive, lstrip_idem. reflexivity.
Qed.

Lemma safe_char_space c : py_space (safe_char c) = py_space c.
Proof.
  unfold safe_char.
  destruct (Ascii.eqb c bslash) eqn:E1; [apply Ascii.eqb_eq in E1; subst; reflexivity|].
  destruct (Ascii.eqb c slash) eqn:E2; [apply Ascii.eqb_eq in E2; subst; reflexivity|].
  destruct (is_bad_char c) eqn:E3; [|reflexivity].
  unfold is_bad_char in E3. simpl in E3.
  repeat (apply orb_true_iff in E3 as [E3|E3]; [apply Ascii.eqb_eq in E3; subst; reflexivity|]).
  discriminate.
Qed.

Lemma safe_char_idem c : safe_char (safe_char c) = safe_char c.
Proof.
  unfold safe_char.
  destruct (Ascii.eqb c bslash) eqn:E1; [reflexivity|].
  destruct (Ascii.eqb c slash) eqn:E2; [reflexivity|].
  destruct (is_bad_char c) eqn:E3; [reflexivity|].
  rewrite E1, E2, E3. reflexivity.
Qed.

Lemma safe_segment_smap s :
  safe_segment s = (let r := smap safe_char (py_strip s) in if String.eqb r "" then "_" else r).
Proof.
  assert (H : forall t, sub_bad (replace_char slash "_" (replace_char bslash "_" t)) = smap safe_char t).
  { induction t as [|c t IH]; simpl; [reflexivity|]. rewrite IH. reflexivity. }
  unfold safe_segment. cbv zeta. rewrite H. reflexivity.
Qed.

Lemma smap_idem f (s : string) : (forall c, f (f c) = f c) -> smap f (smap f s) = smap f s.
Proof. intros Hf. induction s as [|c s IH]; simpl; [reflexivity|]. rewrite Hf, IH. reflexivity. Qed.

(** [safe_segment] is idempotent: sanitizing an already sanitized
    segment returns it unchanged. *)
Theorem safe_segment_idempotent s : safe_segment (safe_segment s) = safe_segment s.
Proof.
  rewrite (safe_segment_smap s).
  cbv zeta. destruct (String.eqb (smap safe_char (py_strip s)) "") eqn:E.
  - reflexivity.
  - rewrite safe_segment_smap. cbv zeta.
    rewrite smap_strip, py_strip_idem, smap_idem by (exact safe_char_space || exact safe_char_idem).
    rewrite E. reflexivity.
Qed.

Lemma absolute_url_from_absolute (u : string) (sc : pyval) :
  (u = ""%string \/ (starts_with "http://" u || starts_with "https://" u)%bool = true) ->
  absolute_url_from u sc = Ok u.
Proof.
  intros [->|Hu]; [reflexivity|]. unfold absolute_url_from. rewrite Hu.
  destruct (String.eqb u ""); reflexivity.
Qed.

(** build_absolute_url (AutoMoveOrganized and actorSyncEmby): when the
    server connection's Scheme is http or https, a URL it returns is
    returned unchanged by a second call: completing a URL twice is the
    same as completing it once. *)
Theorem absolute_url_from_idempotent (url u : string) (server_conn : pyval)
  (Hs : vget server_conn "Scheme" (PStr "http") = Ok (PStr "http")
        \/ vget server_conn "Scheme" (PStr "http") = Ok (PStr "https"))
  (H : absolute_url_from url server_conn = Ok u) :
  absolute_url_from u server_conn = Ok u.
Proof.
  apply absolute_url_from_absolute.
  unfold absolute_url_from in H.
  destruct (String.eqb url "") eqn:E0.
  { injection H as <-. apply String.eqb_eq in E0. left; exact E0. }
  destruct (starts_with "http://" url || starts_with "https://" url)%bool eqn:E1.
  { injection H as <-. right; exact E1. }
  right.
  destruct Hs as [Hs|Hs]; rewrite Hs in H; cbn [bind] in H;
    destruct (vget server_conn "Host" (PStr "localhost")) as [h|]; try discriminate H;
    cbn [bind] in H;
    destruct (vget server_conn "Port" PNone) as [p|]; try discriminate H;
    cbn [bind py_str] in H;
    destruct (py_str h) as [hs|]; try discriminate H; cbn [bind] in H;
    destruct (truthy p);
    [ destruct (py_str p) as [ps|]; try discriminate H | | destruct (py_str p) as [ps|]; try discriminate H | ];
    cbn [bind] in H; injection H as <-; reflexivity.
Qed.

Lemma absolute_url_from_idempotent_witness :
  vget (PDict [("Scheme", PStr "https"); ("Host", PStr "emby.local"); ("Port", PInt 8096)])
       "Scheme" (PStr "http") = Ok (PStr "https") /\
  absolute_url_from "Items/1/Images/Primary"
    (PDict [("Scheme", PStr "https"); ("Host", PStr "emby.local"); ("Port", PInt 8096)])
    = Ok "https://emby.local:8096/Items/1/Images/Primary"%string /\
  absolute_url_from "https://emby.local:8096/Items/1/Images/Primary"
    (PDict [("Scheme", PStr "https"); ("Host", PStr "emby.local"); ("Port", PInt 8096)])
    = Ok "https://emby.local:8096/Items/1/Images/Primary"%string.
Proof.
  split; [reflexivity|]. split; [vm_compute; reflexivity|].
  apply (absolute_url_from_idempotent "Items/1/Images/Primary").
  - right; reflexivity.
  - vm_compute; reflexivity.
Defined.

(** actor_sync_worker main, for every argument list, decoded config,
    catalog answer and Emby answers: the worker checks the actor at most
    [max_attempts] (4) times, and it exits with status 0 only when its
    arguments and decoded config gave it [emby_server] and
    [emby_api_key] strs and its trace ends right after an upload attempt
    in which this run's upload succeeded: the upload of the performer
    found for its performer id, to the stripped [emby_server] with the
    stripped key. *)
Theorem actor_sync_worker_exit_status dc gp check upload argv :
  let '(tr, ex) := ActorSyncWorker.main dc gp check upload argv in
  (length (filter is_check tr) <= ActorSyncWorker.max_attempts)%nat /\
  (ex = ExitCode 0 -> exists prog performer_id config_b64 rest config es ek pre i,
     argv = prog :: performer_id :: config_b64 :: rest /\
     dc config_b64 = Some (PDict config) /\
     dget config "emby_server" (PStr "") = PStr es /\
     dget config "emby_api_key" (PStr "") = PStr ek /\
     tr = app pre [WUpload i] /\
     upload (gp (dget config "stash_url" (PStr "http://localhost:9999"))
                (dget config "stash_api_key" (PStr "")) performer_id)
            (py_strip es) (py_strip ek) i = true).
Proof.
  destruct (actor_main_cases dc gp check upload argv)
    as [[H1 H2] | (prog & pid & cb & rest & config & es & ek & sw & ew &
                   -> & Hdc & Hes & Hes' & Hek & Hek' & Hp & Hd & [[H1 H2] | (name & Hn & Hm)])].
  - destruct (ActorSyncWorker.main dc gp check upload argv) as [tr ex].
    simpl in H1, H2. subst tr. split; [simpl; unfold ActorSyncWorker.max_attempts; simpl; lia|].
    intros ->. destruct H2 as [H2|[e H2]]; discriminate H2.
  - destruct (ActorSyncWorker.main _ _ _ _ _) as [tr ex].
    simpl in H1, H2. subst tr. split; [simpl; unfold ActorSyncWorker.max_attempts; simpl; lia|].
    intros ->. destruct H2 as [e H2]; discriminate H2.
  - actor_tail Hm.
    all: try (split; [simpl; unfold ActorSyncWorker.max_attempts; simpl; lia | discriminate]).
    match goal with
    | |- context [ActorSyncWorker.upload_loop check upload ?pf ?an ?es ?ek ?l ?t] =>
        pose proof (upload_loop_exit check upload pf an es ek l t) as Hl;
        destruct (ActorSyncWorker.upload_loop check upload pf an es ek l t) as [tr [x|u]];
        destruct Hl as (ext & -> & Hc & H0 & Hu)
    end.
    + rewrite filter_app. simpl. split; [exact Hc|].
      intros ->. destruct (H0 eq_refl) as (pre & i & -> & Hi).
      exists prog, pid, cb, rest, config, es, ek, (app [WSleep sw; WRefresh; WSleep ew] pre), i.
      repeat split; try assumption.
    + exfalso. assert (H3 : (3 < 3)%nat); [|lia].
      apply (Hu u eq_refl 3). simpl. tauto.
Qed.

Lemma all_digits_app x y : all_digits (x ++ y) = (all_digits x && all_digits y)%bool.
Proof. induction x as [|c x IH]; simpl; [reflexivity|]. rewrite IH. apply andb_assoc. Qed.

Lemma all_digits_rev x : all_digits (str_rev x) = all_digits x.
Proof.
  induction x as [|c x IH]; simpl; [reflexivity|].
  rewrite all_digits_app, IH. simpl. rewrite andb_true_r. apply andb_comm.
Qed.

Lemma digit_not_space c : all_digits (String c "") = true -> py_space c = false.
Proof.
  cbn [all_digits]. rewrite andb_true_r. intros H. apply andb_true_iff in H as [H1 H2].
  apply Nat.leb_le in H1. apply Nat.leb_le in H2.
  unfold py_space. destruct (9 <=? nat_of_ascii c)%nat eqn:E1, (nat_of_ascii c <=? 13)%nat eqn:E2,
    (28 <=? nat_of_ascii c)%nat eqn:E3, (nat_of_ascii c <=? 32)%nat eqn:E4; simpl; try reflexivity;
    rewrite ?Nat.leb_le, ?Nat.leb_gt in *; lia.
Qed.

Lemma lstrip_digits_app x c y :
  all_digits x = true -> all_digits (String c "") = true ->
  lstrip_ws (x ++ String c y) = (x ++ String c y)%string.
Proof.
  intros Hx Hc. destruct x as [|d x]; simpl.
  - rewrite (digit_not_space c Hc). reflexivity.
  - cbn [all_digits] in Hx. apply andb_true_iff in Hx as [Hd _].
    rewrite (digit_not_space d); [reflexivity|cbn [all_digits]; rewrite Hd; reflexivity].
Qed.

Lemma digit_char_ok (m : Z) :
  (0 <= m < 10)%Z ->
  all_digits (String (ascii_of_nat (48 + Z.to_nat m)) "") = true /\
  is_digit (ascii_of_nat (48 + Z.to_nat m)) = true /\
  digit_val (ascii_of_nat (48 + Z.to_nat m)) = m.
Proof.
  intros Hm. unfold digit_val, is_digit. cbn [all_digits].
  rewrite Ascii.nat_ascii_embedding by lia.
  rewrite andb_true_r.
  replace (48 <=? 48 + Z.to_nat m)%nat with true by (symmetry; apply Nat.leb_le; lia).
  replace (48 + Z.to_nat m <=? 57)%nat with true by (symmetry; apply Nat.leb_le; lia).
  split; [reflexivity|]. split; [reflexivity|].
  rewrite Nat.add_comm, Nat.add_sub. apply Z2Nat.id. lia.
Qed.

(** [digits_of_pos] with enough fuel writes the decimal digits of [n]
    in front of [acc], and [parse_int_body] reads them back. *)
Lemma digits_of_pos_spec (f : nat) : forall (n : Z) (acc : string),
  (0 <= n < 10 ^ Z.of_nat (S f))%Z ->
  exists D, digits_of_pos (S f) n acc = (D ++ acc)%string /\ D <> ""%string /\
    all_digits D = true /\
    forall sn, parse_int_body (D ++ acc) 0 false sn = parse_int_body acc n false true.
Proof.
  induction f as [|f IH]; intros n acc Hn.
  - assert (H10 : (n < 10)%Z) by (simpl in Hn; lia).
    cbn [digits_of_pos]. cbv zeta.
    rewrite (Z.mod_small n 10) by lia. rewrite (proj2 (Z.ltb_lt n 10) H10).
    destruct (digit_char_ok n ltac:(lia)) as (Ha & Hd & Hv).
    remember (ascii_of_nat (48 + Z.to_nat n)) as c eqn:Ec. clear Ec.
    exists (String c ""). split; [reflexivity|]. split; [discriminate|]. split; [exact Ha|].
    intros sn. cbn [append parse_int_body]. rewrite Hd, Hv. reflexivity.
  - change (digits_of_pos (S (S f)) n acc) with
      (if (n <? 10)%Z then String (ascii_of_nat (48 + Z.to_nat (n mod 10))) acc
       else digits_of_pos (S f) (n / 10) (String (ascii_of_nat (48 + Z.to_nat (n mod 10))) acc)).
    assert (Hm : (0 <= n mod 10 < 10)%Z) by (apply Z.mod_pos_bound; lia).
    destruct (digit_char_ok (n mod 10) Hm) as (Ha & Hd & Hv).
    remember (ascii_of_nat (48 + Z.to_nat (n mod 10))) as c eqn:Ec. clear Ec.
    destruct (Z.ltb_spec n 10) as [Hlt|Hge].
    + exists (String c ""). split; [reflexivity|]. split; [discriminate|]. split; [exact Ha|].
      intros sn. cbn [append parse_int_body]. rewrite Hd, Hv.
      rewrite Z.mod_small by lia. reflexivity.
    + destruct (IH (n / 10)%Z (String c acc)) as (D & HD & Hne & Hdg & Hp).
      { split; [apply Z.div_pos; lia|]. apply Z.div_lt_upper_bound; [lia|].
        rewrite Nat2Z.inj_succ, Z.pow_succ_r in Hn by lia. lia. }
      exists (D ++ String c "")%string.
      rewrite HD, <- str_app_assoc. cbn [append].
      split; [reflexivity|]. split.
      { destruct D; [contradiction|discriminate]. }
      split; [rewrite all_digits_app, Hdg, Ha; reflexivity|].
      intros sn. rewrite Hp. cbn [parse_int_body].
      rewrite Hd, Hv. f_equal. pose proof (Z.div_mod n 10). lia.
Qed.

Lemma str_of_Z_fuel (n : Z) : (0 <= n)%Z -> (n < 10 ^ Z.of_nat (S (Z.to_nat (Z.log2 n))))%Z.
Proof.
  intros Hn. destruct (Z.eq_dec n 0) as [->|Hn0]; [reflexivity|].
  destruct (Z.log2_spec n ltac:(lia)) as [_ H2].
  pose proof (Z.log2_nonneg n).
  rewrite Nat2Z.inj_succ, Z2Nat.id by lia.
  eapply Z.lt_le_trans; [exact H2|]. apply Z.pow_le_mono_l. lia.
Qed.

Lemma str_of_Z_shape (a : Z) : exists D, D <> ""%string /\ all_digits D = true /\
  parse_int_body D 0 false false = Some (Z.abs a) /\
  str_of_Z a = (if (a <? 0)%Z then "-" ++ D else D)%string.
Proof.
  unfold str_of_Z. destruct (Z.ltb_spec a 0) as [Ha|Ha].
  - destruct (digits_of_pos_spec (Z.to_nat (Z.log2 (- a))) (- a) "")
      as (D & HD & Hne & Hdg & Hp); [split; [lia|apply str_of_Z_fuel; lia]|].
    rewrite str_app_nil in HD, Hp. exists D. rewrite HD, Hp.
    split; [exact Hne|]. split; [exact Hdg|]. split; [|reflexivity].
    simpl. f_equal. lia.
  - destruct (digits_of_pos_spec (Z.to_nat (Z.log2 a)) a "")
      as (D & HD & Hne & Hdg & Hp); [split; [lia|apply str_of_Z_fuel; lia]|].
    rewrite str_app_nil in HD, Hp. exists D. rewrite HD, Hp.
    split; [exact Hne|]. split; [exact Hdg|]. split; [|reflexivity].
    simpl. f_equal. lia.
Qed.

Lemma py_strip_signed_digits (sgn D : string) :
  (sgn = ""%string \/ sgn = "-"%string) -> all_digits D = true -> D <> ""%string ->
  py_strip (sgn ++ D) = (sgn ++ D)%string.
Proof.
  intros Hs Hdg Hne. destruct D as [|c r]; [contradiction|].
  assert (Hc : all_digits (String c "") = true).
  { cbn [all_digits] in *. apply andb_true_iff in Hdg as [Hdg _]. rewrite Hdg. reflexivity. }
  assert (Hr : all_digits r = true).
  { cbn [all_digits] in Hdg. apply andb_true_iff in Hdg as [_ Hdg]. exact Hdg. }
  unfold py_strip.
  assert (Hl : lstrip_ws (sgn ++ String c r) = (sgn ++ String c r)%string).
  { destruct Hs as [->| ->]; [exact (lstrip_digits_app "" c r eq_refl Hc)|reflexivity]. }
  rewrite Hl, str_rev_app. cbn [str_rev]. rewrite <- str_app_assoc. cbn [append].
  rewrite lstrip_digits_app by (rewrite ?all_digits_rev; assumption).
  change (String c (str_rev sgn)) with (String c "" ++ str_rev sgn)%string. rewrite str_app_assoc. change (str_rev r ++ String c "")%string with (str_rev (String c r)).
  rewrite <- str_rev_app, str_rev_involutive. reflexivity.
Qed.

Lemma split_char_comma_digits (x z f : string) (fs : list string) :
  all_digits x = true -> split_char "," z = f :: fs ->
  split_char "," (x ++ z) = (x ++ f)%string :: fs.
Proof.
  intros Hx Hz. induction x as [|c x IH]; [exact Hz|].
  cbn [all_digits] in Hx. apply andb_true_iff in Hx as [Hc Hx].
  cbn [append split_char]. rewrite (IH Hx).
  destruct (Ascii.eqb c ",") eqn:E; [|reflexivity].
  apply Ascii.eqb_eq in E. subst c. discriminate Hc.
Qed.

Lemma str_of_Z_facts (a : Z) :
  py_strip (str_of_Z a) = str_of_Z a /\ py_int_of_str (str_of_Z a) = Ok a /\
  (forall z f fs, split_char "," z = f :: fs ->
     split_char "," (str_of_Z a ++ z) = (str_of_Z a ++ f)%string :: fs).
Proof.
  destruct (str_of_Z_shape a) as (D & Hne & Hdg & Hp & ->).
  destruct (Z.ltb_spec a 0) as [Ha|Ha].
  - assert (Hs : py_strip ("-" ++ D) = ("-" ++ D)%string)
      by (apply py_strip_signed_digits; auto).
    split; [exact Hs|]. split.
    + unfold py_int_of_str. rewrite Hs. cbn [append]. cbv beta iota.
      rewrite Hp. cbn [option_map]. f_equal. lia.
    + intros z f fs Hz. cbn [append split_char].
      rewrite (split_char_comma_digits D z f fs Hdg Hz). reflexivity.
  - assert (Hs : py_strip D = D)
      by (apply (py_strip_signed_digits "" D); auto).
    split; [exact Hs|]. split.
    + unfold py_int_of_str. rewrite Hs.
      rewrite Z.abs_eq in Hp by lia.
      destruct D as [|c r]; [contradiction|].
      destruct c as [[] [] [] [] [] [] [] []]; cbn [all_digits] in Hdg; try discriminate Hdg;
        cbv beta iota; rewrite Hp; reflexivity.
    + intros z f fs Hz. exact (split_char_comma_digits D z f fs Hdg Hz).
Qed.

(** worker_delays parsing (StudioToCollection start_worker and the
    actorSyncEmby worker): a setting written as two integers joined by a
    comma, [str(a) + "," + str(b)], is read back as the pair [(a, b)]. *)
Theorem parse_worker_delays_round_trip (a b : Z) :
  StudioToCollection.parse_worker_delays (PStr (str_of_Z a ++ "," ++ str_of_Z b)) = (a, b).
Proof.
  destruct (str_of_Z_facts a) as (Hsa & Hia & Hspa).
  destruct (str_of_Z_facts b) as (Hsb & Hib & Hspb).
  assert (Hb : split_char "," (str_of_Z b) = [str_of_Z b]).
  { rewrite <- (str_app_nil (str_of_Z b)) at 1. rewrite (Hspb "" "" [] eq_refl), str_app_nil.
    reflexivity. }
  assert (Hab : split_char "," (str_of_Z a ++ "," ++ str_of_Z b) = [str_of_Z a; str_of_Z b]).
  { rewrite (Hspa ("," ++ str_of_Z b) "" [str_of_Z b]), str_app_nil; [reflexivity|].
    cbn [append split_char]. rewrite Hb. reflexivity. }
  unfold StudioToCollection.parse_worker_delays. rewrite Hab.
  rewrite Hsa, Hsb, Hia, Hib. reflexivity.
Qed.

Lemma dget_dset (d : list (string * pyval)) (k k' : string) (v def : pyval) :
  dget (dset d k v) k' def = if String.eqb k' k then v else dget d k' def.
Proof.
  unfold dget. induction d as [|[k0 v0] d IH]; simpl.
  - destruct (String.eqb k' k); reflexivity.
  - destruct (String.eqb k k0) eqn:E.
    + apply String.eqb_eq in E. subst k0. simpl.
      destruct (String.eqb k' k); reflexivity.
    + simpl. destruct (String.eqb k' k0) eqn:E'.
      * apply String.eqb_eq in E'. subst k0. destruct (String.eqb k' k) eqn:E2; [|reflexivity].
        apply String.eqb_eq in E2. subst. rewrite String.eqb_refl in E. discriminate.
      * exact IH.
Qed.

Ltac hook_cases :=
  unfold ActorHook.handle_create_hook, ActorHook.handle_update_hook,
    ActorHook._process_hook_performer, ActorHook.export_local, ActorHook.upload_sync,
    ActorHook.start_worker, ActorHook.hcall, ActorHook.hbind, ActorHook.hlift, ActorHook.hret,
    ActorHook.hook_create, ActorHook.hook_update;
  repeat match goal with
  | |- context [String.eqb "创建" "创建"] => rewrite String.eqb_refl
  | |- context [String.eqb "更新" "创建"] => change (String.eqb "更新" "创建") with false
  | |- context [match ?x with Ok _ => _ | Exc _ => _ end] => destruct x
  | |- context [if ?b then _ else _] => destruct b eqn:?
  end; cbn [fst app].

(** actorSyncEmby hook_handler: the create hook never calls
    upload_actor_to_emby itself and the update hook never starts the
    async worker; a worker is started for the hook's performer id, with
    a copy of the settings where upload_mode is 1 and every other key is
    unchanged. *)
Theorem actor_hook_calls_by_type fp cr pid settings :
  (forall ev, In ev (fst (ActorHook.handle_create_hook fp cr pid settings)) ->
     match ev with ActorHook.HUpload _ _ _ _ _ => False | _ => True end) /\
  (forall ev, In ev (fst (ActorHook.handle_update_hook fp cr pid settings)) ->
     match ev with ActorHook.HStartWorker _ _ => False | _ => True end) /\
  (forall hook_type p us,
     In (ActorHook.HStartWorker p us)
        (fst (ActorHook._process_hook_performer fp cr pid settings hook_type)) ->
     p = pid /\ dget us "upload_mode" PNone = PInt 1 /\
     forall k def, k <> "upload_mode"%string -> dget us k def = dget settings k def).
Proof.
  assert (Hus : forall k def, dget (dset settings "upload_mode" (PInt 1)) k def =
                  if String.eqb k "upload_mode" then PInt 1 else dget settings k def)
    by (intros; apply dget_dset).
  split; [|split].
  1, 2: hook_cases; intros ev Hev; repeat destruct Hev as [<-|Hev]; try exact I; contradiction.
  intros hook_type p us. hook_cases; intros Hev;
    repeat destruct Hev as [Hev|Hev]; try discriminate Hev; try contradiction;
    injection Hev as <- <-; (split; [reflexivity|]); rewrite Hus; (split; [reflexivity|]);
    intros k def Hk; rewrite Hus; apply String.eqb_neq in Hk; rewrite Hk; reflexivity.
Qed.

(** actorSyncEmby hook_handler: which calls a hook makes follows
    hook_mode (3 when absent): local export only in modes 1 and 3, Emby
    upload or the async worker only in modes 2 and 3, and no call at all
    in mode 0 or any other value. *)
Theorem actor_hook_mode_calls fp cr pid settings hook_type :
  (forall ev, In ev (fst (ActorHook._process_hook_performer fp cr pid settings hook_type)) ->
     match ev with
     | ActorHook.HExport _ _ _ _ _ =>
         (py_eq_int (dget settings "hook_mode" (PInt 3)) 1
          || py_eq_int (dget settings "hook_mode" (PInt 3)) 3)%bool = true
     | _ =>
         (py_eq_int (dget settings "hook_mode" (PInt 3)) 2
          || py_eq_int (dget settings "hook_mode" (PInt 3)) 3)%bool = true
     end) /\
  ((py_eq_int (dget settings "hook_mode" (PInt 3)) 1
    || py_eq_int (dget settings "hook_mode" (PInt 3)) 2
    || py_eq_int (dget settings "hook_mode" (PInt 3)) 3)%bool = false ->
   fst (ActorHook._process_hook_performer fp cr pid settings hook_type) = []).
Proof.
  split.
  - hook_cases; intros ev Hev; repeat destruct Hev as [<-|Hev]; try contradiction;
      rewrite ?orb_true_r; reflexivity.
  - hook_cases; rewrite ?orb_true_r; intros H; try discriminate H; reflexivity.
Qed.

Lemma process_files_count mv scene settings : forall fs idx n tried,
  process_files mv scene settings idx fs = Ok (n, tried) ->
  (n <= length tried)%nat /\ incl tried fs.
Proof.
  induction fs as [|f fs IH]; intros idx n tried H; simpl in H.
  - injection H as <- <-. split; [simpl; lia|intros x []].
  - destruct (negb (is_file_organized scene settings)).
    + destruct (IH _ _ _ H) as [Hn Hi]. split; [exact Hn|]. intros x Hx. right. exact (Hi x Hx).
    + destruct f as [| | | | |fd]; try discriminate H.
      destruct (process_files mv scene settings (S idx) fs) as [[n' tr']|e] eqn:E; [|discriminate H].
      cbn [bind] in H. injection H as <- <-.
      destruct (IH _ _ _ E) as [Hn Hi]. split.
      * destruct (mv scene fd idx); simpl; lia.
      * intros x [<-|Hx]; [left; reflexivity|right; exact (Hi x Hx)].
Qed.

(** process_scene on a scene whose files are the list [l]: it reports
    at most as many moves as files it hands to the mover, and those
    files come from [l]; with more than one file, mode skip hands none
    and mode primary_only only the first one. *)
Theorem process_scene_multi_file_modes mv scene settings l n tried :
  dget scene "files" PNone = PList l ->
  process_scene mv scene settings = Ok (n, tried) ->
  (n <= length tried)%nat /\ incl tried l /\
  ((1 < length l)%nat ->
   py_key_eq (dget settings "multi_file_mode" (PStr "all")) (PStr "skip") = true ->
   tried = []) /\
  ((1 < length l)%nat ->
   py_key_eq (dget settings "multi_file_mode" (PStr "all")) (PStr "primary_only") = true ->
   incl tried (firstn 1 l)).
Proof.
  intros Hf H. unfold process_scene in H.
  destruct scene as [|kv scene'].
  { injection H as <- <-. split; [simpl; lia|]. split; [intros x []|].
    split; intros; [reflexivity|intros x []]. }
  rewrite Hf in H. destruct l as [|f0 l'].
  { cbn in H. injection H as <- <-. split; [simpl; lia|]. split; [intros x []|].
    split; intros; [reflexivity|intros x []]. }
  cbn [py_or truthy negb] in H. unfold select_files in H. cbn [py_len bind] in H.
  set (l := f0 :: l') in *.
  set (mode := dget settings "multi_file_mode" (PStr "all")) in *.
  destruct (1 <? length l)%nat eqn:El.
  - destruct (py_key_eq mode (PStr "skip")) eqn:Es.
    + cbn [bind] in H. injection H as <- <-. split; [simpl; lia|]. split; [intros x []|].
      split; intros; [reflexivity|intros x []].
    + destruct (py_key_eq mode (PStr "primary_only")) eqn:Ep.
      * cbn [py_first bind py_iter] in H. subst l.
        destruct (process_files_count _ _ _ _ _ _ _ H) as [Hn Hi].
        split; [exact Hn|]. split; [intros x Hx; destruct (Hi x Hx) as [<-|[]]; left; reflexivity|].
        split; [intros _ Hs; discriminate Hs|]. intros _ _. exact Hi.
      * cbn [bind py_iter] in H.
        destruct (process_files_count _ _ _ _ _ _ _ H) as [Hn Hi].
        split; [exact Hn|]. split; [exact Hi|].
        split; [intros _ Hs; discriminate Hs|]. intros _ Hp. discriminate Hp.
  - cbn [bind py_iter] in H.
    destruct (process_files_count _ _ _ _ _ _ _ H) as [Hn Hi].
    split; [exact Hn|]. split; [exact Hi|].
    apply Nat.ltb_ge in El. split; intros Hlt; lia.
Qed.

Lemma process_scene_multi_file_modes_witness :
  dget ex_two_files_scene "files" PNone =
    PList [PDict [("id", PStr "f1")]; PDict [("id", PStr "f2")]] /\
  process_scene mv_always ex_two_files_scene [("multi_file_mode", PStr "primary_only")]
    = Ok (1%nat, [PDict [("id", PStr "f1")]]) /\
  incl [PDict [("id", PStr "f1")]] (firstn 1 [PDict [("id", PStr "f1")]; PDict [("id", PStr "f2")]]).
Proof.
  split; [reflexivity|]. split; [reflexivity|].
  refine (proj2 (proj2 (proj2 (process_scene_multi_file_modes mv_always ex_two_files_scene
     [("multi_file_mode", PStr "primary_only")]
     [PDict [("id", PStr "f1")]; PDict [("id", PStr "f2")]] 1 [PDict [("id", PStr "f1")]]
     eq_refl eq_refl))) _ _); [simpl; lia|reflexivity].
Defined.

Lemma dry_safe_bind_ret {A B} (ok : effect -> Prop) (a : A) (k : A -> M B) :
  dry_safe ok (k a) -> dry_safe ok (mbind (mret a) k).
Proof. intros H st tr. exact (H st tr). Qed.

Lemma post_process_moved_file_dry net writable url_path overlay cwd src dst scene settings :
  truthy (dget settings "dry_run" PNone) = true ->
  dry_safe (fun e => mutating e = false)
    (post_process_moved_file net writable url_path overlay cwd src dst scene settings).
Proof.
  intros Hd. unfold post_process_moved_file.
  apply dry_safe_bind; [apply move_related_subtitle_files_dry; exact Hd|intros _].
  apply dry_safe_bind; [|intros _; apply download_scene_art_dry; exact Hd].
  apply write_nfo_for_scene_dry; exact Hd.
Qed.

(** Under dry_run, regenerate_file_at_target moves and removes nothing:
    the files are unchanged, no directory disappears, and its only
    mutating call is os.makedirs of the target's directory.
    regenerate_metadata_only under dry_run makes no mutating call at all. *)
Theorem regenerate_dry_run_only_makes_target_dir net writable url_path overlay gql
    cwd file_obj scene settings file_path st :
  truthy (dget settings "dry_run" PNone) = true ->
  (let '(st', tr, _) := regenerate_file_at_target net writable url_path overlay gql cwd
                          file_obj scene settings st [] in
   fs_files st' = fs_files st /\ incl (fs_dirs st) (fs_dirs st') /\
   forall e, In e tr -> mutating e = true ->
     exists src dst, dget file_obj "path" (PStr "") = PStr src /\
       build_target_path_for_existing_file cwd scene src file_obj settings = Ok dst /\
       e = EMakedirs (dirname dst))
  /\
  (let '(st', tr, _) := regenerate_metadata_only net writable url_path overlay
                          cwd file_path scene settings st [] in
   fs_files st' = fs_files st /\ incl (fs_dirs st) (fs_dirs st') /\
   forall e, In e tr -> mutating e = false).
Proof.
  intros Hd. split.
  - assert (Hs : dry_safe (fun e => mutating e = false \/
                     exists src dst, dget file_obj "path" (PStr "") = PStr src /\
                       build_target_path_for_existing_file cwd scene src file_obj settings = Ok dst /\
                       e = EMakedirs (dirname dst))
              (regenerate_file_at_target net writable url_path overlay gql cwd file_obj scene settings)).
    { unfold regenerate_file_at_target.
      apply dry_safe_try; [|intros e; unfold regen_handler; destruct e;
                            (apply dry_safe_ret || apply dry_safe_raise)].
      destruct (negb (truthy (dget file_obj "path" (PStr ""))) || negb (truthy (dget file_obj "id" (PStr ""))))%bool;
        [apply dry_safe_ret|].
      destruct (dget file_obj "path" (PStr "")) as [| | | src | |] eqn:Es; try apply dry_safe_raise.
      destruct (build_target_path_for_existing_file cwd scene src file_obj settings) as [dst|e] eqn:Eb;
        cbn [mlift]; [|apply dry_safe_raise].
      apply dry_safe_bind_ret. cbv beta zeta.
      rewrite Hd. cbn [negb].
      apply dry_safe_bind.
      { apply dry_safe_bind; [|intros; apply dry_safe_ret].
        apply dry_safe_makedirs. right. exists src, dst. auto. }
      intros moved. destruct (negb moved); [apply dry_safe_ret|].
      apply dry_safe_bind; [|intros _; apply dry_safe_bind; [apply dry_safe_ret|intros; apply dry_safe_ret]].
      eapply dry_safe_mono; [|apply post_process_moved_file_dry; exact Hd].
      intros e He. left. exact He. }
    destruct (Hs st []) as (Hf & Hi & ex & Htr & Hok).
    destruct (regenerate_file_at_target _ _ _ _ _ _ _ _ _ st []) as [[st' tr] r]. simpl in *.
    split; [exact Hf|]. split; [exact Hi|].
    intros e He Hm. subst tr. simpl in He.
    rewrite Forall_forall in Hok. destruct (Hok e He) as [Hn|Hx]; [congruence | exact Hx].
  - assert (Hs : dry_safe (fun e => mutating e = false)
              (regenerate_metadata_only net writable url_path overlay cwd file_path scene settings)).
    { unfold regenerate_metadata_only.
      apply dry_safe_try; [|intros e; unfold regen_handler; destruct e;
                            (apply dry_safe_ret || apply dry_safe_raise)].
      apply dry_safe_bind; [apply post_process_moved_file_dry; exact Hd|intros; apply dry_safe_ret]. }
    destruct (Hs st []) as (Hf & Hi & ex & Htr & Hok).
    destruct (regenerate_metadata_only _ _ _ _ _ _ _ _ st []) as [[st' tr] r]. simpl in *.
    split; [exact Hf|]. split; [exact Hi|].
    intros e He. subst tr. simpl in He. rewrite Forall_forall in Hok. exact (Hok e He).
Qed.

Lemma regenerate_dry_run_only_makes_target_dir_witness :
  truthy (dget ex_dry_settings "dry_run" PNone) = true /\
  ((let '(st', tr, _) := regenerate_file_at_target png_net any_writable no_url_path no_overlay
                           gql_always "/" ex_file ex_scene ex_dry_settings ex_fs_before_move [] in
    fs_files st' = fs_files ex_fs_before_move /\ incl (fs_dirs ex_fs_before_move) (fs_dirs st') /\
    forall e, In e tr -> mutating e = true ->
      exists src dst, dget ex_file "path" (PStr "") = PStr src /\
        build_target_path_for_existing_file "/" ex_scene src ex_file ex_dry_settings = Ok dst /\
        e = EMakedirs (dirname dst))
   /\
   (let '(st', tr, _) := regenerate_metadata_only png_net any_writable no_url_path no_overlay
                           "/" "/data/src/a/v.mp4" ex_scene ex_dry_settings ex_fs_before_move [] in
    fs_files st' = fs_files ex_fs_before_move /\ incl (fs_dirs ex_fs_before_move) (fs_dirs st') /\
    forall e, In e tr -> mutating e = false)).
Proof.
  split; [reflexivity|].
  apply (regenerate_dry_run_only_makes_target_dir png_net any_writable no_url_path no_overlay
           gql_always "/" ex_file ex_scene ex_dry_settings "/data/src/a/v.mp4" ex_fs_before_move).
  reflexivity.
Defined.

(** regenerate_file_at_target does nothing and returns False when the
    file object has no (or an empty) path or id, or when
    build_target_path_for_existing_file raises: no file is moved, no
    directory is created or removed, no request is made. *)
Theorem regenerate_file_at_target_no_action net writable url_path overlay gql
    cwd file_obj scene settings st tr :
  (truthy (dget file_obj "path" (PStr "")) = false \/
   truthy (dget file_obj "id" (PStr "")) = false \/
   exists src e, dget file_obj "path" (PStr "") = PStr src /\
     build_target_path_for_existing_file cwd scene src file_obj settings = Exc e /\
     e <> OutsideModel) ->
  regenerate_file_at_target net writable url_path overlay gql cwd file_obj scene settings st tr
  = (st, tr, Ok false).
Proof.
  intros H. unfold regenerate_file_at_target, mtry.
  destruct H as [Hp|[Hi|(src & e & Hs & Hb & He)]].
  - rewrite Hp. reflexivity.
  - rewrite Hi, orb_true_r. reflexivity.
  - rewrite Hs.
    destruct (negb (truthy (PStr src)) || negb (truthy (dget file_obj "id" (PStr ""))))%bool;
      [reflexivity|].
    cbv beta iota. rewrite Hb. cbn [mlift mraise mbind].
    unfold regen_handler. destruct e; try reflexivity. contradiction.
Qed.

Lemma regenerate_file_at_target_no_action_witness :
  build_target_path_for_existing_file "/" ex_scene "/data/src/111/x.mp4" ex_file
    [("dry_run", PBool false)] = Exc RuntimeError /\
  regenerate_file_at_target png_net any_writable no_url_path no_overlay gql_always "/"
    ex_file ex_scene [("dry_run", PBool false)] ex_fs_before_move []
  = (ex_fs_before_move, [], Ok false).
Proof.
  split; [reflexivity|].
  apply regenerate_file_at_target_no_action. right. right.
  exists "/data/src/111/x.mp4", RuntimeError. split; [reflexivity|]. split; [reflexivity|discriminate].
Defined.

(* ------------------------------------------------------------------ *)
(** ** The StudioToCollection create-hook worker *)

Import StudioSyncWorker.

Section StudioSyncWorkerShapes.
Variable find : pyval -> pyval -> pyval -> pyval -> nat -> pyval.
Variable upload : pyval -> pyval -> pyval -> pyval -> pyval -> nat -> bool.
Variable config : list (string * pyval).

Lemma sw_sleep_ok n : (0 <= n <= ActorSyncWorker.sleep_max)%Z -> sleep n = ([SSleep n], Ok tt).
Proof.
  intros Hn. unfold sleep, sbind, slift, semit.
  destruct (n <? 0)%Z eqn:E1; [lia|].
  destruct (ActorSyncWorker.sleep_max <? n)%Z eqn:E2; [lia|]. reflexivity.
Qed.

Lemma sw_sleep_cases n :
  (exists e, sleep n = ([], Exc e)) \/ sleep n = ([SSleep n], Ok tt).
Proof.
  unfold sleep, sbind, slift, semit.
  destruct (n <? 0)%Z; [left; eauto|].
  destruct (ActorSyncWorker.sleep_max <? n)%Z; [left; eauto|right; reflexivity].
Qed.

Lemma sw_sleep_v_cases v :
  (exists e, sleep_v v = ([], Exc e)) \/ (exists n, sleep_v v = ([SSleep n], Ok tt)).
Proof.
  destruct v as [|b|n| | |]; cbn [sleep_v];
    try (left; exists TypeError; reflexivity).
  - destruct (sw_sleep_cases (Z.b2z b)) as [H|H]; eauto.
  - destruct (sw_sleep_cases n) as [H|H]; eauto.
Qed.

Lemma sw_library_refresh_cases :
  (exists e, library_refresh config = ([], Exc e)) \/
  library_refresh config = ([SLibraryRefresh], Ok tt).
Proof.
  unfold library_refresh, sbind, slift, semit.
  destruct (dindex config "emby_server"); [|left; eauto].
  destruct (dindex config "emby_api_key"); [|left; eauto]. right; reflexivity.
Qed.

Lemma sw_trigger_task_cases task_id i :
  (exists e, trigger_task config task_id i = ([], Exc e)) \/
  trigger_task config task_id i = ([STask i], Ok tt) \/
  trigger_task config task_id i = ([], Ok tt).
Proof.
  unfold trigger_task, sbind, slift, semit, sret.
  destruct (truthy task_id); [|right; right; reflexivity].
  destruct (dindex config "emby_server"); [|left; eauto].
  destruct (dindex config "emby_api_key"); [|left; eauto]. right; left; reflexivity.
Qed.

Lemma sw_search_cases user_id studio_name i :
  (exists e, search find config user_id studio_name i = ([], Exc e)) \/
  (exists es ek, dindex config "emby_server" = Ok es /\ dindex config "emby_api_key" = Ok ek /\
     search find config user_id studio_name i =
       ([SSearch i], Ok (find es ek user_id studio_name i))).
Proof.
  unfold search, sbind, slift, semit, sret.
  destruct (dindex config "emby_server") as [es|]; [|left; eauto].
  destruct (dindex config "emby_api_key") as [ek|]; [|left; eauto].
  right; eauto.
Qed.

Lemma sw_upload_found_cases c i :
  (exists e, upload_found upload config c i = ([], Exc e)) \/
  (exists cid res_ok, vindex c "Id" = Ok cid /\
     (res_ok = SyncCompleted \/ res_ok = UploadFailed) /\
     upload_found upload config c i = ([SUpload i cid], Ok res_ok)).
Proof.
  unfold upload_found, upload_to_emby, sbind, slift, semit, sret.
  destruct (vindex c "Id") as [cid|]; [|left; eauto].
  destruct (dindex config "emby_data") as [ed|]; [|left; eauto].
  destruct ed; try (left; eauto; fail).
  destruct (dindex config "emby_server"); [|left; eauto].
  destruct (dindex config "emby_api_key"); [|left; eauto].
  right. eexists cid, _. split; [reflexivity|]. split; [|reflexivity].
  destruct (upload _ _ _ _ _ _); auto.
Qed.

Lemma sw_bind_inv {A B} (m : SW A) (k : A -> SW B) tr r :
  sbind m k = (tr, r) ->
  (exists e, m = (tr, Exc e) /\ r = Exc e) \/
  (exists l1 a l2, m = (l1, Ok a) /\ k a = (l2, r) /\ tr = app l1 l2).
Proof.
  unfold sbind. destruct m as [l1 [a|e]].
  - destruct (k a) as [l2 r2] eqn:E. intros H; inversion H; subst. right; eauto 7.
  - intros H; inversion H; subst. left; eauto.
Qed.

End StudioSyncWorkerShapes.

Ltac sw_inv Hm := first [discriminate Hm | injection Hm; intros; subst].

Ltac sw_head Hm :=
  cbv beta in Hm;
  lazymatch type of Hm with
  | slift _ = _ => unfold slift in Hm; sw_inv Hm
  | sret _ = _ => unfold sret in Hm; sw_inv Hm
  | semit _ = _ => unfold semit in Hm; sw_inv Hm
  | sleep_v ?v = _ =>
      let E := fresh "E" in
      destruct (sw_sleep_v_cases v) as [[? E]|[? E]]; rewrite E in Hm; sw_inv Hm
  | library_refresh ?c = _ =>
      let E := fresh "E" in
      destruct (sw_library_refresh_cases c) as [[? E]|E]; rewrite E in Hm; sw_inv Hm
  | trigger_task ?c ?t ?i = _ =>
      let E := fresh "E" in
      destruct (sw_trigger_task_cases c t i) as [[? E]|[E|E]]; rewrite E in Hm; sw_inv Hm
  | search ?f ?c ?u ?s ?i = _ =>
      let E := fresh "E" in
      destruct (sw_search_cases f c u s i) as [[? E]|[? [? [? [? E]]]]];
      rewrite E in Hm; sw_inv Hm
  | upload_found ?up ?c ?x ?i = _ =>
      let E := fresh "E" in
      destruct (sw_upload_found_cases up c x i) as [[? E]|[? [? [? [? E]]]]];
      rewrite E in Hm; sw_inv Hm
  | sleep ?n = _ =>
      let E := fresh "E" in
      first [ rewrite sw_sleep_ok in Hm by (unfold ActorSyncWorker.sleep_max; lia)
            | destruct (sw_sleep_cases n) as [[? E]|E]; rewrite E in Hm ];
      sw_inv Hm
  | (if ?b then _ else _) = _ =>
      let Eb := fresh "Eb" in destruct b eqn:Eb
  end.

Ltac sw_step H :=
  cbv beta in H;
  lazymatch type of H with
  | sbind ?m ?k = _ =>
      let Hm := fresh "Hm" in
      apply sw_bind_inv in H;
      destruct H as [[? [Hm ?]] | [? [? [? [Hm [H ?]]]]]]; subst; sw_head Hm
  | _ => sw_head H
  end.

(** [sync_studio_to_collection], for a config whose [stash_wait] and
    [emby_wait] are ints (35 and 70 when absent), sleeps at most five
    times, in the order: the config's [stash_wait], its [emby_wait], then
    30, 60 and 90 seconds; it searches at most three
    times, with attempts 0, 1 and 2 in order; it uploads at most once; when
    it gives up, all three searches were made and nothing was uploaded; and
    without a truthy [collection_id] it does nothing at all. *)
Theorem studio_sync_schedule find upload config tr r stash_wait emby_wait
  (H : sync_studio_to_collection find upload config = (tr, r))
  (Hs : dget config "stash_wait" (PInt 35) = PInt stash_wait)
  (He : dget config "emby_wait" (PInt 70) = PInt emby_wait) :
  (exists suf, app (sleeps tr) suf = [stash_wait; emby_wait; 30; 60; 90]%Z) /\
  (exists suf, app (searches tr) suf = [0; 1; 2]%nat) /\
  (length (uploads tr) <= 1)%nat /\
  (r = Ok GaveUp -> searches tr = [0; 1; 2]%nat /\ uploads tr = []) /\
  (truthy (dget config "collection_id" PNone) = false -> tr = []).
Proof.
  unfold sync_studio_to_collection in H. rewrite Hs, He in H. cbn [sleep_v] in H.
  repeat (sw_step H).
  all: simpl; split; [eexists; reflexivity|].
  all: split; [eexists; reflexivity|].
  all: split; [simpl; lia|].
  all: split; [|intros Hc; first [reflexivity | rewrite Hc in *; discriminate]].
  all: intros HG; first
    [ discriminate HG
    | split; reflexivity
    | injection HG as ->;
      match goal with Hd : GaveUp = _ \/ GaveUp = _ |- _ => destruct Hd; discriminate end ].
Qed.

(** An upload of [sync_studio_to_collection] is its last event and comes
    right after the search of the same attempt; that search, made with the
    configured server, key, user and studio name, returned a truthy item
    whose ["Id"] is the uploaded collection id. *)
Theorem studio_sync_uploads_found_collection find upload config tr r i cid
  (H : sync_studio_to_collection find upload config = (tr, r))
  (Hin : In (SUpload i cid) tr) :
  exists pre studio_name emby_server emby_api_key,
    tr = app pre [SSearch i; SUpload i cid] /\
    dindex config "studio_name" = Ok studio_name /\
    dindex config "emby_server" = Ok emby_server /\
    dindex config "emby_api_key" = Ok emby_api_key /\
    truthy (find emby_server emby_api_key (dget config "user_id" PNone) studio_name i) = true /\
    vindex (find emby_server emby_api_key (dget config "user_id" PNone) studio_name i) "Id"
      = Ok cid.
Proof.
  unfold sync_studio_to_collection in H.
  repeat (sw_step H).
  all: simpl in Hin; repeat (destruct Hin as [Hin|Hin]; [try discriminate Hin|]);
    try contradiction.
  all: injection Hin as <- <-; simpl app.
  all: match goal with
       | |- exists pre, exists _ _ _, ?l = _ /\ _ => exists (removelast (removelast l))
       end.
  all: do 3 eexists; split; [reflexivity|]; repeat split; eassumption.
Qed.

Lemma studio_sync_schedule_witness :
  sync_studio_to_collection ex_sw_find ex_sw_upload ex_sw_config
    = (ex_sw_trace, Ok SyncCompleted) /\
  dget ex_sw_config "stash_wait" (PInt 35) = PInt 35 /\
  dget ex_sw_config "emby_wait" (PInt 70) = PInt 70 /\
  ((exists suf, app (sleeps ex_sw_trace) suf = [35; 70; 30; 60; 90]%Z) /\
   (exists suf, app (searches ex_sw_trace) suf = [0; 1; 2]%nat) /\
   (length (uploads ex_sw_trace) <= 1)%nat /\
   (Ok SyncCompleted = Ok GaveUp ->
      searches ex_sw_trace = [0; 1; 2]%nat /\ uploads ex_sw_trace = []) /\
   (truthy (dget ex_sw_config "collection_id" PNone) = false -> ex_sw_trace = [])).
Proof.
  split; [vm_compute; reflexivity|].
  split; [reflexivity|]. split; [reflexivity|].
  apply (studio_sync_schedule ex_sw_find ex_sw_upload ex_sw_config); vm_compute; reflexivity.
Defined.

Lemma studio_sync_uploads_found_collection_witness :
  sync_studio_to_collection ex_sw_find ex_sw_upload ex_sw_config
    = (ex_sw_trace, Ok SyncCompleted) /\
  In (SUpload 1 (PStr "9")) ex_sw_trace /\
  exists pre studio_name emby_server emby_api_key,
    ex_sw_trace = app pre [SSearch 1; SUpload 1 (PStr "9")] /\
    dindex ex_sw_config "studio_name" = Ok studio_name /\
    dindex ex_sw_config "emby_server" = Ok emby_server /\
    dindex ex_sw_config "emby_api_key" = Ok emby_api_key /\
    truthy (ex_sw_find emby_server emby_api_key (dget ex_sw_config "user_id" PNone)
              studio_name 1) = true /\
    vindex (ex_sw_find emby_server emby_api_key (dget ex_sw_config "user_id" PNone)
              studio_name 1) "Id" = Ok (PStr "9").
Proof.
  split; [vm_compute; reflexivity|].
  split; [simpl; tauto|].
  apply (studio_sync_uploads_found_collection ex_sw_find ex_sw_upload ex_sw_config
           ex_sw_trace (Ok SyncCompleted) 1 (PStr "9")).
  - vm_compute; reflexivity.
  - simpl; tauto.
Defined.

(** The worker that [start_worker] launches sleeps the delays parsed from
    [worker_delays] (its configuration read back as [start_worker] built
    it): its sleeps are a prefix of the stash wait, the Emby wait, 30, 60
    and 90 seconds. *)
Theorem start_worker_config_sleeps studio_id studio_name emby_data collection_id user_id
    settings script config new_session find upload tr r
  (Hs : StudioToCollection.start_worker studio_id studio_name emby_data collection_id
          user_id settings = Ok [PPopen script config new_session])
  (Hw : sync_studio_to_collection find upload config = (tr, r)) :
  let '(stash_wait, emby_wait) :=
    StudioToCollection.parse_worker_delays (dget settings "worker_delays" (PStr "35,70")) in
  exists suf, app (sleeps tr) suf = [stash_wait; emby_wait; 30; 60; 90]%Z.
Proof.
  unfold StudioToCollection.start_worker in Hs.
  destruct (StudioToCollection.parse_worker_delays _) as [sw ew].
  cbv [bind] in Hs.
  repeat match type of Hs with
         | context [match ?x with Ok _ => _ | Exc _ => _ end] =>
             lazymatch x with
             | context [match _ with _ => _ end] => fail
             | _ => destruct x; [|discriminate Hs]
             end
         end.
  injection Hs as <- Hc <-.
  assert (E1 : dget config "stash_wait" (PInt 35) = PInt sw) by (subst config; reflexivity).
  assert (E2 : dget config "emby_wait" (PInt 70) = PInt ew) by (subst config; reflexivity).
  clear Hc. unfold sync_studio_to_collection in Hw. rewrite E1, E2 in Hw.
  cbn [sleep_v] in Hw.
  repeat (sw_step Hw).
  all: simpl; eexists; reflexivity.
Qed.

Lemma start_worker_config_sleeps_witness :
  StudioToCollection.start_worker 3 (PStr "Stu") (PDict [("Name", PStr "Stu")])
    (PStr "9") (PStr "u1") ex_stc_settings
    = Ok [PPopen StudioToCollection.worker_script ex_sw_worker_config true] /\
  (let '(stash_wait, emby_wait) :=
     StudioToCollection.parse_worker_delays
       (dget ex_stc_settings "worker_delays" (PStr "35,70")) in
   exists suf,
     app (sleeps (fst (sync_studio_to_collection ex_sw_find ex_sw_upload ex_sw_worker_config)))
       suf = [stash_wait; emby_wait; 30; 60; 90]%Z).
Proof.
  split; [vm_compute; reflexivity|].
  apply (start_worker_config_sleeps 3 (PStr "Stu") (PDict [("Name", PStr "Stu")])
           (PStr "9") (PStr "u1") ex_stc_settings StudioToCollection.worker_script
           ex_sw_worker_config true ex_sw_find ex_sw_upload
           (fst (sync_studio_to_collection ex_sw_find ex_sw_upload ex_sw_worker_config))
           (snd (sync_studio_to_collection ex_sw_find ex_sw_upload ex_sw_worker_config))).
  - vm_compute; reflexivity.
  - apply surjective_pairing.
Defined.
